(** * RobotAI: session context, structured LLM output and the speech endpoint

    A shallow embedding of

    - [src/mcp/context_builder.py]  (class [ContextBuilder]),
    - [src/llm/typhoon_client.py]   ([TyphoonClient.chat] and
      [TyphoonClient.generate_structured]),
    - [src/api/main.py]             ([process_speech], which reads the same
      in [api/main.py]),

    followed by theorems about the confidence gate, the bounded conversation
    history, context assembly and rendering, the fence-tolerant JSON parser,
    the navigation decision and the failure behaviour of [/speech/input].

    Python values are modelled as the code uses them: [str] as [string]
    (UTF-8 bytes), [float] as binary64 [float], dictionaries used as maps as
    [gmap], exceptions and the mutable service state by a small state and
    exception monad. Log lines are not part of the model. *)

From Stdlib Require Import Ascii String Floats.
From stdpp Require Import base option list gmap strings pretty.

Set Default Proof Using "Type".
Set Warnings "-register-all".
Local Open Scope string_scope.

(** ** Python values *)

(** The line feed, written [\n] in the Python source. *)
Definition nl : string := String "010"%char "".
(** The double quote character. *)
Definition dq : string := String "034"%char "".

(** What [json.loads] produces: [None], [bool], [int], [float], [str],
    [list] and [dict] (a dictionary keeps its keys in insertion order, each
    key once). *)
Inductive json : Type :=
  | JNull
  | JBool (b : bool)
  | JInt (z : Z)
  | JFloat (f : float)
  | JStr (s : string)
  | JArr (items : list json)
  | JObj (fields : list (string * json)).

(** A conversation turn, the dictionary built in [add_conversation_turn]. *)
Record turn : Type := Turn {
  role : string;
  content : json;
  timestamp : string
}.

(** The values a session dictionary holds. *)
Inductive pyval : Type :=
  | VNone
  | VStr (s : string)
  | VList (turns : list turn)
  | VDict (d : gmap string json).

(** A record returned by [MilvusClient.search_memory]. *)
Record memory : Type := Memory {
  mem_text : string;
  mem_score : float;
  mem_memory_type : string;
  mem_student_id : string;
  mem_timestamp : Z
}.

(** Truth value of a Python object, as tested by [if x:] and [not x]. *)
Definition truthy (v : json) : bool :=
  match v with
  | JNull => false
  | JBool b => b
  | JInt z => negb (z =? 0)%Z
  | JFloat f => negb (PrimFloat.eqb f PrimFloat.zero)
  | JStr s => negb (String.eqb s "")
  | JArr items => negb (Nat.eqb (length items) 0)
  | JObj fields => negb (Nat.eqb (length fields) 0)
  end.

Definition str_truthy (s : string) : bool := negb (String.eqb s "").

Definition json_eq_str (v : json) (s : string) : bool :=
  match v with
  | JStr s' => String.eqb s' s
  | _ => false
  end.

Definition pyval_eq_str (v : pyval) (s : string) : bool :=
  match v with
  | VStr s' => String.eqb s' s
  | _ => false
  end.

Definition pyval_truthy (v : pyval) : bool :=
  match v with
  | VNone => false
  | VStr s => str_truthy s
  | VList turns => negb (Nat.eqb (length turns) 0)
  | VDict d => negb (Nat.eqb (size d) 0)
  end.

(** [d.get(k)] and [d.get(k, default)] on a decoded JSON object. *)
Fixpoint assoc_get (k : string) (fields : list (string * json)) : option json :=
  match fields with
  | [] => None
  | (k', v) :: rest => if String.eqb k' k then Some v else assoc_get k rest
  end.

(** [l[-n:]] for a positive constant [n]: the last [n] items, or all of
    them when there are fewer. *)
Definition slice_last {A : Type} (n : nat) (l : list A) : list A :=
  drop (length l - n) l.

(** [l[:n]]. *)
Definition slice_first {A : Type} (n : nat) (l : list A) : list A :=
  take n l.

(** [sep.join(parts)]. *)
Fixpoint join (sep : string) (parts : list string) : string :=
  match parts with
  | [] => ""
  | [p] => p
  | p :: rest => p ++ sep ++ join sep rest
  end.

(** ** Python string operations used by the parser *)

Fixpoint drop_string (n : nat) (s : string) : string :=
  match n, s with
  | 0, _ => s
  | S n', String _ s' => drop_string n' s'
  | S _, "" => ""
  end.

(** [sub in s]. *)
Fixpoint contains (sub s : string) : bool :=
  String.prefix sub s ||
  match s with
  | "" => false
  | String _ s' => contains sub s'
  end.

(** The text before and after the first occurrence of [sep] in [s]. *)
Fixpoint partition (sep s : string) : option (string * string) :=
  if String.prefix sep s then Some ("", drop_string (String.length sep) s)
  else match s with
       | "" => None
       | String c s' =>
           match partition sep s' with
           | Some (before, after) => Some (String c before, after)
           | None => None
           end
       end.

Fixpoint split_fuel (fuel : nat) (sep s : string) : list string :=
  match fuel with
  | 0 => [s]
  | S fuel' =>
      match partition sep s with
      | None => [s]
      | Some (before, after) => before :: split_fuel fuel' sep after
      end
  end.

(** [s.split(sep)] for a non-empty separator: every piece removes at least
    one character, so [length s] rounds are enough. *)
Definition split (sep s : string) : list string :=
  split_fuel (String.length s) sep s.

Definition bytes (codes : list nat) : string :=
  foldr (fun n s => String (ascii_of_nat n) s) "" codes.

(** The characters [str.strip] removes: U+0009..U+000D, U+001C..U+0020 as
    single bytes, and the UTF-8 encodings of U+0085, U+00A0, U+1680,
    U+2000..U+200A, U+2028, U+2029, U+202F, U+205F and U+3000. *)
Definition is_space_byte (c : ascii) : bool :=
  let n := nat_of_ascii c in
  ((9 <=? n) && (n <=? 13) || (28 <=? n) && (n <=? 32))%nat.

Definition wide_spaces : list string :=
  [ bytes [194; 133]; bytes [194; 160]; bytes [225; 154; 128] ] ++
  map (fun k => bytes [226; 128; (128 + k)%nat]) (seq 0 11) ++
  [ bytes [226; 128; 168]; bytes [226; 128; 169]; bytes [226; 128; 175];
    bytes [226; 129; 159]; bytes [227; 128; 128] ].

Fixpoint strip_left (fuel : nat) (spaces : list string) (s : string) : string :=
  match fuel, s with
  | S fuel', String c s' =>
      if is_space_byte c then strip_left fuel' spaces s'
      else match List.find (fun w => String.prefix w s) spaces with
           | Some w => strip_left fuel' spaces (drop_string (String.length w) s)
           | None => s
           end
  | _, _ => s
  end.

Definition lstrip (s : string) : string :=
  strip_left (String.length s) wide_spaces s.

Definition rstrip (s : string) : string :=
  String.rev (strip_left (String.length s) (map String.rev wide_spaces) (String.rev s)).

(** [s.strip()]. *)
Definition strip (s : string) : string := rstrip (lstrip s).

(** ** Exceptions and the service state *)

Inductive exn : Type :=
  | KeyError (key : string)
  | TypeError
  | AttributeError
  | IndexError
  | ValidationError
  (** What [json.loads] raises: [json.JSONDecodeError] on a text that is no
      JSON, and the exceptions that are no [JSONDecodeError] ([RecursionError]
      on a nesting too deep, [ValueError] on a number of too many digits). *)
  | JSONDecodeError
  | RecursionError
  | ValueError
  (** [str.encode] on a character the encoding does not have. *)
  | UnicodeEncodeError
  | Exception (msg : string)
  (** [HTTPException(status_code, detail=str(e))]; the detail is kept as the
      exception [e] whose text it is. *)
  | HTTPException (status_code : nat) (detail : exn).

Inductive result (A : Type) : Type :=
  | Returns (a : A)
  | Raises (e : exn).
Arguments Returns {A} a.
Arguments Raises {A} e.

(** One request sent to an external collaborator. *)
Inductive call : Type :=
  | SearchMemory (query : string) (top_k : nat)
  | ChatRequest (messages : list (string * string)) (temperature : float)
      (max_tokens : nat).

(** The state of the service: [context_builder.session_contexts], the number
    of clock readings taken so far, and the requests sent so far to Milvus
    and to the LLM (most recent last). *)
Record world : Type := World {
  session_contexts : gmap string (gmap string pyval);
  clock : nat;
  calls : list call
}.

(** A Python computation: it runs on a state and either returns or raises,
    and leaves a state behind in both cases. *)
Definition py (A : Type) : Type := world -> result A * world.

Definition ret {A : Type} (a : A) : py A := fun w => (Returns a, w).

Definition raise {A : Type} (e : exn) : py A := fun w => (Raises e, w).

Definition bind {A B : Type} (m : py A) (k : A -> py B) : py B :=
  fun w =>
    match m w with
    | (Returns a, w') => k a w'
    | (Raises e, w') => (Raises e, w')
    end.

(** [try: body except Exception as e: handler(e)]. *)
Definition try_except {A : Type} (body : py A) (handler : exn -> py A) : py A :=
  fun w =>
    match body w with
    | (Returns a, w') => (Returns a, w')
    | (Raises e, w') => handler e w'
    end.

Notation "x <- m ;; k" := (bind m (fun x => k))
  (at level 100, m at next level, right associativity).
Notation "m ;;; k" := (bind m (fun _ => k))
  (at level 100, right associativity).

Definition lift_option {A : Type} (e : exn) (o : option A) : py A :=
  match o with
  | Some a => ret a
  | None => raise e
  end.

(** [l[i]] on a Python list: [IndexError] when out of range. *)
Definition list_index {A : Type} (l : list A) (i : nat) : result A :=
  match l !! i with
  | Some a => Returns a
  | None => Raises IndexError
  end.

Definition result_bind {A B : Type} (r : result A) (k : A -> result B) : result B :=
  match r with
  | Returns a => k a
  | Raises e => Raises e
  end.

(** ** The context assembled for the LLM *)

(** An entry of [llm_context["relevant_memories"]]. *)
Record relevant_memory : Type := RelevantMemory {
  rm_content : string;
  rm_relevance_score : float;
  rm_type : string
}.

(** The dictionary built by [build_llm_context]. *)
Record llm_context : Type := LlmContext {
  student_info_id : pyval;
  student_info_name : pyval;
  ctx_conversation_history : list turn;
  ctx_current_location : pyval;
  ctx_environment : pyval;
  relevant_memories : list relevant_memory
}.

(** ** Requests and responses of the API *)

Record SpeechInput : Type := {
  speech_session_id : string;
  speech_text : string;
  speech_confidence : float
}.

Record NavigationGoal : Type := {
  target_location : json;
  priority : string
}.

Record ChatResponse : Type := {
  session_id : string;
  response_text : string;
  intent : string;
  should_navigate : bool;
  navigation_goal : option NavigationGoal
}.

(** The entries of [config/settings.yaml] that [process_speech] reads. *)
Record settings : Type := {
  stt_confidence_threshold : float;
  memory_retrieval_top_k : nat;
  llm_temperature : float
}.

(** What [requests.post] to the Ollama chat endpoint comes back with:
    an exception anywhere inside [chat]'s [try] block (no connection, a body
    that is not JSON, a content that is not a string), or a status code
    together with the [message.content] string of the body when it has one. *)
Inductive post_reply : Type :=
  | PostFailed
  | PostReplied (status_code : nat) (message_content : option string).

Section Service.

(** The reading [datetime.now().isoformat()] returns when it is the [n]-th
    reading of the clock. *)
Variable isoformat_now : nat -> string.
(** [str(x)] for the values whose text is Python's [repr]: containers and
    floats. *)
Variable repr : pyval -> string.
Variable repr_json : json -> string.
(** The collaborators: Milvus similarity search, the Ollama chat endpoint
    (both may answer differently as requests accumulate) and [json.loads],
    which returns the decoded value or raises: [JSONDecodeError] on a text
    that is no JSON, or another exception. *)
Variable milvus_search : list call -> string -> nat -> list memory.
Variable ollama_chat :
  list call -> list (string * string) -> float -> nat -> post_reply.
Variable json_loads : string -> result json.
Variable config : settings.

(** [f"{x}"]. *)
Definition py_str (v : pyval) : string :=
  match v with
  | VNone => "None"
  | VStr s => s
  | _ => repr v
  end.

Definition json_str (v : json) : string :=
  match v with
  | JNull => "None"
  | JBool true => "True"
  | JBool false => "False"
  | JInt z => pretty z
  | JStr s => s
  | _ => repr_json v
  end.

(** *** [ContextBuilder] *)

Definition datetime_now : py string :=
  fun w => (Returns (isoformat_now (clock w)),
            World (session_contexts w) (S (clock w)) (calls w)).

(** [session_id in self.session_contexts]. *)
Definition session_in (sid : string) : py bool :=
  fun w => (Returns (bool_decide (is_Some (session_contexts w !! sid))), w).

(** [self.session_contexts[sid]]. *)
Definition session_of (sid : string) : py (gmap string pyval) :=
  fun w => (match session_contexts w !! sid with
            | Some s => Returns s
            | None => Raises (KeyError sid)
            end, w).

(** [self.session_contexts[sid] = s]. *)
Definition store_session (sid : string) (s : gmap string pyval) : py unit :=
  fun w => (Returns tt,
            World (<[sid := s]> (session_contexts w)) (clock w) (calls w)).

(** [self.session_contexts[sid][key]]. *)
Definition getitem (sid key : string) : py pyval :=
  s <- session_of sid ;;
  lift_option (KeyError key) (s !! key).

(** [self.session_contexts[sid][key] = v]. *)
Definition setitem (sid key : string) (v : pyval) : py unit :=
  s <- session_of sid ;;
  store_session sid (<[key := v]> s).

Definition new_session (sid created_at last_updated : string)
    : gmap string pyval :=
  list_to_map
    [ ("session_id", VStr sid);
      ("student_id", VNone);
      ("student_name", VNone);
      ("conversation_history", VList []);
      ("current_location", VNone);
      ("detected_faces", VList []);
      ("environment_info", VDict ∅);
      ("created_at", VStr created_at);
      ("last_updated", VStr last_updated) ].

Definition create_session (sid : string) : py unit :=
  created_at <- datetime_now ;;
  last_updated <- datetime_now ;;
  store_session sid (new_session sid created_at last_updated).

(** [if session_id not in self.session_contexts: self.create_session(session_id)] *)
Definition create_if_missing (sid : string) : py unit :=
  present <- session_in sid ;;
  if negb present then create_session sid else ret tt.

Definition update_student_identity (sid student_id student_name : string)
    : py unit :=
  create_if_missing sid ;;;
  setitem sid "student_id" (VStr student_id) ;;;
  setitem sid "student_name" (VStr student_name) ;;;
  now <- datetime_now ;;
  setitem sid "last_updated" (VStr now).

(** [self.session_contexts[sid][key].append(t)]: only a list has [append]. *)
Definition append_item (sid key : string) (t : turn) : py unit :=
  v <- getitem sid key ;;
  match v with
  | VList turns => setitem sid key (VList (turns ++ [t]))
  | _ => raise AttributeError
  end.

(** The list stored under [key]; the callers below run after [append_item]
    succeeded on the same key. *)
Definition getlist (sid key : string) : py (list turn) :=
  v <- getitem sid key ;;
  match v with
  | VList turns => ret turns
  | _ => raise TypeError
  end.

Definition max_history : nat := 10.

Definition add_conversation_turn (sid role : string) (content : json)
    : py unit :=
  create_if_missing sid ;;;
  now <- datetime_now ;;
  let t := Turn role content now in
  append_item sid "conversation_history" t ;;;
  history <- getlist sid "conversation_history" ;;
  (if (max_history <? length history)%nat
   then history' <- getlist sid "conversation_history" ;;
        setitem sid "conversation_history"
          (VList (slice_last max_history history'))
   else ret tt) ;;;
  now' <- datetime_now ;;
  setitem sid "last_updated" (VStr now').

Definition update_location (sid location : string) : py unit :=
  create_if_missing sid ;;;
  setitem sid "current_location" (VStr location) ;;;
  now <- datetime_now ;;
  setitem sid "last_updated" (VStr now).

(** [d.update(env_data)]: the keys of [env_data] are set, the others kept. *)
Definition update_environment (sid : string) (env_data : gmap string json)
    : py unit :=
  create_if_missing sid ;;;
  v <- getitem sid "environment_info" ;;
  match v with
  | VDict d => setitem sid "environment_info" (VDict (env_data ∪ d))
  | _ => raise AttributeError
  end ;;;
  now <- datetime_now ;;
  setitem sid "last_updated" (VStr now).

(** [ctx.get(key, default)]: the default is used only when the dictionary
    has no such key. *)
Definition dict_get (ctx : gmap string pyval) (key : string) (fallback : pyval)
    : pyval :=
  match ctx !! key with
  | Some v => v
  | None => fallback
  end.

Definition to_relevant (mem : memory) : relevant_memory :=
  RelevantMemory (mem_text mem) (mem_score mem) (mem_memory_type mem).

(** The dictionary literal of [build_llm_context] together with the
    memories added to it, for a session [ctx] whose sliced history is
    [history]. *)
Definition context_dict (ctx : gmap string pyval) (history : list turn)
    (retrieved_memories : list memory) : llm_context :=
  {| student_info_id := dict_get ctx "student_id" (VStr "unknown");
     student_info_name := dict_get ctx "student_name" (VStr "unknown");
     ctx_conversation_history := history;
     ctx_current_location := dict_get ctx "current_location" (VStr "unknown");
     ctx_environment := dict_get ctx "environment_info" (VDict ∅);
     relevant_memories :=
       if negb (length retrieved_memories =? 0)%nat
       then map to_relevant (slice_first 3 retrieved_memories)
       else [] |}.

(** [build_llm_context]. The history is kept as a list of turns: where the
    session held something else than a list under ["conversation_history"]
    (which no method of the class stores), slicing is taken to raise here. *)
Definition build_llm_context (sid : string) (retrieved_memories : list memory)
    : py llm_context :=
  create_if_missing sid ;;;
  ctx <- session_of sid ;;
  history <-
    match dict_get ctx "conversation_history" (VList []) with
    | VList turns => ret (slice_last 5 turns)
    | _ => raise TypeError
    end ;;
  ret (context_dict ctx history retrieved_memories).

Definition role_thai (t : turn) : string :=
  if String.eqb (role t) "user" then "นักศึกษา" else "หุ่นยนต์".

(** The four parts of the prompt, in the order in which
    [format_context_as_prompt] appends them to [prompt_parts]. *)
Definition student_part (c : llm_context) : list string :=
  let student_name := student_info_name c in
  if negb (pyval_eq_str student_name "unknown")
  then ["คุณกำลังพูดคุยกับ " ++ py_str student_name]
  else [].

Definition location_part (c : llm_context) : list string :=
  let location := ctx_current_location c in
  if pyval_truthy location && negb (pyval_eq_str location "unknown")
  then ["ตำแหน่งปัจจุบัน: " ++ py_str location]
  else [].

(** [enumerate(memories, 1)] rendered line by line. *)
Definition memory_lines (memories : list relevant_memory) : list string :=
  imap (fun i mem => pretty (i + 1)%nat ++ ". " ++ rm_content mem) memories.

Definition memories_part (c : llm_context) : list string :=
  let memories := relevant_memories c in
  if negb (length memories =? 0)%nat
  then (nl ++ "ความทรงจำที่เกี่ยวข้อง:") :: memory_lines memories
  else [].

Definition turn_line (t : turn) : string :=
  role_thai t ++ ": " ++ json_str (content t).

Definition history_part (c : llm_context) : list string :=
  let history := ctx_conversation_history c in
  if negb (length history =? 0)%nat
  then (nl ++ "บทสนทนาล่าสุด:") :: map turn_line (slice_last 3 history)
  else [].

Definition prompt_parts (c : llm_context) : list string :=
  student_part c ++ location_part c ++ memories_part c ++ history_part c.

Definition format_context_as_prompt (c : llm_context) : string :=
  join nl (prompt_parts c).

Definition get_session (sid : string) : py (option (gmap string pyval)) :=
  fun w => (Returns (session_contexts w !! sid), w).

Definition clear_session (sid : string) : py unit :=
  present <- session_in sid ;;
  if present
  then fun w => (Returns tt,
                 World (delete sid (session_contexts w)) (clock w) (calls w))
  else ret tt.

(** *** [TyphoonClient] *)

(** [chat]: the request is sent; anything but a 200 reply yields [None],
    a 200 reply yields the stripped content (the empty string when the body
    has none). *)
Definition chat (messages : list (string * string)) (temperature : float)
    (max_tokens : nat) : py (option string) :=
  fun w =>
    let reply := ollama_chat (calls w) messages temperature max_tokens in
    let w' := World (session_contexts w) (clock w)
                (calls w ++ [ChatRequest messages temperature max_tokens]) in
    match reply with
    | PostFailed => (Returns None, w')
    | PostReplied status_code message_content =>
        if (status_code =? 200)%nat
        then (Returns (Some (strip (default "" message_content))), w')
        else (Returns None, w')
    end.

(** Lines 145-148 of [generate_structured]: the text handed to
    [json.loads]. *)
Definition remove_code_fence (response : string) : result string :=
  if contains "```json" response then
    result_bind (list_index (split "```json" response) 1) (fun inner =>
    result_bind (list_index (split "```" inner) 0) (fun body =>
    Returns (strip body)))
  else if contains "```" response then
    result_bind (list_index (split "```" response) 1) (fun inner =>
    result_bind (list_index (split "```" inner) 0) (fun body =>
    Returns (strip body)))
  else Returns response.

(** Lines 141-156 of [generate_structured]: what is returned for a given
    result of [chat]. Python's [None] is [JNull], whether it comes from
    [return None] or from decoding the text [null]. Only
    [json.JSONDecodeError] is caught: any other exception of the [try] block
    leaves the function. *)
Definition parse_structured (response : option string) : result json :=
  match response with
  | Some text =>
      if str_truthy text then
        result_bind (remove_code_fence text) (fun body =>
        match json_loads body with
        | Returns v => Returns v
        | Raises JSONDecodeError => Returns JNull
        | Raises e => Raises e
        end)
      else Returns JNull
  | None => Returns JNull
  end.

Definition generate_structured (system_prompt user_message : string)
    (temperature : float) : py json :=
  let messages := [("system", system_prompt); ("user", user_message)] in
  response <- chat messages temperature 512 ;;
  fun w => (parse_structured response, w).

(** *** [api/main.py] *)

Definition system_prompt : string :=
  "คุณคือหุ่นยนต์บริการในมหาวิทยาลัย ชื่อว่า " ++ dq ++ "น้องบอท" ++ dq ++ " " ++ nl ++
  "คุณพูดภาษาไทยอย่างเป็นมิตร และช่วยเหลือนักศึกษาในการนำทาง ตอบคำถาม และบันทึกไดอารี่" ++ nl ++
  nl ++
  "ตอบคำถามอย่างกระชับและเป็นธรรมชาติ " ++ nl ++
  "ถ้านักศึกษาต้องการนำทางไปยังสถานที่ ให้ระบุ intent เป็น " ++ dq ++ "navigation" ++ dq ++ nl ++
  "ถ้าเป็นการสนทนาทั่วไป ให้ระบุ intent เป็น " ++ dq ++ "conversation" ++ dq ++ nl ++
  nl ++
  "ตอบกลับในรูปแบบ JSON:" ++ nl ++
  "{" ++ nl ++
  "    " ++ dq ++ "response" ++ dq ++ ": " ++ dq ++ "คำตอบของคุณ" ++ dq ++ "," ++ nl ++
  "    " ++ dq ++ "intent" ++ dq ++ ": " ++ dq ++ "navigation หรือ conversation" ++ dq ++ "," ++ nl ++
  "    " ++ dq ++ "location" ++ dq ++ ": " ++ dq ++ "ชื่อสถานที่ (ถ้า intent เป็น navigation)" ++ dq ++ nl ++
  "}".

Definition clarification_text : string :=
  "ขอโทษค่ะ ฉันไม่ค่อยได้ยินชัดเจน ช่วยพูดอีกครั้งได้ไหมคะ".

Definition default_response_text : string := "ขอโทษค่ะ ฉันไม่เข้าใจ".

(** [milvus_client.search_memory(query=..., top_k=...)]. *)
Definition search_memory (query : string) (top_k : nat) : py (list memory) :=
  fun w => (Returns (milvus_search (calls w) query top_k),
            World (session_contexts w) (clock w)
              (calls w ++ [SearchMemory query top_k])).

(** [llm_output.get(key, default)]: only a dictionary has [get]. *)
Definition output_get (llm_output : json) (key : string) (fallback : json)
    : py json :=
  match llm_output with
  | JObj fields => ret (default fallback (assoc_get key fields))
  | _ => raise AttributeError
  end.

(** The constructor of the pydantic model [ChatResponse]: [response_text]
    and [intent] are declared [str] and are validated as such (as pydantic 2
    does: a value that is not a string is refused, not converted). *)
Definition make_ChatResponse (sid : string) (response_text intent : json)
    (should_navigate : bool) (navigation_goal : option NavigationGoal)
    : py ChatResponse :=
  match response_text, intent with
  | JStr r, JStr i =>
      ret {| session_id := sid; response_text := r; intent := i;
             should_navigate := should_navigate;
             navigation_goal := navigation_goal |}
  | _, _ => raise ValidationError
  end.

(** Lines 268-277 of [process_speech]: the navigation decision. *)
Definition navigation_decision (intent location : json)
    : bool * option NavigationGoal :=
  if json_eq_str intent "navigation" && truthy location
  then (true, Some {| target_location := location; priority := "normal" |})
  else (false, None).

(** Lines 255-285 of [process_speech]: from the test of the LLM output to
    the response. *)
Definition respond (sid : string) (llm_output : json) : py ChatResponse :=
  if negb (truthy llm_output)
  then raise (Exception "LLM returned no response")
  else
    response_text <- output_get llm_output "response"
                       (JStr default_response_text) ;;
    intent <- output_get llm_output "intent" (JStr "conversation") ;;
    location <- output_get llm_output "location" JNull ;;
    add_conversation_turn sid "assistant" response_text ;;;
    let '(should_navigate, navigation_goal) :=
      navigation_decision intent location in
    make_ChatResponse sid response_text intent should_navigate navigation_goal.

(** [f"{context_text}\n\nนักศึกษา: {speech.text}\n\nน้องบอท:"]. *)
Definition user_message (context_text text : string) : string :=
  context_text ++ nl ++ nl ++ "นักศึกษา: " ++ text ++ nl ++ nl ++ "น้องบอท:".

Definition process_speech (speech : SpeechInput) : py ChatResponse :=
  try_except
    (if PrimFloat.ltb (speech_confidence speech) (stt_confidence_threshold config)
     then make_ChatResponse (speech_session_id speech)
            (JStr clarification_text) (JStr "clarification") false None
     else
       add_conversation_turn (speech_session_id speech) "user"
         (JStr (speech_text speech)) ;;;
       memories <- search_memory (speech_text speech)
                     (memory_retrieval_top_k config) ;;
       llm_context <- build_llm_context (speech_session_id speech) memories ;;
       let context_text := format_context_as_prompt llm_context in
       llm_output <- generate_structured system_prompt
                       (user_message context_text (speech_text speech))
                       (llm_temperature config) ;;
       respond (speech_session_id speech) llm_output)
    (fun e => raise (HTTPException 500 e)).

(** *** The other endpoints of [api/main.py] *)

(** The body of [POST /context/update]. *)
Record ContextUpdate : Type := {
  cu_session_id : string;
  cu_student_id : option string;
  cu_student_name : option string;
  cu_location : option string;
  cu_environment_data : option (gmap string json)
}.

(** Truth value of a session dictionary, as tested on what
    [context_builder.get_session] returns. *)
Definition session_truthy (session : option (gmap string pyval)) : bool :=
  match session with
  | Some s => negb (size s =? 0)%nat
  | None => false
  end.

(** [update_context]; the reply is the dictionary of three strings. *)
Definition update_context (ctx : ContextUpdate) : py (list (string * string)) :=
  try_except
    (session <- get_session (cu_session_id ctx) ;;
     (if negb (session_truthy session)
      then create_session (cu_session_id ctx) else ret tt) ;;;
     (match cu_student_id ctx, cu_student_name ctx with
      | Some student_id, Some student_name =>
          if str_truthy student_id && str_truthy student_name
          then update_student_identity (cu_session_id ctx) student_id student_name
          else ret tt
      | _, _ => ret tt
      end) ;;;
     (match cu_location ctx with
      | Some location =>
          if str_truthy location
          then update_location (cu_session_id ctx) location else ret tt
      | None => ret tt
      end) ;;;
     (match cu_environment_data ctx with
      | Some environment_data =>
          if negb (size environment_data =? 0)%nat
          then update_environment (cu_session_id ctx) environment_data
          else ret tt
      | None => ret tt
      end) ;;;
     ret [ ("status", "success");
           ("session_id", cu_session_id ctx);
           ("message", "Context updated") ])
    (fun e => raise (HTTPException 500 e)).

(** [GET /session/{session_id}]: the reply holds the status string and the
    session; the detail of the 404 is the text [Session not found]. *)
Definition get_session_endpoint (sid : string)
    : py (string * gmap string pyval) :=
  session <- get_session sid ;;
  match session with
  | Some s =>
      if session_truthy session then ret ("success", s)
      else raise (HTTPException 404 (Exception "Session not found"))
  | None => raise (HTTPException 404 (Exception "Session not found"))
  end.

(** [DELETE /session/{session_id}]. *)
Definition clear_session_endpoint (sid : string) : py (list (string * string)) :=
  clear_session sid ;;;
  ret [ ("status", "success"); ("message", "Session " ++ sid ++ " cleared") ].

(** The uploaded audio of [POST /voice/interact], and the two voice services
    as the globals [whisper_stt] and [vachana_tts] hold them: [None] when the
    service did not start. Transcription stands for the steps of
    [voice_interact] up to the reading of the text and the confidence (it
    raises when saving the upload does); synthesis returns the audio file.
    The headers [X-Confidence] and [X-Should-Navigate] hold the text of a
    float and of a boolean, which latin-1 always has; the three others hold
    the texts checked below. *)
Variable upload : Type.
Variable whisper_stt : option (upload -> result (string * float)).
Variable vachana_tts : option (string -> result string).

(** The [FileResponse] of [voice_interact]: the file and the values its
    headers are written from. *)
Record VoiceReply : Type := {
  voice_audio_file : string;
  x_user_text : string;
  x_confidence : float;
  x_response_text : string;
  x_intent : string;
  x_should_navigate : bool
}.

Definition lift_result {A : Type} (r : result A) : py A := fun w => (r, w).

(** [v.encode("latin-1")] succeeds: every character of [v] is below U+0100.
    On the UTF-8 bytes of the text these are the bytes below 128 and the
    two-byte sequences led by 194 or 195. *)
Fixpoint latin1 (v : string) : bool :=
  match v with
  | "" => true
  | String c rest =>
      if (nat_of_ascii c <? 128)%nat then latin1 rest
      else if (nat_of_ascii c =? 194)%nat || (nat_of_ascii c =? 195)%nat then
        match rest with
        | String c' rest' =>
            (128 <=? nat_of_ascii c')%nat && (nat_of_ascii c' <? 192)%nat &&
            latin1 rest'
        | "" => false
        end
      else false
  end.

(** The constructor of a response with [headers]: the framework encodes
    every header value as latin-1 ([Response.init_headers]), which raises
    [UnicodeEncodeError] on a value that has a character beyond. *)
Definition with_headers {A : Type} (headers : list string) (response : A)
    : py A :=
  if forallb latin1 headers then ret response else raise UnicodeEncodeError.

Definition voice_interact (audio : upload) (sid : string) : py VoiceReply :=
  match whisper_stt, vachana_tts with
  | Some transcribe_audio, Some synthesize =>
      try_except
        (stt_result <- lift_result (transcribe_audio audio) ;;
         let user_text := fst stt_result in
         let confidence := snd stt_result in
         chat_response <- process_speech
                            {| speech_session_id := sid;
                               speech_text := user_text;
                               speech_confidence := confidence |} ;;
         audio_file <- lift_result (synthesize (response_text chat_response)) ;;
         with_headers
           [user_text; response_text chat_response; intent chat_response]
           {| voice_audio_file := audio_file;
              x_user_text := user_text;
              x_confidence := confidence;
              x_response_text := response_text chat_response;
              x_intent := intent chat_response;
              x_should_navigate := should_navigate chat_response |})
        (fun e => raise (HTTPException 500 e))
  | _, _ => raise (HTTPException 503 (Exception "Voice services not available"))
  end.

(** ** Specification vocabulary *)

(** The conversation history of a session, when the session exists and
    holds a list there. *)
Definition history_of (sid : string) (w : world) : option (list turn) :=
  match session_contexts w !! sid with
  | Some s =>
      match s !! "conversation_history" with
      | Some (VList turns) => Some turns
      | _ => None
      end
  | None => None
  end.

(** A session dictionary on which every method of [ContextBuilder] runs
    without a [KeyError] or [AttributeError]. *)
Definition well_formed (s : gmap string pyval) : Prop :=
  (exists turns, s !! "conversation_history" = Some (VList turns)) /\
  (exists d, s !! "environment_info" = Some (VDict d)).

(** [add_conversation_turn] called once per entry of [entries], in order. *)
Fixpoint add_turns (sid : string) (entries : list (string * json)) : py unit :=
  match entries with
  | [] => ret tt
  | (r, c) :: rest => add_conversation_turn sid r c ;;; add_turns sid rest
  end.

Definition turn_entry (t : turn) : string * json := (role t, content t).

(** *** The replies of the LLM gateway *)

(** The result of [chat] for a given reply of the endpoint. *)
Definition chat_outcome (reply : post_reply) : option string :=
  match reply with
  | PostFailed => None
  | PostReplied status_code message_content =>
      if (status_code =? 200)%nat
      then Some (strip (default "" message_content))
      else None
  end.

(** The gateway gives no response: [chat] returns [None], or a text with
    nothing in it. *)
Definition no_response (reply : post_reply) : Prop :=
  chat_outcome reply = None \/ chat_outcome reply = Some "".

(** The gateway gives a text that [json.loads] rejects as no JSON: it
    raises [JSONDecodeError]. *)
Definition malformed_response (reply : post_reply) : Prop :=
  exists text body,
    chat_outcome reply = Some text /\ text <> "" /\
    remove_code_fence text = Returns body /\
    json_loads body = Raises JSONDecodeError.

(** The gateway gives a text on which [json.loads] raises [e], an exception
    that is no [JSONDecodeError]. *)
Definition decoder_fails (reply : post_reply) (e : exn) : Prop :=
  exists text body,
    chat_outcome reply = Some text /\ text <> "" /\
    remove_code_fence text = Returns body /\
    json_loads body = Raises e /\ e <> JSONDecodeError.

(** *** Sessions and their mutations *)

(** The state in which session [sid] is [s] and [n] more clock readings
    have been taken. *)
Definition with_session (sid : string) (s : gmap string pyval) (n : nat)
    (w : world) : world :=
  World (<[sid := s]> (session_contexts w)) (n + clock w) (calls w).

(** The session an append leaves behind. *)
Definition appended (s : gmap string pyval) (turns : list turn) (t : turn)
    (updated : string) : gmap string pyval :=
  <["last_updated" := VStr updated]>
    (<["conversation_history" := VList (slice_last max_history (turns ++ [t]))]> s).

Inductive mutation : Type :=
  | UpdateIdentity (student_id student_name : string)
  | AddTurn (role : string) (content : json)
  | UpdateLocation (location : string)
  | UpdateEnvironment (env_data : gmap string json).

Definition run_mutation (sid : string) (m : mutation) : py unit :=
  match m with
  | UpdateIdentity student_id student_name =>
      update_student_identity sid student_id student_name
  | AddTurn r c => add_conversation_turn sid r c
  | UpdateLocation location => update_location sid location
  | UpdateEnvironment env_data => update_environment sid env_data
  end.

(** The keys a mutation is meant to write, besides ["last_updated"]. *)
Definition target_keys (m : mutation) : list string :=
  match m with
  | UpdateIdentity _ _ => ["student_id"; "student_name"]
  | AddTurn _ _ => ["conversation_history"]
  | UpdateLocation _ => ["current_location"]
  | UpdateEnvironment _ => ["environment_info"]
  end.

(** The environment keys a mutation is meant to write. *)
Definition written_environment (m : mutation) : gset string :=
  match m with
  | UpdateEnvironment env_data => dom env_data
  | _ => ∅
  end.

Definition environment_of (s : gmap string pyval) : option (gmap string json) :=
  match s !! "environment_info" with
  | Some (VDict d) => Some d
  | _ => None
  end.

(** What a mutation does to the session it is run on. *)
Definition mutated (m : mutation) (s : gmap string pyval) (w : world)
    : option (gmap string pyval * nat) :=
  match m with
  | UpdateIdentity student_id student_name =>
      Some (<["last_updated" := VStr (isoformat_now (clock w))]>
              (<["student_name" := VStr student_name]>
                 (<["student_id" := VStr student_id]> s)), 1)
  | AddTurn r c =>
      match s !! "conversation_history" with
      | Some (VList turns) =>
          Some (appended s turns (Turn r c (isoformat_now (clock w)))
                  (isoformat_now (S (clock w))), 2)
      | _ => None
      end
  | UpdateLocation location =>
      Some (<["last_updated" := VStr (isoformat_now (clock w))]>
              (<["current_location" := VStr location]> s), 1)
  | UpdateEnvironment env_data =>
      match s !! "environment_info" with
      | Some (VDict d) =>
          Some (<["last_updated" := VStr (isoformat_now (clock w))]>
                  (<["environment_info" := VDict (env_data ∪ d)]> s), 1)
      | _ => None
      end
  end.

(** *** An accepted speech request, step by step *)

(** The turns the next append extends: those of the session, or none when
    the session does not exist yet. *)
Definition prior_turns (sid : string) (w : world) : option (list turn) :=
  match session_contexts w !! sid with
  | Some s =>
      match s !! "conversation_history" with
      | Some (VList turns) => Some turns
      | _ => None
      end
  | None => Some []
  end.

(** The session an accepted request works on, and the number of clock
    readings spent creating it. *)
Definition working_session (sid : string) (w : world) : gmap string pyval * nat :=
  match session_contexts w !! sid with
  | Some s => (s, 0)
  | None =>
      (new_session sid (isoformat_now (clock w)) (isoformat_now (S (clock w))), 2)
  end.

Definition user_turn (speech : SpeechInput) (w : world) : turn :=
  Turn "user" (JStr (speech_text speech))
    (isoformat_now (snd (working_session (speech_session_id speech) w) + clock w)).

Definition session_after_user (speech : SpeechInput) (w : world)
    (turns : list turn) : gmap string pyval :=
  appended (fst (working_session (speech_session_id speech) w)) turns
    (user_turn speech w)
    (isoformat_now
       (S (snd (working_session (speech_session_id speech) w) + clock w))).

Definition speech_context (speech : SpeechInput) (w : world)
    (turns : list turn) : llm_context :=
  context_dict (session_after_user speech w turns)
    (slice_last 5 (slice_last max_history (turns ++ [user_turn speech w])))
    (milvus_search (calls w) (speech_text speech) (memory_retrieval_top_k config)).

Definition speech_messages (speech : SpeechInput) (w : world)
    (turns : list turn) : list (string * string) :=
  [ ("system", system_prompt);
    ("user", user_message (format_context_as_prompt (speech_context speech w turns))
               (speech_text speech)) ].

(** The requests an accepted request sends, in order. *)
Definition speech_calls (speech : SpeechInput) (w : world) (turns : list turn)
    : list call :=
  [ SearchMemory (speech_text speech) (memory_retrieval_top_k config);
    ChatRequest (speech_messages speech w turns) (llm_temperature config) 512 ].

(** The state when [generate_structured] has returned. *)
Definition world_after_llm (speech : SpeechInput) (w : world)
    (turns : list turn) : world :=
  World (<[speech_session_id speech := session_after_user speech w turns]>
           (session_contexts w))
    (2 + snd (working_session (speech_session_id speech) w) + clock w)
    (calls w ++ speech_calls speech w turns).

(** The reply of the chat endpoint to the request of this turn. *)
Definition llm_reply (speech : SpeechInput) (w : world) (turns : list turn)
    : post_reply :=
  ollama_chat
    (calls w ++ [SearchMemory (speech_text speech) (memory_retrieval_top_k config)])
    (speech_messages speech w turns) (llm_temperature config) 512.

(** What [generate_structured] returns to [process_speech]. *)
Definition llm_output_of (speech : SpeechInput) (w : world) (turns : list turn)
    : result json :=
  parse_structured (chat_outcome (llm_reply speech w turns)).

Definition http_500 (e : exn) : py ChatResponse := raise (HTTPException 500 e).

(** The three values [process_speech] reads from the LLM output. *)
Definition output_response (fields : list (string * json)) : json :=
  default (JStr default_response_text) (assoc_get "response" fields).
Definition output_intent (fields : list (string * json)) : json :=
  default (JStr "conversation") (assoc_get "intent" fields).
Definition output_location (fields : list (string * json)) : json :=
  default JNull (assoc_get "location" fields).

(** *** Fences *)

Definition fence : string := "```".
Definition json_fence : string := "```json".

(** A payload wrapped in a fence labeled json, and in an unlabeled fence. *)
Definition fenced_json (payload : string) : string :=
  json_fence ++ nl ++ payload ++ nl ++ fence.
Definition fenced_plain (payload : string) : string :=
  fence ++ nl ++ payload ++ nl ++ fence.

(** The text before the first occurrence of [sep], or the whole text. *)
Definition first_piece (sep s : string) : string :=
  match partition sep s with
  | Some (before, _) => before
  | None => s
  end.

(** *** The shape of the store *)

(** A stored value that is [None] or a string. *)
Definition optional_text (v : option pyval) : Prop :=
  v = Some VNone \/ exists text, v = Some (VStr text).

(** The shape [create_session] gives a session and that the methods of
    [ContextBuilder] keep: the nine keys with values of the right kind, the
    identifier under which the session is stored, at most [max_history]
    turns. *)
Record session_ok (sid : string) (s : gmap string pyval) : Prop := SessionOk {
  ok_session_id : s !! "session_id" = Some (VStr sid);
  ok_student_id : optional_text (s !! "student_id");
  ok_student_name : optional_text (s !! "student_name");
  ok_history :
    exists turns, s !! "conversation_history" = Some (VList turns) /\
                  length turns <= max_history;
  ok_location : optional_text (s !! "current_location");
  ok_faces : s !! "detected_faces" = Some (VList []);
  ok_environment : exists d, s !! "environment_info" = Some (VDict d);
  ok_created_at : exists t, s !! "created_at" = Some (VStr t);
  ok_last_updated : exists t, s !! "last_updated" = Some (VStr t)
}.

Definition store_ok (w : world) : Prop :=
  forall sid s, session_contexts w !! sid = Some s -> session_ok sid s.

(** A computation that, on a store of that shape, returns and leaves a
    store of that shape. *)
Definition safe {A : Type} (m : py A) : Prop :=
  forall w, store_ok w -> exists a w', m w = (Returns a, w') /\ store_ok w'.

(** A computation that, returning or raising, leaves a store of that shape. *)
Definition keeps {A : Type} (m : py A) : Prop :=
  forall w, store_ok w -> store_ok (snd (m w)).

(** The methods of [ContextBuilder], and a sequence of calls. *)
Inductive method : Type :=
  | CreateSession (sid : string)
  | Mutate (sid : string) (m : mutation)
  | BuildContext (sid : string) (memories : list memory)
  | GetSession (sid : string)
  | ClearSession (sid : string).

Definition run_method (c : method) : py unit :=
  match c with
  | CreateSession sid => create_session sid
  | Mutate sid m => run_mutation sid m
  | BuildContext sid memories => build_llm_context sid memories ;;; ret tt
  | GetSession sid => get_session sid ;;; ret tt
  | ClearSession sid => clear_session sid
  end.

Fixpoint run_methods (cs : list method) : py unit :=
  match cs with
  | [] => ret tt
  | c :: rest => run_method c ;;; run_methods rest
  end.

(** The requests of the API that reach the session store, and the state a
    request leaves, whether it is answered or fails. *)
Inductive request : Type :=
  | ContextUpdateRequest (ctx : ContextUpdate)
  | SpeechRequest (speech : SpeechInput)
  | SessionRequest (sid : string)
  | DeleteRequest (sid : string)
  | VoiceRequest (audio : upload) (sid : string).

Definition serve (r : request) (w : world) : world :=
  match r with
  | ContextUpdateRequest ctx => snd (update_context ctx w)
  | SpeechRequest speech => snd (process_speech speech w)
  | SessionRequest sid => snd (get_session_endpoint sid w)
  | DeleteRequest sid => snd (clear_session_endpoint sid w)
  | VoiceRequest audio sid => snd (voice_interact audio sid w)
  end.

Definition serve_all (rs : list request) (w : world) : world :=
  foldl (fun w r => serve r w) w rs.

(** The session a request names. *)
Definition request_session (r : request) : string :=
  match r with
  | ContextUpdateRequest ctx => cu_session_id ctx
  | SpeechRequest speech => speech_session_id speech
  | SessionRequest sid => sid
  | DeleteRequest sid => sid
  | VoiceRequest _ sid => sid
  end.

(** A computation that leaves every session but [sid] as it is, whether it
    returns or raises. *)
Definition local_to {A : Type} (sid : string) (m : py A) : Prop :=
  forall w sid', sid' <> sid ->
    session_contexts (snd (m w)) !! sid' = session_contexts w !! sid'.

(** *** Context updates *)

(** An optional string field that is given and not empty. *)
Definition carries (field : option string) : bool :=
  match field with
  | Some text => str_truthy text
  | None => false
  end.

Definition carries_environment (ctx : ContextUpdate) : bool :=
  match cu_environment_data ctx with
  | Some environment_data => negb (size environment_data =? 0)%nat
  | None => false
  end.

(** The mutations a context update carries, in the order in which
    [update_context] applies them. *)
Definition carried (ctx : ContextUpdate) : list mutation :=
  (match cu_student_id ctx, cu_student_name ctx with
   | Some student_id, Some student_name =>
       if str_truthy student_id && str_truthy student_name
       then [UpdateIdentity student_id student_name] else []
   | _, _ => []
   end) ++
  (match cu_location ctx with
   | Some location => if str_truthy location then [UpdateLocation location] else []
   | None => []
   end) ++
  (match cu_environment_data ctx with
   | Some environment_data =>
       if negb (size environment_data =? 0)%nat
       then [UpdateEnvironment environment_data] else []
   | None => []
   end).

(** The mutations [ms] one after the other, and then [k]. *)
Definition mutate_then {A : Type} (sid : string) (ms : list mutation)
    (k : py A) : py A :=
  foldr (fun m rest => run_mutation sid m ;;; rest) k ms.

(** The reply of [update_context]. *)
Definition context_updated (sid : string) : list (string * string) :=
  [ ("status", "success"); ("session_id", sid); ("message", "Context updated") ].


(** ** Properties of the helpers *)

Lemma slice_last_length {A : Type} (n : nat) (l : list A) :
  length (slice_last n l) = Nat.min (length l) n.
Proof. unfold slice_last. rewrite length_drop. lia. Qed.

Lemma slice_last_all {A : Type} (n : nat) (l : list A) :
  length l <= n -> slice_last n l = l.
Proof.
  intros Hle. unfold slice_last.
  replace (length l - n) with 0 by lia. reflexivity.
Qed.

Lemma slice_last_app {A : Type} (n : nat) (l1 l2 : list A) :
  n <= length l2 -> slice_last n (l1 ++ l2) = slice_last n l2.
Proof.
  intros Hle. unfold slice_last. rewrite length_app.
  replace (length l1 + length l2 - n) with (length l1 + (length l2 - n)) by lia.
  by rewrite drop_app_add.
Qed.

(** Truncating, appending and truncating again keeps the same items as
    appending and truncating once. *)
Lemma slice_last_app_l {A : Type} (n : nat) (l l' : list A) :
  slice_last n (slice_last n l ++ l') = slice_last n (l ++ l').
Proof.
  unfold slice_last. rewrite !length_app, length_drop.
  destruct (decide (length l <= n)) as [Hle|Hgt].
  - replace (length l - n) with 0 by lia. simpl.
    by replace (length l - 0) with (length l) by lia.
  - replace (length l - (length l - n) + length l' - n) with (length l') by lia.
    replace (length l + length l' - n)
      with ((length l - n) + length l') by lia.
    rewrite <- drop_drop. f_equal.
    by rewrite drop_app_le by lia.
Qed.

Lemma slice_last_map {A B : Type} (f : A -> B) (n : nat) (l : list A) :
  map f (slice_last n l) = slice_last n (map f l).
Proof. unfold slice_last. by rewrite length_map, <- fmap_drop. Qed.

Lemma slice_last_slice_last {A : Type} (n m : nat) (l : list A) :
  n <= m -> slice_last n (slice_last m l) = slice_last n l.
Proof.
  intros Hle. unfold slice_last. rewrite length_drop, drop_drop.
  f_equal. lia.
Qed.

(** ** Running the methods of [ContextBuilder] *)

Lemma session_in_present sid w s :
  session_contexts w !! sid = Some s -> session_in sid w = (Returns true, w).
Proof.
  intros Hs. unfold session_in. rewrite Hs.
  by rewrite bool_decide_eq_true_2.
Qed.

Lemma session_in_absent sid w :
  session_contexts w !! sid = None -> session_in sid w = (Returns false, w).
Proof.
  intros Hs. unfold session_in. rewrite Hs.
  rewrite bool_decide_eq_false_2; [done|]. by intros [? ?].
Qed.

Lemma create_session_run sid w :
  create_session sid w =
    (Returns tt,
     with_session sid
       (new_session sid (isoformat_now (clock w)) (isoformat_now (S (clock w))))
       2 w).
Proof. reflexivity. Qed.

Lemma create_if_missing_present sid w s :
  session_contexts w !! sid = Some s ->
  create_if_missing sid w = (Returns tt, w).
Proof.
  intros Hs. unfold create_if_missing, bind.
  by rewrite (session_in_present _ _ _ Hs).
Qed.

Lemma create_if_missing_absent sid w :
  session_contexts w !! sid = None ->
  create_if_missing sid w = create_session sid w.
Proof.
  intros Hs. unfold create_if_missing, bind.
  by rewrite (session_in_absent _ _ Hs).
Qed.

Lemma getitem_run sid key w s v :
  session_contexts w !! sid = Some s -> s !! key = Some v ->
  getitem sid key w = (Returns v, w).
Proof.
  intros Hs Hk. unfold getitem, bind, session_of, lift_option.
  by rewrite Hs, Hk.
Qed.

Lemma setitem_run sid key v w s :
  session_contexts w !! sid = Some s ->
  setitem sid key v w = (Returns tt, with_session sid (<[key := v]> s) 0 w).
Proof.
  intros Hs. unfold setitem, bind, session_of, store_session.
  by rewrite Hs.
Qed.

Lemma with_session_lookup sid s n w :
  session_contexts (with_session sid s n w) !! sid = Some s.
Proof. apply lookup_insert_eq. Qed.

Lemma with_session_lookup_ne sid sid' s n w :
  sid <> sid' ->
  session_contexts (with_session sid s n w) !! sid' = session_contexts w !! sid'.
Proof. intros Hne. by apply lookup_insert_ne. Qed.

Lemma with_session_twice sid s1 s2 n1 n2 w :
  with_session sid s2 n2 (with_session sid s1 n1 w) =
  with_session sid s2 (n2 + n1) w.
Proof.
  unfold with_session. simpl. rewrite insert_insert_eq. f_equal. lia.
Qed.

Lemma datetime_now_run w :
  datetime_now w =
    (Returns (isoformat_now (clock w)),
     World (session_contexts w) (1 + clock w) (calls w)).
Proof. reflexivity. Qed.

Lemma add_conversation_turn_run sid r c w s turns :
  session_contexts w !! sid = Some s ->
  s !! "conversation_history" = Some (VList turns) ->
  add_conversation_turn sid r c w =
    (Returns tt,
     with_session sid
       (appended s turns (Turn r c (isoformat_now (clock w)))
          (isoformat_now (S (clock w))))
       2 w).
Proof.
  intros Hs Hh. unfold add_conversation_turn.
  unfold bind at 1. rewrite (create_if_missing_present _ _ _ Hs).
  unfold bind at 1. rewrite datetime_now_run.
  set (w1 := World _ _ _).
  assert (Hs1 : session_contexts w1 !! sid = Some s) by done.
  set (t := Turn r c _).
  unfold bind at 1. unfold append_item. unfold bind at 1.
  rewrite (getitem_run _ _ _ _ _ Hs1 Hh).
  rewrite (setitem_run _ _ _ _ _ Hs1).
  set (s2 := <["conversation_history" := VList (turns ++ [t])]> s).
  set (w2 := with_session sid s2 0 w1).
  assert (Hs2 : session_contexts w2 !! sid = Some s2)
    by apply with_session_lookup.
  assert (Hh2 : s2 !! "conversation_history" = Some (VList (turns ++ [t])))
    by apply lookup_insert_eq.
  unfold bind at 1. unfold getlist at 1. unfold bind at 1.
  rewrite (getitem_run _ _ _ _ _ Hs2 Hh2). unfold ret at 1.
  unfold bind at 1.
  destruct (max_history <? length (turns ++ [t]))%nat eqn:Hlen.
  - unfold bind at 1. unfold getlist, bind at 1.
    rewrite (getitem_run _ _ _ _ _ Hs2 Hh2). unfold ret at 1.
    rewrite (setitem_run _ _ _ _ _ Hs2).
    unfold bind. rewrite datetime_now_run.
    erewrite setitem_run by (simpl; apply lookup_insert_eq).
    unfold w2, w1, with_session, appended, s2. simpl.
    rewrite !insert_insert_eq. reflexivity.
  - unfold ret at 1. unfold bind. rewrite datetime_now_run.
    erewrite setitem_run by (simpl; apply lookup_insert_eq).
    unfold w2, w1, with_session, appended, s2. simpl.
    rewrite !insert_insert_eq.
    apply Nat.ltb_ge in Hlen.
    by rewrite (slice_last_all max_history) by done.
Qed.

(** A method first creates the session it does not find: on such a state it
    behaves as on the state in which [create_session] has just run. *)
Lemma create_if_missing_bind_absent {A : Type} sid (k : py A) w :
  session_contexts w !! sid = None ->
  (create_if_missing sid ;;; k) w =
  (create_if_missing sid ;;; k)
    (with_session sid
       (new_session sid (isoformat_now (clock w)) (isoformat_now (S (clock w))))
       2 w).
Proof.
  intros Hs. unfold bind.
  rewrite (create_if_missing_absent _ _ Hs), create_session_run.
  by erewrite create_if_missing_present by apply with_session_lookup.
Qed.

Lemma new_session_history sid t1 t2 :
  new_session sid t1 t2 !! "conversation_history" = Some (VList []).
Proof. reflexivity. Qed.

Lemma new_session_environment sid t1 t2 :
  new_session sid t1 t2 !! "environment_info" = Some (VDict ∅).
Proof. reflexivity. Qed.

Lemma new_session_well_formed sid t1 t2 : well_formed (new_session sid t1 t2).
Proof. split; eexists; reflexivity. Qed.

Lemma history_of_with_session sid s n w :
  history_of sid (with_session sid s n w) =
    match s !! "conversation_history" with
    | Some (VList turns) => Some turns
    | _ => None
    end.
Proof. unfold history_of. by rewrite with_session_lookup. Qed.

Lemma history_of_with_session_ne sid sid' s n w :
  sid <> sid' ->
  history_of sid' (with_session sid s n w) = history_of sid' w.
Proof.
  intros Hne. unfold history_of. by rewrite with_session_lookup_ne.
Qed.

Lemma history_of_Some sid w turns :
  history_of sid w = Some turns <->
  exists s, session_contexts w !! sid = Some s /\
            s !! "conversation_history" = Some (VList turns).
Proof.
  unfold history_of. split.
  - destruct (session_contexts w !! sid) as [s|]; [|done].
    destruct (s !! "conversation_history") as [[]|] eqn:Hh; try done.
    intros [= ->]. eauto.
  - intros (s & -> & ->). done.
Qed.

Lemma appended_history s turns t updated :
  appended s turns t updated !! "conversation_history" =
    Some (VList (slice_last max_history (turns ++ [t]))).
Proof.
  unfold appended. rewrite lookup_insert_ne by done. apply lookup_insert_eq.
Qed.

(** One append on an existing session: the new turn goes last and only the
    most recent [max_history] turns stay. *)
Lemma add_conversation_turn_history sid r c w turns :
  history_of sid w = Some turns ->
  exists w' t,
    add_conversation_turn sid r c w = (Returns tt, w') /\
    turn_entry t = (r, c) /\
    history_of sid w' = Some (slice_last max_history (turns ++ [t])).
Proof.
  intros (s & Hs & Hh)%history_of_Some.
  eexists _, (Turn r c (isoformat_now (clock w))).
  split; [by apply add_conversation_turn_run|].
  split; [reflexivity|].
  by rewrite history_of_with_session, appended_history.
Qed.

Lemma add_turns_history sid entries : forall w turns,
  history_of sid w = Some turns ->
  length turns <= max_history ->
  exists w' new,
    add_turns sid entries w = (Returns tt, w') /\
    map turn_entry new = entries /\
    history_of sid w' = Some (slice_last max_history (turns ++ new)).
Proof.
  induction entries as [|[r c] rest IH]; intros w turns Hh Hlen.
  - exists w, []. split; [done|]. split; [done|].
    by rewrite app_nil_r, slice_last_all.
  - destruct (add_conversation_turn_history sid r c w turns Hh)
      as (w1 & t & Hrun & Ht & Hh1).
    destruct (IH w1 _ Hh1) as (w' & new & Hrest & Hnew & Hh').
    { rewrite slice_last_length. lia. }
    exists w', (t :: new). split; [|split].
    + simpl. unfold bind. by rewrite Hrun.
    + simpl. by rewrite Ht, Hnew.
    + rewrite Hh'. f_equal.
      rewrite slice_last_app_l. by rewrite <- app_assoc.
Qed.

Lemma add_conversation_turn_absent sid r c w :
  session_contexts w !! sid = None ->
  add_conversation_turn sid r c w =
  add_conversation_turn sid r c
    (with_session sid
       (new_session sid (isoformat_now (clock w)) (isoformat_now (S (clock w))))
       2 w).
Proof.
  intros Hs. unfold add_conversation_turn.
  by rewrite (create_if_missing_bind_absent sid _ w Hs).
Qed.

(** The same count and content when the first append creates the session. *)
Lemma history_after_appends_new_session sid (entries : list (string * json)) w :
  session_contexts w !! sid = None ->
  entries <> [] ->
  exists w' turns,
    add_turns sid entries w = (Returns tt, w') /\
    history_of sid w' = Some turns /\
    length turns = Nat.min (length entries) 10 /\
    map turn_entry turns = slice_last 10 entries.
Proof.
  intros Hs Hne.
  set (w0 := with_session sid
               (new_session sid (isoformat_now (clock w))
                  (isoformat_now (S (clock w)))) 2 w).
  assert (Hsame : add_turns sid entries w = add_turns sid entries w0).
  { destruct entries as [|[r c] rest]; [done|].
    simpl. unfold bind. by rewrite (add_conversation_turn_absent _ _ _ _ Hs). }
  assert (Hh : history_of sid w0 = Some []).
  { unfold w0. by rewrite history_of_with_session. }
  destruct (add_turns_history sid entries w0 [] Hh)
    as (w' & new & Hrun & Hnew & Hh').
  { simpl. unfold max_history. lia. }
  exists w', (slice_last max_history new). simpl in Hh'.
  split; [by rewrite Hsame|]. split; [done|]. split.
  - rewrite slice_last_length, <- Hnew, length_map. done.
  - by rewrite slice_last_map, Hnew.
Qed.

(** C3. After [N] calls of [add_conversation_turn] on a session whose
    history was empty, the history has [min N 10] turns, and they are the
    last [min N 10] of the appended ones, in the order of the calls. *)
Theorem history_after_appends sid (entries : list (string * json)) w :
  history_of sid w = Some [] ->
  exists w' turns,
    add_turns sid entries w = (Returns tt, w') /\
    history_of sid w' = Some turns /\
    length turns = Nat.min (length entries) 10 /\
    map turn_entry turns = slice_last 10 entries.
Proof.
  intros Hh.
  destruct (add_turns_history sid entries w [] Hh) as (w' & new & Hrun & Hnew & Hh').
  { simpl. unfold max_history. lia. }
  exists w', (slice_last max_history new). simpl in Hh'.
  split; [done|]. split; [done|]. split.
  - rewrite slice_last_length, <- Hnew, length_map. done.
  - by rewrite slice_last_map, Hnew.
Qed.

Lemma update_student_identity_run sid student_id student_name w s :
  session_contexts w !! sid = Some s ->
  update_student_identity sid student_id student_name w =
    (Returns tt,
     with_session sid
       (<["last_updated" := VStr (isoformat_now (clock w))]>
          (<["student_name" := VStr student_name]>
             (<["student_id" := VStr student_id]> s)))
       1 w).
Proof.
  intros Hs. unfold update_student_identity, bind.
  rewrite (create_if_missing_present _ _ _ Hs).
  rewrite (setitem_run _ _ _ _ _ Hs).
  erewrite setitem_run by apply with_session_lookup.
  rewrite datetime_now_run.
  erewrite setitem_run by (simpl; apply lookup_insert_eq).
  unfold with_session. simpl. by rewrite !insert_insert_eq.
Qed.

Lemma update_location_run sid location w s :
  session_contexts w !! sid = Some s ->
  update_location sid location w =
    (Returns tt,
     with_session sid
       (<["last_updated" := VStr (isoformat_now (clock w))]>
          (<["current_location" := VStr location]> s))
       1 w).
Proof.
  intros Hs. unfold update_location, bind.
  rewrite (create_if_missing_present _ _ _ Hs).
  rewrite (setitem_run _ _ _ _ _ Hs).
  rewrite datetime_now_run.
  erewrite setitem_run by (simpl; apply lookup_insert_eq).
  unfold with_session. simpl. by rewrite !insert_insert_eq.
Qed.

Lemma update_environment_run sid env_data w s d :
  session_contexts w !! sid = Some s ->
  s !! "environment_info" = Some (VDict d) ->
  update_environment sid env_data w =
    (Returns tt,
     with_session sid
       (<["last_updated" := VStr (isoformat_now (clock w))]>
          (<["environment_info" := VDict (env_data ∪ d)]> s))
       1 w).
Proof.
  intros Hs Hd. unfold update_environment, bind.
  rewrite (create_if_missing_present _ _ _ Hs).
  rewrite (getitem_run _ _ _ _ _ Hs Hd).
  rewrite (setitem_run _ _ _ _ _ Hs).
  rewrite datetime_now_run.
  erewrite setitem_run by (simpl; apply lookup_insert_eq).
  unfold with_session. simpl. by rewrite !insert_insert_eq.
Qed.

(** ** The mutations of a session and what they leave alone *)

Lemma run_mutation_run sid m w s :
  session_contexts w !! sid = Some s -> well_formed s ->
  exists s' n,
    mutated m s w = Some (s', n) /\
    run_mutation sid m w = (Returns tt, with_session sid s' n w).
Proof.
  intros Hs [[turns Hh] [d Hd]]. destruct m; simpl.
  - eexists _, _. split; [done|]. by apply update_student_identity_run.
  - rewrite Hh. eexists _, _. split; [done|].
    by apply add_conversation_turn_run.
  - eexists _, _. split; [done|]. by apply update_location_run.
  - rewrite Hd. eexists _, _. split; [done|].
    by eapply update_environment_run.
Qed.

Lemma mutated_frame m s w s' n key :
  mutated m s w = Some (s', n) ->
  key ∉ "last_updated" :: target_keys m ->
  s' !! key = s !! key.
Proof.
  intros Hm Hkey.
  destruct m; simpl in *;
    repeat match goal with
    | H : context [match ?x with _ => _ end] |- _ => destruct x; try done
    end;
    injection Hm as <- <-; unfold appended;
    rewrite !lookup_insert_ne; try done;
    intros <-; apply Hkey; repeat constructor.
Qed.

Lemma mutated_environment m s w s' n d :
  mutated m s w = Some (s', n) ->
  environment_of s = Some d ->
  exists d',
    environment_of s' = Some d' /\
    forall k, k ∉ written_environment m -> d' !! k = d !! k.
Proof.
  unfold environment_of. intros Hm Hd.
  destruct (s !! "environment_info") as [[]|] eqn:He; try done.
  injection Hd as ->.
  destruct m; simpl in *.
  - injection Hm as <- <-. exists d.
    rewrite !lookup_insert_ne, He by done. done.
  - destruct (s !! "conversation_history") as [[]|]; try done.
    injection Hm as <- <-. exists d. unfold appended.
    rewrite !lookup_insert_ne, He by done. done.
  - injection Hm as <- <-. exists d.
    rewrite !lookup_insert_ne, He by done. done.
  - rewrite He in Hm. injection Hm as <- <-. exists (env_data ∪ d).
    rewrite lookup_insert_ne, lookup_insert_eq by done.
    split; [done|]. intros k Hk.
    apply lookup_union_r. by apply not_elem_of_dom.
Qed.

(** A literal key that differs from every key of a literal list. *)
Ltac not_listed :=
  let H := fresh "Hin" in
  intros H;
  repeat (apply elem_of_cons in H as [H|H]; [discriminate H|]);
  by apply elem_of_nil in H.

Lemma mutated_well_formed m s w s' n :
  mutated m s w = Some (s', n) -> well_formed s -> well_formed s'.
Proof.
  intros Hm [[turns Hh] [d Hd]].
  destruct m; simpl in *; rewrite ?Hh, ?Hd in Hm; injection Hm as <- <-;
    unfold well_formed, appended;
    split; eexists;
    repeat (first [ apply lookup_insert_eq
                  | rewrite lookup_insert_ne by done ]);
    eassumption.
Qed.

(** C10. On an existing session every mutation returns, and it changes no
    key of the session other than its own and ["last_updated"]: in
    particular ["session_id"] and ["created_at"] stay, an environment key
    that the mutation does not carry keeps its value, and the other
    sessions are as before. *)
Theorem mutation_frame sid (m : mutation) w s :
  session_contexts w !! sid = Some s ->
  well_formed s ->
  exists w' s',
    run_mutation sid m w = (Returns tt, w') /\
    session_contexts w' !! sid = Some s' /\
    (forall key, key ∉ "last_updated" :: target_keys m -> s' !! key = s !! key) /\
    s' !! "session_id" = s !! "session_id" /\
    s' !! "created_at" = s !! "created_at" /\
    (forall d, environment_of s = Some d ->
       exists d', environment_of s' = Some d' /\
                  forall k, k ∉ written_environment m -> d' !! k = d !! k) /\
    (forall sid', sid <> sid' ->
       session_contexts w' !! sid' = session_contexts w !! sid').
Proof.
  intros Hs Hwf.
  destruct (run_mutation_run sid m w s Hs Hwf) as (s' & n & Hm & Hrun).
  exists (with_session sid s' n w), s'.
  split; [done|]. split; [apply with_session_lookup|].
  split; [intros key; by apply (mutated_frame m s w s' n)|].
  split.
  { apply (mutated_frame m s w s' n); [done|].
    destruct m; simpl; not_listed. }
  split.
  { apply (mutated_frame m s w s' n); [done|].
    destruct m; simpl; not_listed. }
  split; [intros d; by apply (mutated_environment m s w s' n)|].
  intros sid' Hne. by apply with_session_lookup_ne.
Qed.

(** ** Context assembly and rendering *)

Lemma build_llm_context_run sid memories w s turns :
  session_contexts w !! sid = Some s ->
  s !! "conversation_history" = Some (VList turns) ->
  build_llm_context sid memories w =
    (Returns (context_dict s (slice_last 5 turns) memories), w).
Proof.
  intros Hs Hh. unfold build_llm_context, bind.
  rewrite (create_if_missing_present _ _ _ Hs).
  unfold session_of. rewrite Hs.
  unfold dict_get at 1. by rewrite Hh.
Qed.

Lemma memory_lines_lookup (memories : list relevant_memory) (i : nat) mem :
  memories !! i = Some mem ->
  memory_lines memories !! i = Some (pretty (S i) ++ ". " ++ rm_content mem).
Proof.
  intros Hi. unfold memory_lines. rewrite list_lookup_imap, Hi. simpl.
  by replace (i + 1) with (S i) by lia.
Qed.

Lemma memory_lines_length (memories : list relevant_memory) :
  length (memory_lines memories) = length memories.
Proof. unfold memory_lines. apply length_imap. Qed.

Lemma length_zero_nil {A : Type} (l : list A) :
  (length l =? 0)%nat = true <-> l = [].
Proof. destruct l; simpl; split; done. Qed.

Lemma join_concat sep parts : join sep parts = String.concat sep parts.
Proof.
  induction parts as [|p [|q rest] IH]; [done|done|].
  change (join sep (p :: q :: rest)) with (p ++ sep ++ join sep (q :: rest)).
  by rewrite IH.
Qed.

(** C8. [build_llm_context] keeps the last 5 turns of the session and the
    first 3 retrieved memories in the order received: the turns are some
    older turns followed by the kept ones, min(5, n) in number, and the
    memories are the kept ones, min(3, m) in number, followed by the others.
    The text [format_context_as_prompt] builds from that context lists, after
    the greeting and the location, every kept memory, numbered from 1, and
    only the last min(3, n) turns, one line each. *)
Theorem truncation_points sid (memories : list memory) w s (turns : list turn) :
  session_contexts w !! sid = Some s ->
  s !! "conversation_history" = Some (VList turns) ->
  exists c older kept earlier shown first_memories later_memories,
    build_llm_context sid memories w = (Returns c, w) /\
    turns = (older ++ kept)%list /\
    length kept = Nat.min 5 (length turns) /\
    ctx_conversation_history c = kept /\
    memories = (first_memories ++ later_memories)%list /\
    length first_memories = Nat.min 3 (length memories) /\
    relevant_memories c =
      map (fun mem =>
             RelevantMemory (mem_text mem) (mem_score mem) (mem_memory_type mem))
        first_memories /\
    kept = (earlier ++ shown)%list /\
    length shown = Nat.min 3 (length turns) /\
    format_context_as_prompt c =
      String.concat (String "010"%char "")
        (student_part c ++ location_part c ++
         (if (length memories =? 0)%nat then []
          else String "010"%char "ความทรงจำที่เกี่ยวข้อง:" ::
               imap (fun i mem => (pretty (S i) ++ ". " ++ mem_text mem)%string)
                 first_memories) ++
         (if (length turns =? 0)%nat then []
          else String "010"%char "บทสนทนาล่าสุด:" ::
               map (fun t =>
                      ((if String.eqb (role t) "user"
                        then "นักศึกษา" else "หุ่นยนต์") ++
                       ": " ++ json_str (content t))%string)
                 shown))%list.
Proof.
  intros Hs Hh.
  set (kept := slice_last 5 turns).
  exists (context_dict s kept memories), (take (length turns - 5) turns), kept,
    (take (length kept - 3) kept), (slice_last 3 kept),
    (take 3 memories), (drop 3 memories).
  assert (Hmem : relevant_memories (context_dict s kept memories)
                 = map to_relevant (take 3 memories)).
  { simpl. destruct memories; done. }
  split; [by apply build_llm_context_run|].
  split; [symmetry; apply take_drop|].
  split; [unfold kept; rewrite slice_last_length; lia|].
  split; [done|].
  split; [symmetry; apply take_drop|].
  split; [rewrite length_take; lia|].
  split; [exact Hmem|].
  split; [symmetry; apply take_drop|].
  split; [unfold kept; rewrite !slice_last_length; lia|].
  unfold format_context_as_prompt. rewrite join_concat.
  unfold prompt_parts, memories_part, history_part. rewrite Hmem.
  f_equal. f_equal. f_equal. f_equal.
  - rewrite length_map, length_take.
    destruct memories as [|m0 rest]; [done|].
    replace (negb _) with true by (simpl; by destruct (length rest)).
    simpl (length (m0 :: rest) =? 0)%nat. cbv iota.
    f_equal. unfold memory_lines. rewrite imap_fmap.
    apply imap_ext. intros i mem _. simpl.
    by replace (i + 1) with (S i) by lia.
  - simpl ctx_conversation_history. unfold kept at 1.
    rewrite slice_last_length.
    destruct turns as [|t0 rest]; [done|].
    replace (negb _) with true by (simpl; by destruct (length rest)).
    reflexivity.
Qed.

(** C5 (the code at a session that has no identity and no location yet).
    Right after [create_session] the context holds [None], not the string
    [unknown], as student id, student name and current location, and the
    prompt consists of the greeting line addressed to [None]. *)
Theorem fresh_session_greets_None sid w :
  exists c w',
    (create_session sid ;;; build_llm_context sid []) w = (Returns c, w') /\
    student_info_id c = VNone /\
    student_info_name c = VNone /\
    ctx_current_location c = VNone /\
    student_part c = ["คุณกำลังพูดคุยกับ None"] /\
    location_part c = [] /\
    format_context_as_prompt c = "คุณกำลังพูดคุยกับ None".
Proof.
  eexists _, _. split.
  { unfold bind at 1. rewrite create_session_run.
    erewrite build_llm_context_run;
      [reflexivity | apply with_session_lookup | apply new_session_history]. }
  repeat split; reflexivity.
Qed.

(** ** The speech endpoint *)

Lemma chat_run messages temperature max_tokens w :
  chat messages temperature max_tokens w =
    (Returns (chat_outcome (ollama_chat (calls w) messages temperature max_tokens)),
     World (session_contexts w) (clock w)
       (calls w ++ [ChatRequest messages temperature max_tokens])).
Proof.
  unfold chat, chat_outcome.
  destruct (ollama_chat _ _ _ _) as [|code body]; [done|].
  by destruct (code =? 200)%nat.
Qed.

Lemma generate_structured_run sp um temperature w :
  generate_structured sp um temperature w =
    (parse_structured
       (chat_outcome
          (ollama_chat (calls w) [("system", sp); ("user", um)] temperature 512)),
     World (session_contexts w) (clock w)
       (calls w ++ [ChatRequest [("system", sp); ("user", um)] temperature 512])).
Proof. unfold generate_structured, bind. by rewrite chat_run. Qed.

Lemma process_speech_present speech w s turns :
  PrimFloat.ltb (speech_confidence speech) (stt_confidence_threshold config) = false ->
  session_contexts w !! speech_session_id speech = Some s ->
  s !! "conversation_history" = Some (VList turns) ->
  process_speech speech w =
    match llm_output_of speech w turns with
    | Returns v =>
        try_except (respond (speech_session_id speech) v) http_500
          (world_after_llm speech w turns)
    | Raises e => (Raises (HTTPException 500 e), world_after_llm speech w turns)
    end.
Proof.
  intros Hgate Hs Hh.
  unfold process_speech, try_except. rewrite Hgate.
  unfold bind at 1. rewrite (add_conversation_turn_run _ _ _ _ _ _ Hs Hh).
  unfold bind at 1. unfold search_memory at 1.
  unfold bind at 1.
  erewrite build_llm_context_run;
    [| simpl; apply lookup_insert_eq | apply appended_history].
  unfold bind at 1. rewrite generate_structured_run.
  unfold llm_output_of, llm_reply, world_after_llm, speech_calls,
    speech_messages, speech_context, session_after_user, user_turn,
    working_session.
  rewrite Hs. simpl.
  rewrite <- !app_assoc. simpl.
  destruct (parse_structured _) as [v|e]; reflexivity.
Qed.

Lemma working_session_present sid w s :
  session_contexts w !! sid = Some s -> working_session sid w = (s, 0).
Proof. intros Hs. unfold working_session. by rewrite Hs. Qed.

Lemma process_speech_absent speech w :
  PrimFloat.ltb (speech_confidence speech) (stt_confidence_threshold config) = false ->
  session_contexts w !! speech_session_id speech = None ->
  process_speech speech w =
    match llm_output_of speech w [] with
    | Returns v =>
        try_except (respond (speech_session_id speech) v) http_500
          (world_after_llm speech w [])
    | Raises e => (Raises (HTTPException 500 e), world_after_llm speech w [])
    end.
Proof.
  intros Hgate Hs.
  set (sid := speech_session_id speech) in *.
  set (fresh := new_session sid (isoformat_now (clock w))
                  (isoformat_now (S (clock w)))).
  assert (Hcreated : process_speech speech w =
                     process_speech speech (with_session sid fresh 2 w)).
  { unfold process_speech, try_except. rewrite Hgate.
    unfold add_conversation_turn.
    unfold bind at 1. unfold bind at 8.
    fold sid. rewrite (create_if_missing_bind_absent sid _ w Hs).
    reflexivity. }
  rewrite Hcreated.
  rewrite (process_speech_present speech _ fresh [] Hgate);
    [| apply with_session_lookup | apply new_session_history].
  unfold llm_output_of, llm_reply, world_after_llm, speech_calls,
    speech_messages, speech_context, session_after_user, user_turn.
  fold sid.
  rewrite (working_session_present sid (with_session sid fresh 2 w) fresh)
    by apply with_session_lookup.
  unfold working_session. fold sid. rewrite Hs. fold fresh.
  unfold with_session. simpl. rewrite insert_insert_eq.
  reflexivity.
Qed.

(** An accepted request, on a session that exists or not: the user turn is
    appended, Milvus and then the LLM are asked, and what the LLM returned
    decides the rest. *)
Lemma process_speech_accepted speech w turns :
  PrimFloat.ltb (speech_confidence speech) (stt_confidence_threshold config) = false ->
  prior_turns (speech_session_id speech) w = Some turns ->
  process_speech speech w =
    match llm_output_of speech w turns with
    | Returns v =>
        try_except (respond (speech_session_id speech) v) http_500
          (world_after_llm speech w turns)
    | Raises e => (Raises (HTTPException 500 e), world_after_llm speech w turns)
    end.
Proof.
  intros Hgate Hprior. unfold prior_turns in Hprior.
  destruct (session_contexts w !! speech_session_id speech) as [s|] eqn:Hs.
  - destruct (s !! "conversation_history") as [[]|] eqn:Hh; try done.
    injection Hprior as ->. by apply (process_speech_present speech w s).
  - injection Hprior as <-. by apply process_speech_absent.
Qed.

Lemma world_after_llm_history speech w turns :
  history_of (speech_session_id speech) (world_after_llm speech w turns) =
    Some (slice_last max_history (turns ++ [user_turn speech w])).
Proof.
  unfold history_of, world_after_llm. simpl.
  rewrite lookup_insert_eq. unfold session_after_user.
  by rewrite appended_history.
Qed.

(** *** The confidence gate *)

(** Python's [x == y] excludes [x < y] on floats. *)
Lemma float_eqb_not_ltb (x y : float) :
  PrimFloat.eqb x y = true -> PrimFloat.ltb x y = false.
Proof.
  rewrite FloatAxioms.eqb_spec, FloatAxioms.ltb_spec. unfold SFeqb, SFltb.
  by destruct (SFcompare _ _) as [[]|].
Qed.

(** C2. Below the threshold the reply is the fixed request to repeat, with
    intent [clarification] and no navigation, and the state is left as it
    was: no request is sent to Milvus or to the LLM, no session is created
    and no history changes. *)
Theorem low_confidence_short_circuits (speech : SpeechInput) (w : world) :
  PrimFloat.ltb (speech_confidence speech) (stt_confidence_threshold config) = true ->
  exists r w',
    process_speech speech w = (Returns r, w') /\
    session_id r = speech_session_id speech /\
    response_text r = clarification_text /\
    intent r = "clarification" /\
    should_navigate r = false /\
    navigation_goal r = None /\
    calls w' = calls w /\
    history_of (speech_session_id speech) w' = history_of (speech_session_id speech) w /\
    w' = w.
Proof.
  intros Hgate. eexists _, w. split.
  { unfold process_speech, try_except. rewrite Hgate. reflexivity. }
  repeat split; reflexivity.
Qed.

(** *** From the LLM output to the response *)

Lemma respond_falsy sid v w :
  truthy v = false ->
  try_except (respond sid v) http_500 w =
    (Raises (HTTPException 500 (Exception "LLM returned no response")), w).
Proof. intros Hv. unfold try_except, respond. by rewrite Hv. Qed.

Lemma respond_not_object sid v w :
  truthy v = true ->
  (forall fields, v <> JObj fields) ->
  try_except (respond sid v) http_500 w =
    (Raises (HTTPException 500 AttributeError), w).
Proof.
  intros Hv Hobj. unfold try_except, respond. rewrite Hv. simpl.
  destruct v; try done. by destruct (Hobj fields).
Qed.

Lemma respond_object sid fields w s turns :
  truthy (JObj fields) = true ->
  session_contexts w !! sid = Some s ->
  s !! "conversation_history" = Some (VList turns) ->
  respond sid (JObj fields) w =
    make_ChatResponse sid (output_response fields) (output_intent fields)
      (fst (navigation_decision (output_intent fields) (output_location fields)))
      (snd (navigation_decision (output_intent fields) (output_location fields)))
      (with_session sid
         (appended s turns
            (Turn "assistant" (output_response fields) (isoformat_now (clock w)))
            (isoformat_now (S (clock w))))
         2 w).
Proof.
  intros Hv Hs Hh. unfold respond. rewrite Hv. cbn [negb].
  unfold output_get, bind, ret. cbv beta.
  rewrite (add_conversation_turn_run _ _ _ _ _ _ Hs Hh).
  fold (output_response fields) (output_intent fields) (output_location fields).
  by destruct (navigation_decision _ _).
Qed.

(** Whatever the LLM output is, the rest of the request sends nothing more
    and either leaves the state as it is or appends the assistant turn. *)
Lemma respond_effect sid v w turns :
  history_of sid w = Some turns ->
  exists r w',
    try_except (respond sid v) http_500 w = (r, w') /\
    calls w' = calls w /\
    (w' = w \/
     exists t, role t = "assistant" /\
               history_of sid w' = Some (slice_last max_history (turns ++ [t]))).
Proof.
  intros Hh.
  destruct (truthy v) eqn:Hv.
  2:{ eexists _, w. split; [by apply respond_falsy|]. split; [done|by left]. }
  destruct v as [| | | | |items|fields];
    try (eexists _, w; split; [by apply respond_not_object|];
         split; [done|by left]).
  apply history_of_Some in Hh as (s & Hs & Hturns).
  unfold try_except. rewrite (respond_object sid fields w s turns Hv Hs Hturns).
  set (w' := with_session _ _ _ _).
  assert (Hh' : history_of sid w' =
                Some (slice_last max_history
                        (turns ++ [Turn "assistant" (output_response fields)
                                     (isoformat_now (clock w))]))).
  { unfold w'. by rewrite history_of_with_session, appended_history. }
  unfold make_ChatResponse.
  destruct (output_response fields), (output_intent fields);
    eexists _, w'; (split; [reflexivity|]); (split; [done|]);
    right; eexists; (split; [|exact Hh']); done.
Qed.

(** *** Accepted requests *)

Lemma accepted_request_effect speech w turns :
  PrimFloat.ltb (speech_confidence speech) (stt_confidence_threshold config) = false ->
  prior_turns (speech_session_id speech) w = Some turns ->
  exists r w',
    process_speech speech w = (r, w') /\
    calls w' = (calls w ++ speech_calls speech w turns)%list /\
    (history_of (speech_session_id speech) w' =
       Some (slice_last max_history (turns ++ [user_turn speech w])) \/
     exists t, role t = "assistant" /\
       history_of (speech_session_id speech) w' =
         Some (slice_last max_history (turns ++ [user_turn speech w; t]))).
Proof.
  intros Hgate Hprior.
  rewrite (process_speech_accepted speech w turns Hgate Hprior).
  pose proof (world_after_llm_history speech w turns) as Hh.
  destruct (llm_output_of speech w turns) as [v|e].
  - destruct (respond_effect (speech_session_id speech) v _ _ Hh)
      as (r & w' & Hrun & Hcalls & Hcase).
    exists r, w'. split; [done|]. split; [by rewrite Hcalls|].
    destruct Hcase as [->|(t & Hrole & Hh')]; [by left|].
    right. exists t. split; [done|].
    rewrite Hh', slice_last_app_l. by rewrite <- app_assoc.
  - eexists _, _. split; [done|]. split; [done|]. by left.
Qed.

(** C9. A confidence equal to the threshold passes the gate: the user turn
    is appended to the history, Milvus and the LLM are asked, and the
    history ends with the user turn or with it and the assistant turn. *)
Theorem threshold_confidence_is_accepted (speech : SpeechInput) (w : world)
    (turns : list turn) :
  PrimFloat.eqb (speech_confidence speech) (stt_confidence_threshold config) = true ->
  prior_turns (speech_session_id speech) w = Some turns ->
  exists r w',
    process_speech speech w = (r, w') /\
    calls w' = (calls w ++ speech_calls speech w turns)%list /\
    (history_of (speech_session_id speech) w' =
       Some (slice_last 10 (turns ++ [user_turn speech w])) \/
     exists t, role t = "assistant" /\
       history_of (speech_session_id speech) w' =
         Some (slice_last 10 (turns ++ [user_turn speech w; t]))).
Proof.
  intros Heq Hprior.
  apply accepted_request_effect; [|done]. by apply float_eqb_not_ltb.
Qed.

(** *** When the LLM gives nothing usable *)

Lemma parse_no_response reply :
  no_response reply -> parse_structured (chat_outcome reply) = Returns JNull.
Proof. by intros [-> | ->]. Qed.

Lemma parse_malformed reply :
  malformed_response reply ->
  parse_structured (chat_outcome reply) = Returns JNull.
Proof.
  intros (text & body & -> & Htext & Hfence & Hloads). simpl.
  unfold str_truthy. rewrite (proj2 (String.eqb_neq _ _) Htext). simpl.
  by rewrite Hfence; simpl; rewrite Hloads.
Qed.

Lemma process_speech_no_output speech w turns v :
  PrimFloat.ltb (speech_confidence speech) (stt_confidence_threshold config) = false ->
  prior_turns (speech_session_id speech) w = Some turns ->
  llm_output_of speech w turns = Returns v ->
  truthy v = false ->
  process_speech speech w =
    (Raises (HTTPException 500 (Exception "LLM returned no response")),
     world_after_llm speech w turns).
Proof.
  intros Hgate Hprior Hout Hv.
  rewrite (process_speech_accepted speech w turns Hgate Hprior), Hout.
  by apply respond_falsy.
Qed.

Lemma parse_decoder_fails reply e :
  decoder_fails reply e -> parse_structured (chat_outcome reply) = Raises e.
Proof.
  intros (text & body & -> & Htext & Hfence & Hloads & He). simpl.
  unfold str_truthy. rewrite (proj2 (String.eqb_neq _ _) Htext). simpl.
  rewrite Hfence; simpl; rewrite Hloads. by destruct e.
Qed.

Lemma process_speech_raised speech w turns e :
  PrimFloat.ltb (speech_confidence speech) (stt_confidence_threshold config) = false ->
  prior_turns (speech_session_id speech) w = Some turns ->
  llm_output_of speech w turns = Raises e ->
  process_speech speech w =
    (Raises (HTTPException 500 e), world_after_llm speech w turns).
Proof.
  intros Hgate Hprior Hout.
  by rewrite (process_speech_accepted speech w turns Hgate Hprior), Hout.
Qed.

(** C1, as the code has it. When the gateway gives no response, or a text
    that [json.loads] cannot decode, an accepted request ends in the HTTP
    error 500. The detail is [LLM returned no response] when there is no
    response or when [json.loads] rejects the text with [JSONDecodeError],
    and it is the exception itself when [json.loads] raises another one. In
    every case the user turn stays in the history and no assistant turn is
    added. *)
Theorem llm_failure_is_http_500 (speech : SpeechInput) (w : world)
    (turns : list turn) :
  PrimFloat.ltb (speech_confidence speech) (stt_confidence_threshold config) = false ->
  prior_turns (speech_session_id speech) w = Some turns ->
  no_response (llm_reply speech w turns) \/
    malformed_response (llm_reply speech w turns) \/
    (exists e, decoder_fails (llm_reply speech w turns) e) ->
  exists detail w',
    process_speech speech w = (Raises (HTTPException 500 detail), w') /\
    (no_response (llm_reply speech w turns) \/
       malformed_response (llm_reply speech w turns) ->
     detail = Exception "LLM returned no response") /\
    (forall e, decoder_fails (llm_reply speech w turns) e -> detail = e) /\
    history_of (speech_session_id speech) w' =
      Some (slice_last 10 (turns ++ [user_turn speech w])) /\
    calls w' = (calls w ++ speech_calls speech w turns)%list.
Proof.
  intros Hgate Hprior Hfail.
  assert (Hquiet : no_response (llm_reply speech w turns) \/
                     malformed_response (llm_reply speech w turns) ->
                   llm_output_of speech w turns = Returns JNull).
  { unfold llm_output_of.
    intros [?|?]; [by apply parse_no_response|by apply parse_malformed]. }
  assert (Hcrash : forall e, decoder_fails (llm_reply speech w turns) e ->
                             llm_output_of speech w turns = Raises e).
  { intros e He. by apply parse_decoder_fails. }
  assert (Hcases : (no_response (llm_reply speech w turns) \/
                      malformed_response (llm_reply speech w turns)) \/
                   (exists e, decoder_fails (llm_reply speech w turns) e))
    by tauto.
  destruct Hcases as [Hq|[e0 He0]].
  - exists (Exception "LLM returned no response"),
      (world_after_llm speech w turns).
    split.
    { apply (process_speech_no_output speech w turns JNull); try done.
      by apply Hquiet. }
    split; [done|]. split.
    { intros e He. apply Hcrash in He. rewrite (Hquiet Hq) in He. done. }
    split; [apply world_after_llm_history|done].
  - exists e0, (world_after_llm speech w turns).
    split; [apply process_speech_raised; try done; by apply Hcrash|].
    split.
    { intros Hq. apply Hquiet in Hq. rewrite (Hcrash e0 He0) in Hq. done. }
    split.
    { intros e He. apply Hcrash in He. rewrite (Hcrash e0 He0) in He.
      by injection He. }
    split; [apply world_after_llm_history|done].
Qed.

(** *** The navigation decision *)

Lemma json_eq_str_true (v : json) (s : string) :
  json_eq_str v s = true <-> v = JStr s.
Proof.
  destruct v; simpl; try (split; [done|discriminate]).
  rewrite String.eqb_eq. split; [by intros ->|by intros [= ->]].
Qed.

Lemma truthy_str (s : string) : truthy (JStr s) = true <-> s <> "".
Proof.
  simpl. rewrite negb_true_iff. apply String.eqb_neq.
Qed.

(** C4. Navigation is decided exactly when the intent is the string
    [navigation] and the output has a location that is not empty; the goal
    is then that location with priority [normal], and there is no goal
    otherwise. *)
Theorem navigation_gate (fields : list (string * json)) :
  let intent := output_intent fields in
  let location := assoc_get "location" fields in
  let decision := navigation_decision intent (output_location fields) in
  (fst decision = true <->
     intent = JStr "navigation" /\
     exists v, location = Some v /\ truthy v = true) /\
  (forall v, fst decision = true -> location = Some v ->
     snd decision = Some {| target_location := v; priority := "normal" |}) /\
  (fst decision = false -> snd decision = None) /\
  (forall s, location = Some (JStr s) -> (truthy (JStr s) = true <-> s <> "")).
Proof.
  cbv zeta. unfold navigation_decision, output_location.
  destruct (json_eq_str (output_intent fields) "navigation") eqn:Hintent;
    destruct (assoc_get "location" fields) as [loc|] eqn:Hloc; simpl.
  - apply json_eq_str_true in Hintent.
    destruct (truthy loc) eqn:Hloc'; simpl.
    + split; [split; [eauto|done]|]. split; [by intros v _ [= ->]|].
      split; [done|]. intros s _. apply truthy_str.
    + split; [split; [done|by intros [_ (v & [= <-] & ?)]; congruence]|].
      split; [done|]. split; [done|]. intros s _. apply truthy_str.
  - split; [split; [done|by intros [_ (v & ? & ?)]]|].
    split; [done|]. split; [done|]. intros s _. apply truthy_str.
  - assert (Hne : output_intent fields <> JStr "navigation").
    { intros Heq%json_eq_str_true. congruence. }
    split; [split; [done|by intros [? _]]|].
    split; [done|]. split; [done|]. intros s _. apply truthy_str.
  - assert (Hne : output_intent fields <> JStr "navigation").
    { intros Heq%json_eq_str_true. congruence. }
    split; [split; [done|by intros [? _]]|].
    split; [done|]. split; [done|]. intros s _. apply truthy_str.
Qed.

(** The three cases the specification lists. *)
Example navigation_gate_cases :
  navigation_decision (JStr "navigation") (JStr "") = (false, None) /\
  navigation_decision (JStr "navigation") (JStr "library") =
    (true, Some {| target_location := JStr "library"; priority := "normal" |}) /\
  navigation_decision (JStr "conversation") (JStr "library") = (false, None) /\
  navigation_decision (JStr "navigation") JNull = (false, None).
Proof. repeat split. Qed.

(** ** The code-fence parser *)

Lemma contains_cons sub c s :
  contains sub (String c s) = String.prefix sub (String c s) || contains sub s.
Proof. reflexivity. Qed.

Lemma partition_cons sep c s :
  partition sep (String c s) =
    if String.prefix sep (String c s)
    then Some ("", drop_string (String.length sep) (String c s))
    else match partition sep s with
         | Some (before, after) => Some (String c before, after)
         | None => None
         end.
Proof. reflexivity. Qed.

Lemma partition_not_contained sep s :
  contains sep s = false -> partition sep s = None.
Proof.
  induction s as [|c s IH].
  - simpl. rewrite orb_false_r. by intros ->.
  - rewrite contains_cons. intros [Hp Hs]%orb_false_elim.
    rewrite partition_cons, Hp. by rewrite (IH Hs).
Qed.

Lemma partition_contained sep s :
  contains sep s = true -> exists before after, partition sep s = Some (before, after).
Proof.
  induction s as [|c s IH].
  - simpl. rewrite orb_false_r. intros ->. eauto.
  - rewrite contains_cons, partition_cons.
    destruct (String.prefix sep (String c s)); [eauto|].
    simpl. intros (before & after & ->)%IH. eauto.
Qed.

Lemma split_not_contained sep s :
  contains sep s = false -> split sep s = [s].
Proof.
  intros Hc. unfold split.
  destruct (String.length s); simpl; [done|].
  by rewrite (partition_not_contained _ _ Hc).
Qed.

Lemma split_fuel_head fuel sep s :
  exists piece rest, split_fuel fuel sep s = piece :: rest.
Proof.
  destruct fuel; simpl; [eauto|].
  destruct (partition sep s) as [[before after]|]; eauto.
Qed.

(** Where the separator occurs, [split] has at least two pieces. *)
Lemma split_contained sep s :
  contains sep s = true -> String.length sep <> 0 ->
  exists first second rest, split sep s = first :: second :: rest.
Proof.
  intros Hc Hsep. unfold split.
  destruct s as [|c s].
  - simpl in Hc. rewrite orb_false_r in Hc. destruct sep; done.
  - destruct (partition_contained _ _ Hc) as (before & after & Hp).
    cbn [String.length split_fuel]. rewrite Hp.
    destruct (split_fuel_head (String.length s) sep after) as (p & rest & ->).
    eauto.
Qed.

(** The fence removal never fails: the indices it uses are in range. *)
Lemma remove_code_fence_returns text :
  exists body, remove_code_fence text = Returns body.
Proof.
  unfold remove_code_fence.
  destruct (contains "```json" text) eqn:Hjson.
  - destruct (split_contained _ _ Hjson) as (p0 & p1 & rest & ->); [done|].
    simpl.
    destruct (split_fuel_head (String.length p1) "```" p1) as (q & rest' & Hq).
    unfold split. rewrite Hq. simpl. eauto.
  - destruct (contains "```" text) eqn:Hfence; [|eauto].
    destruct (split_contained _ _ Hfence) as (p0 & p1 & rest & ->); [done|].
    simpl.
    destruct (split_fuel_head (String.length p1) "```" p1) as (q & rest' & Hq).
    unfold split. rewrite Hq. simpl. eauto.
Qed.

(** What leaves [generate_structured] is a value, [None], or an exception of
    [json.loads] that is no [JSONDecodeError]. *)
Lemma parse_structured_outcome response :
  (exists v, parse_structured response = Returns v) \/
  (exists e body,
     parse_structured response = Raises e /\
     json_loads body = Raises e /\ e <> JSONDecodeError).
Proof.
  destruct response as [text|]; simpl; [|eauto].
  destruct (str_truthy text); [|eauto].
  destruct (remove_code_fence_returns text) as (body & ->). simpl.
  destruct (json_loads body) as [v|e] eqn:Hloads; [eauto|].
  destruct e; try (right; eexists _, body; by repeat split); eauto.
Qed.

Lemma append_cons c s t : String c s ++ t = String c (s ++ t).
Proof. reflexivity. Qed.

Lemma append_nil t : "" ++ t = t.
Proof. reflexivity. Qed.

Lemma prefix_nil s : String.prefix "" s = true.
Proof. by destruct s. Qed.

Lemma prefix_cons a sep b s :
  String.prefix (String a sep) (String b s) =
    if ascii_dec a b then String.prefix sep s else false.
Proof. reflexivity. Qed.

Lemma length_append s t :
  String.length (s ++ t) = String.length s + String.length t.
Proof.
  induction s as [|c s IH]; [done|].
  rewrite append_cons. simpl. by rewrite IH.
Qed.

(** *** [split] is the inverse of [join] *)

Lemma prefix_drop sep : forall s,
  String.prefix sep s = true -> s = sep ++ drop_string (String.length sep) s.
Proof.
  induction sep as [|a sep IH]; intros [|b s]; try done.
  rewrite prefix_cons. destruct (ascii_dec a b) as [->|]; [|done].
  intros Hp. rewrite append_cons. simpl. by rewrite <- (IH s Hp).
Qed.

Lemma partition_spec sep s : forall before after,
  partition sep s = Some (before, after) -> s = before ++ sep ++ after.
Proof.
  induction s as [|c s IH]; intros before after.
  - change (partition sep "")
      with (if String.prefix sep ""
            then Some ("", drop_string (String.length sep) "") else None).
    destruct (String.prefix sep "") eqn:Hp; [|done].
    intros [= <- <-]. by apply prefix_drop.
  - rewrite partition_cons.
    destruct (String.prefix sep (String c s)) eqn:Hp.
    + intros [= <- <-]. by apply prefix_drop.
    + destruct (partition sep s) as [[b a]|]; [|done].
      intros [= <- <-]. rewrite append_cons. f_equal. by apply IH.
Qed.

Lemma join_cons sep piece pieces :
  pieces <> [] -> join sep (piece :: pieces) = piece ++ sep ++ join sep pieces.
Proof. by destruct pieces. Qed.

(** Joining the pieces with the separator gives the text back. *)
Lemma join_split_fuel sep fuel : forall s,
  join sep (split_fuel fuel sep s) = s.
Proof.
  induction fuel as [|fuel IH]; intros s; [done|].
  simpl. destruct (partition sep s) as [[before after]|] eqn:Hp; [|done].
  destruct (split_fuel_head fuel sep after) as (p & rest & Hsplit).
  rewrite join_cons by (by rewrite Hsplit).
  rewrite IH. symmetry. by apply partition_spec.
Qed.

Lemma join_split sep s : join sep (split sep s) = s.
Proof. apply join_split_fuel. Qed.

(** More rounds than the text has characters change nothing. *)
Lemma split_fuel_enough sep fuel : forall fuel' s,
  sep <> "" ->
  String.length s <= fuel -> String.length s <= fuel' ->
  split_fuel fuel sep s = split_fuel fuel' sep s.
Proof.
  induction fuel as [|fuel IH]; intros fuel' s Hsep Hlen Hlen'.
  - destruct s; [|simpl in Hlen; lia]. destruct fuel'; [done|].
    simpl. by destruct sep.
  - destruct fuel' as [|fuel'].
    { destruct s; [|simpl in Hlen'; lia]. simpl. by destruct sep. }
    simpl. destruct (partition sep s) as [[before after]|] eqn:Hp; [|done].
    f_equal. apply partition_spec in Hp. subst s.
    rewrite !length_append in Hlen, Hlen'.
    assert (0 < String.length sep) by (destruct sep; simpl; [done|lia]).
    apply IH; [done|lia|lia].
Qed.

(** *** [strip] and the line feeds around a text *)

Fixpoint has_byte (c : ascii) (s : string) : bool :=
  match s with
  | "" => false
  | String a s' => Ascii.eqb a c || has_byte c s'
  end.

(** What the proofs below use of the multi-byte spaces: none is empty and
    none holds a line feed. *)
Definition plain_spaces (spaces : list string) : Prop :=
  Forall (fun w => has_byte "010" w = false /\ w <> "") spaces.

Lemma wide_spaces_plain : plain_spaces wide_spaces.
Proof.
  unfold plain_spaces. apply Forall_forall. intros w Hw.
  repeat (apply elem_of_cons in Hw as [->|Hw]; [by vm_compute|]).
  by apply elem_of_nil in Hw.
Qed.

Lemma prefix_line w :
  has_byte "010" w = false -> forall s, String.prefix w (s ++ nl) = String.prefix w s.
Proof.
  induction w as [|a w IH]; intros Hfree s; [by rewrite !prefix_nil|].
  simpl in Hfree. apply orb_false_elim in Hfree as [Ha Hw].
  destruct s as [|b s].
  - rewrite append_nil. unfold nl. rewrite prefix_cons.
    destruct (ascii_dec a "010") as [->|]; [|done].
    by rewrite Ascii.eqb_refl in Ha.
  - rewrite append_cons, !prefix_cons.
    destruct (ascii_dec a b); [by apply IH|done].
Qed.

Lemma drop_string_append w : forall s t,
  String.prefix w s = true ->
  drop_string (String.length w) (s ++ t) = drop_string (String.length w) s ++ t.
Proof.
  induction w as [|a w IH]; intros s t; [done|].
  destruct s as [|b s]; [done|].
  rewrite prefix_cons. destruct (ascii_dec a b); [|done].
  intros Hp. rewrite append_cons. simpl. by apply IH.
Qed.

Lemma drop_string_shorter w s :
  w <> "" -> String.prefix w s = true ->
  String.length (drop_string (String.length w) s) < String.length s.
Proof.
  intros Hw Hp. rewrite (prefix_drop w s Hp) at 2. rewrite length_append.
  destruct w; [done|]. simpl. lia.
Qed.

Lemma find_line spaces s :
  plain_spaces spaces ->
  List.find (fun w => String.prefix w (s ++ nl)) spaces =
  List.find (fun w => String.prefix w s) spaces.
Proof.
  induction 1 as [|w spaces [Hfree _] _ IH]; [done|].
  simpl. by rewrite (prefix_line w Hfree), IH.
Qed.

(** Stripping on the left a text that is followed by a line feed: the line
    feed goes when the whole text goes, and stays otherwise. *)
Lemma strip_left_line spaces :
  plain_spaces spaces ->
  forall fuel s,
    String.length s <= fuel ->
    strip_left (S fuel) spaces (s ++ nl) =
      match strip_left fuel spaces s with
      | "" => ""
      | String c rest => String c rest ++ nl
      end.
Proof.
  intros Hplain. induction fuel as [|fuel IH]; intros s Hlen.
  - destruct s; [done|simpl in Hlen; lia].
  - destruct s as [|c s]; [by destruct fuel|].
    rewrite append_cons.
    change (strip_left (S (S fuel)) spaces (String c (s ++ nl)))
      with (if is_space_byte c then strip_left (S fuel) spaces (s ++ nl)
            else match List.find (fun w => String.prefix w (String c (s ++ nl))) spaces with
                 | Some w => strip_left (S fuel) spaces
                               (drop_string (String.length w) (String c (s ++ nl)))
                 | None => String c (s ++ nl)
                 end).
    change (strip_left (S fuel) spaces (String c s))
      with (if is_space_byte c then strip_left fuel spaces s
            else match List.find (fun w => String.prefix w (String c s)) spaces with
                 | Some w => strip_left fuel spaces
                               (drop_string (String.length w) (String c s))
                 | None => String c s
                 end).
    simpl in Hlen.
    destruct (is_space_byte c); [apply IH; lia|].
    rewrite <- append_cons, (find_line spaces (String c s) Hplain).
    destruct (List.find _ spaces) as [w|] eqn:Hfind; [|done].
    apply find_some in Hfind as [Hin Hp].
    apply list_elem_of_In in Hin.
    destruct (proj1 (Forall_forall _ _) Hplain w Hin) as [_ Hw].
    rewrite (drop_string_append w _ nl Hp).
    apply IH.
    pose proof (drop_string_shorter w (String c s) Hw Hp) as Hshort.
    simpl in Hshort. lia.
Qed.

Lemma rev_app_append s : forall t acc,
  String.rev_app (s ++ t) acc = String.rev_app t (String.rev_app s acc).
Proof.
  induction s as [|c s IH]; intros t acc; [done|].
  rewrite append_cons. simpl. apply IH.
Qed.

Lemma lstrip_line s : lstrip (nl ++ s) = lstrip s.
Proof. reflexivity. Qed.

Lemma rstrip_line s : rstrip (s ++ nl) = rstrip s.
Proof.
  unfold rstrip, String.rev. rewrite rev_app_append, length_append.
  replace (String.length s + String.length nl) with (S (String.length s))
    by (simpl; lia).
  reflexivity.
Qed.

(** The line feeds that a fence puts around a text do not survive
    [strip]. *)
Lemma strip_lines s : strip (nl ++ s ++ nl) = strip s.
Proof.
  unfold strip. rewrite lstrip_line. unfold lstrip at 1.
  rewrite length_append.
  replace (String.length s + String.length nl) with (S (String.length s))
    by (simpl; lia).
  rewrite (strip_left_line wide_spaces wide_spaces_plain) by done.
  fold (lstrip s). destruct (lstrip s) as [|c rest]; [done|].
  apply rstrip_line.
Qed.

(** A line feed is no part of a fence: whether a text starts with a fence
    is decided before the line feed. *)
Lemma prefix_fence_nl s t :
  String.prefix fence (s ++ nl ++ t) = String.prefix fence s.
Proof.
  unfold fence, nl.
  destruct s as [|c1 [|c2 [|c3 s]]];
    rewrite ?append_cons, ?append_nil; cbn -[ascii_dec];
    repeat (destruct (ascii_dec _ _); try done).
  by rewrite !prefix_nil.
Qed.

Lemma prefix_json_fence s :
  String.prefix json_fence s = true -> String.prefix fence s = true.
Proof.
  unfold fence, json_fence.
  destruct s as [|c1 [|c2 [|c3 s]]]; cbn -[ascii_dec]; try done;
    repeat (destruct (ascii_dec _ _); try done);
    intros _; apply prefix_nil.
Qed.

Lemma contains_json_fence s :
  contains fence s = false -> contains json_fence s = false.
Proof.
  induction s as [|c s IH]; [done|].
  rewrite !contains_cons. intros [Hp Hs]%orb_false_elim.
  rewrite (IH Hs), orb_false_r.
  destruct (String.prefix json_fence (String c s)) eqn:Hj; [|done].
  by rewrite (prefix_json_fence _ Hj) in Hp.
Qed.

Section Payload.

Variable payload : string.
Hypothesis no_fence : contains fence payload = false.

Lemma payload_line_no_fence : contains fence (payload ++ nl) = false.
Proof using no_fence.
  revert no_fence. induction payload as [|c s IH]; [done|].
  rewrite contains_cons. intros [Hp Hs]%orb_false_elim.
  change (String c s ++ nl) with (String c (s ++ nl)).
  rewrite contains_cons, (IH Hs), orb_false_r.
  change (String c (s ++ nl)) with (String c s ++ nl ++ "").
  by rewrite prefix_fence_nl.
Qed.

Lemma payload_closing_no_json_fence :
  contains json_fence (payload ++ nl ++ fence) = false.
Proof using no_fence.
  revert no_fence. induction payload as [|c s IH]; [done|].
  rewrite contains_cons. intros [Hp Hs]%orb_false_elim.
  change (String c s ++ nl ++ fence) with (String c (s ++ nl ++ fence)).
  rewrite contains_cons, (IH Hs), orb_false_r.
  destruct (String.prefix json_fence (String c (s ++ nl ++ fence))) eqn:Hj;
    [|done].
  apply prefix_json_fence in Hj.
  change (String c (s ++ nl ++ fence)) with (String c s ++ nl ++ fence) in Hj.
  rewrite prefix_fence_nl in Hj. congruence.
Qed.

(** The closing fence is the first fence after the payload. *)
Lemma payload_closing_partition :
  partition fence (payload ++ nl ++ fence) = Some (payload ++ nl, "").
Proof using no_fence.
  revert no_fence. induction payload as [|c s IH]; [done|].
  rewrite contains_cons. intros [Hp Hs]%orb_false_elim.
  change (String c s ++ nl ++ fence) with (String c (s ++ nl ++ fence)).
  rewrite partition_cons.
  change (String c (s ++ nl ++ fence)) with (String c s ++ nl ++ fence) at 1.
  rewrite prefix_fence_nl, Hp. by rewrite (IH Hs).
Qed.

End Payload.

Lemma split_index_0 sep s :
  list_index (split sep s) 0 = Returns (first_piece sep s).
Proof.
  unfold split, first_piece. destruct s as [|c s].
  - simpl. by destruct sep.
  - cbn [String.length split_fuel].
    by destruct (partition sep (String c s)) as [[before after]|].
Qed.

Lemma split_index_1 sep s before after :
  partition sep s = Some (before, after) ->
  2 <= String.length s ->
  list_index (split sep s) 1 = Returns (first_piece sep after).
Proof.
  intros Hp Hlen. unfold split, first_piece.
  destruct (String.length s) as [|[|fuel]]; [lia|lia|].
  cbn [split_fuel]. rewrite Hp.
  by destruct (partition sep after) as [[before' after']|].
Qed.

Section Wrappings.

Variable payload : string.
Hypothesis no_fence : contains fence payload = false.

Lemma line_first_piece :
  first_piece fence (nl ++ payload ++ nl ++ fence) = nl ++ payload ++ nl.
Proof using no_fence.
  unfold first_piece, nl at 1. rewrite append_cons, append_nil, partition_cons.
  by rewrite (payload_closing_partition payload no_fence).
Qed.

Lemma line_no_json_fence :
  contains json_fence (nl ++ payload ++ nl ++ fence) = false.
Proof using no_fence.
  unfold nl at 1. rewrite append_cons, append_nil, contains_cons.
  by rewrite (payload_closing_no_json_fence payload no_fence).
Qed.

Lemma line_no_fence : contains fence (nl ++ payload ++ nl) = false.
Proof using no_fence.
  unfold nl at 1. rewrite append_cons, append_nil, contains_cons.
  by rewrite (payload_line_no_fence payload no_fence).
Qed.

Lemma remove_code_fence_bare : remove_code_fence payload = Returns payload.
Proof using no_fence.
  unfold remove_code_fence.
  change "```json" with json_fence. change "```" with fence.
  by rewrite (contains_json_fence _ no_fence), no_fence.
Qed.

Lemma remove_code_fence_json :
  remove_code_fence (fenced_json payload) = Returns (strip payload).
Proof using no_fence.
  unfold remove_code_fence.
  change "```json" with json_fence. change "```" with fence.
  assert (Hc : contains json_fence (fenced_json payload) = true) by done.
  rewrite Hc.
  rewrite (split_index_1 json_fence (fenced_json payload) ""
             (nl ++ payload ++ nl ++ fence)); [|done|].
  2:{ unfold fenced_json. rewrite length_append. simpl. lia. }
  unfold first_piece at 1.
  rewrite (partition_not_contained _ _ line_no_json_fence).
  simpl result_bind. rewrite split_index_0. simpl result_bind.
  by rewrite line_first_piece, strip_lines.
Qed.

Lemma fenced_plain_no_json_fence :
  contains json_fence (fenced_plain payload) = false.
Proof using no_fence.
  unfold fenced_plain, fence at 1.
  rewrite !append_cons, append_nil, !contains_cons.
  rewrite line_no_json_fence.
  cbn -[ascii_dec]. unfold nl. rewrite append_cons. cbn -[ascii_dec].
  repeat (destruct (ascii_dec _ _); try done).
Qed.

Lemma remove_code_fence_plain :
  remove_code_fence (fenced_plain payload) = Returns (strip payload).
Proof using no_fence.
  unfold remove_code_fence.
  change "```json" with json_fence. change "```" with fence.
  rewrite fenced_plain_no_json_fence.
  assert (Hc : contains fence (fenced_plain payload) = true) by done.
  rewrite Hc.
  rewrite (split_index_1 fence (fenced_plain payload) ""
             (nl ++ payload ++ nl ++ fence)); [|done|].
  2:{ unfold fenced_plain. rewrite length_append. simpl. lia. }
  rewrite line_first_piece. simpl result_bind.
  rewrite split_index_0. simpl result_bind.
  unfold first_piece.
  by rewrite (partition_not_contained _ _ line_no_fence), strip_lines.
Qed.

End Wrappings.

Lemma parse_structured_text text body :
  text <> "" ->
  remove_code_fence text = Returns body ->
  parse_structured (Some text) =
    match json_loads body with
    | Returns v => Returns v
    | Raises JSONDecodeError => Returns JNull
    | Raises e => Raises e
    end.
Proof.
  intros Htext Hbody. simpl. unfold str_truthy.
  rewrite (proj2 (String.eqb_neq _ _) Htext). simpl. by rewrite Hbody.
Qed.

(** C6, as the code has it. For a payload that is not empty, contains no
    fence marker and is read by [json.loads] as it is read once stripped of
    the white space around it, the parser gives the same result for the
    payload alone, in a fence labeled json and in an unlabeled fence: the
    decoded payload, [None] when [json.loads] rejects it as no JSON, and the
    exception when [json.loads] raises another one. *)
Theorem fence_tolerance (payload : string) :
  contains "```" payload = false ->
  payload <> "" ->
  json_loads (strip payload) = json_loads payload ->
  parse_structured (Some payload) =
    match json_loads payload with
    | Returns v => Returns v
    | Raises JSONDecodeError => Returns JNull
    | Raises e => Raises e
    end /\
  parse_structured (Some (fenced_json payload)) = parse_structured (Some payload) /\
  parse_structured (Some (fenced_plain payload)) = parse_structured (Some payload).
Proof.
  intros Hfence Hne Hloads.
  assert (Hbare : parse_structured (Some payload) =
                  match json_loads payload with
                  | Returns v => Returns v
                  | Raises JSONDecodeError => Returns JNull
                  | Raises e => Raises e
                  end).
  { apply parse_structured_text; [done|]. by apply remove_code_fence_bare. }
  split; [done|]. rewrite Hbare. split.
  - rewrite (parse_structured_text (fenced_json payload) (strip payload)).
    + by rewrite Hloads.
    + done.
    + by apply remove_code_fence_json.
  - rewrite (parse_structured_text (fenced_plain payload) (strip payload)).
    + by rewrite Hloads.
    + done.
    + by apply remove_code_fence_plain.
Qed.

(** ** The shape of the store is kept *)

Lemma safe_ret {A : Type} (a : A) : safe (ret a).
Proof. intros w Hw. by exists a, w. Qed.

Lemma safe_bind {A B : Type} (m : py A) (k : A -> py B) :
  safe m -> (forall a, safe (k a)) -> safe (bind m k).
Proof.
  intros Hm Hk w Hw. destruct (Hm w Hw) as (a & w1 & Hrun & Hw1).
  destruct (Hk a w1 Hw1) as (b & w2 & Hrun2 & Hw2).
  exists b, w2. unfold bind. by rewrite Hrun.
Qed.

Lemma safe_keeps {A : Type} (m : py A) : safe m -> keeps m.
Proof.
  intros Hm w Hw. destruct (Hm w Hw) as (a & w' & -> & Hw'). done.
Qed.

Lemma keeps_ret {A : Type} (a : A) : keeps (ret a).
Proof. by intros w Hw. Qed.

Lemma keeps_raise {A : Type} (e : exn) : keeps (@raise A e).
Proof. by intros w Hw. Qed.

Lemma keeps_bind {A B : Type} (m : py A) (k : A -> py B) :
  keeps m -> (forall a, keeps (k a)) -> keeps (bind m k).
Proof.
  intros Hm Hk w Hw. specialize (Hm w Hw). unfold bind.
  destruct (m w) as [[a|e] w1]; [by apply Hk|done].
Qed.

Lemma keeps_try_except {A : Type} (body : py A) (handler : exn -> py A) :
  keeps body -> (forall e, keeps (handler e)) -> keeps (try_except body handler).
Proof.
  intros Hb Hh w Hw. specialize (Hb w Hw). unfold try_except.
  destruct (body w) as [[a|e] w1]; [done|by apply Hh].
Qed.

Lemma safe_try_except {A : Type} (body : py A) (handler : exn -> py A) :
  safe body -> safe (try_except body handler).
Proof.
  intros Hb w Hw. destruct (Hb w Hw) as (a & w' & Hrun & Hw').
  exists a, w'. unfold try_except. by rewrite Hrun.
Qed.

Lemma keeps_lift_result {A : Type} (r : result A) : keeps (lift_result r).
Proof. by intros w Hw. Qed.

Lemma store_ok_with_session sid s n w :
  store_ok w -> session_ok sid s -> store_ok (with_session sid s n w).
Proof.
  intros Hw Hs sid' s'. unfold with_session. simpl.
  destruct (decide (sid = sid')) as [<-|Hne].
  - rewrite lookup_insert_eq. by intros [= <-].
  - rewrite lookup_insert_ne by done. apply Hw.
Qed.

Lemma store_ok_same_sessions w w' :
  session_contexts w' = session_contexts w -> store_ok w -> store_ok w'.
Proof. intros Heq Hw sid s. rewrite Heq. apply Hw. Qed.

Lemma new_session_ok sid t1 t2 : session_ok sid (new_session sid t1 t2).
Proof.
  split; try reflexivity; try (by left); try (eexists; reflexivity).
  exists []. split; [reflexivity|]. simpl. lia.
Qed.

Lemma session_ok_well_formed sid s : session_ok sid s -> well_formed s.
Proof.
  intros [_ _ _ (turns & Hh & _) _ _ Hd _ _]. split; eauto.
Qed.

Lemma mutated_ok sid m s w s' n :
  mutated m s w = Some (s', n) -> session_ok sid s -> session_ok sid s'.
Proof.
  intros Hm [Hid Hsid Hname (turns & Hh & Hlen) Hloc Hfaces (d & Hd) Hc Hu].
  destruct m; simpl in Hm; rewrite ?Hh, ?Hd in Hm; injection Hm as <- <-;
    unfold appended, optional_text;
    (split;
     [ by rewrite !lookup_insert_ne by done
     | first [ by rewrite !lookup_insert_ne by done
             | right; eexists;
               repeat (first [ apply lookup_insert_eq
                             | rewrite lookup_insert_ne by done ]) ]
     | first [ by rewrite !lookup_insert_ne by done
             | right; eexists;
               repeat (first [ apply lookup_insert_eq
                             | rewrite lookup_insert_ne by done ]) ]
     | eexists; split;
       [ repeat (first [ apply lookup_insert_eq
                       | rewrite lookup_insert_ne by done ]); eassumption
       | first [ done | rewrite slice_last_length; lia ] ]
     | first [ by rewrite !lookup_insert_ne by done
             | right; eexists;
               repeat (first [ apply lookup_insert_eq
                             | rewrite lookup_insert_ne by done ]) ]
     | by rewrite !lookup_insert_ne by done
     | eexists;
       repeat (first [ apply lookup_insert_eq
                     | rewrite lookup_insert_ne by done ]); eassumption
     | by rewrite !lookup_insert_ne by done
     | eexists; apply lookup_insert_eq ]).
Qed.

Lemma run_mutation_absent sid m w :
  session_contexts w !! sid = None ->
  run_mutation sid m w =
  run_mutation sid m
    (with_session sid
       (new_session sid (isoformat_now (clock w)) (isoformat_now (S (clock w))))
       2 w).
Proof.
  intros Hs. destruct m; simpl;
    [ unfold update_student_identity | unfold add_conversation_turn
    | unfold update_location | unfold update_environment ];
    by rewrite (create_if_missing_bind_absent sid _ w Hs).
Qed.

Lemma safe_create_session sid : safe (create_session sid).
Proof.
  intros w Hw. eexists tt, _. split; [apply create_session_run|].
  apply store_ok_with_session; [done|apply new_session_ok].
Qed.

Lemma safe_run_mutation sid m : safe (run_mutation sid m).
Proof.
  assert (Hpresent : forall w s,
            store_ok w -> session_contexts w !! sid = Some s ->
            exists a w', run_mutation sid m w = (Returns a, w') /\ store_ok w').
  { intros w s Hw Hs. pose proof (Hw sid s Hs) as Hok.
    destruct (run_mutation_run sid m w s Hs (session_ok_well_formed _ _ Hok))
      as (s' & n & Hm & Hrun).
    exists tt, (with_session sid s' n w). split; [done|].
    apply store_ok_with_session; [done|]. by apply (mutated_ok sid m s w s' n). }
  intros w Hw. destruct (session_contexts w !! sid) as [s|] eqn:Hs.
  - by apply (Hpresent w s).
  - rewrite (run_mutation_absent sid m w Hs).
    eapply Hpresent; [|apply with_session_lookup].
    apply store_ok_with_session; [done|apply new_session_ok].
Qed.

Lemma build_llm_context_absent sid memories w :
  session_contexts w !! sid = None ->
  build_llm_context sid memories w =
  build_llm_context sid memories
    (with_session sid
       (new_session sid (isoformat_now (clock w)) (isoformat_now (S (clock w))))
       2 w).
Proof.
  intros Hs. unfold build_llm_context.
  by rewrite (create_if_missing_bind_absent sid _ w Hs).
Qed.

Lemma safe_build_llm_context sid memories : safe (build_llm_context sid memories).
Proof.
  assert (Hpresent : forall w s,
            store_ok w -> session_contexts w !! sid = Some s ->
            exists a w', build_llm_context sid memories w = (Returns a, w') /\
                         store_ok w').
  { intros w s Hw Hs.
    destruct (ok_history _ _ (Hw sid s Hs)) as (turns & Hh & _).
    eexists _, w. split; [by apply (build_llm_context_run sid memories w s turns)|done]. }
  intros w Hw. destruct (session_contexts w !! sid) as [s|] eqn:Hs.
  - by apply (Hpresent w s).
  - rewrite (build_llm_context_absent sid memories w Hs).
    eapply Hpresent; [|apply with_session_lookup].
    apply store_ok_with_session; [done|apply new_session_ok].
Qed.

Lemma safe_get_session sid : safe (get_session sid).
Proof. intros w Hw. by eexists _, w. Qed.

Lemma store_ok_delete sid w :
  store_ok w ->
  store_ok (World (delete sid (session_contexts w)) (clock w) (calls w)).
Proof.
  intros Hw sid' s'. simpl. intros Hs%lookup_delete_Some. apply Hw, Hs.
Qed.

Lemma clear_session_run sid w :
  clear_session sid w =
    (Returns tt, World (delete sid (session_contexts w)) (clock w) (calls w)).
Proof.
  unfold clear_session, bind.
  destruct (session_contexts w !! sid) as [s|] eqn:Hs.
  - by rewrite (session_in_present _ _ _ Hs).
  - rewrite (session_in_absent _ _ Hs). unfold ret.
    rewrite delete_id by done. by destruct w.
Qed.

Lemma safe_clear_session sid : safe (clear_session sid).
Proof.
  intros w Hw. eexists tt, _. split; [apply clear_session_run|].
  by apply store_ok_delete.
Qed.

Lemma safe_run_method c : safe (run_method c).
Proof.
  destruct c; simpl.
  - apply safe_create_session.
  - apply safe_run_mutation.
  - apply safe_bind; [apply safe_build_llm_context|intros; apply safe_ret].
  - apply safe_bind; [apply safe_get_session|intros; apply safe_ret].
  - apply safe_clear_session.
Qed.

Lemma safe_run_methods cs : safe (run_methods cs).
Proof.
  induction cs as [|c rest IH]; simpl; [apply safe_ret|].
  apply safe_bind; [apply safe_run_method|done].
Qed.

Lemma store_ok_empty c log : store_ok (World ∅ c log).
Proof. intros sid s. simpl. by rewrite lookup_empty. Qed.

(** X1. Whatever methods of [ContextBuilder] are called, in whatever order
    and on whatever session identifiers, starting from the empty store no
    call raises, and every stored session keeps the nine keys with values of
    the right kind, the identifier it is stored under, and at most ten
    turns. *)
Theorem builder_never_raises (cs : list method) (c : nat) (log : list call) :
  exists w',
    run_methods cs (World ∅ c log) = (Returns tt, w') /\
    forall sid s, session_contexts w' !! sid = Some s ->
      session_ok sid s /\
      exists turns, history_of sid w' = Some turns /\ length turns <= 10.
Proof.
  destruct (safe_run_methods cs (World ∅ c log) (store_ok_empty c log))
    as ([] & w' & Hrun & Hw').
  exists w'. split; [done|]. intros sid s Hs. split; [by apply Hw'|].
  destruct (ok_history _ _ (Hw' sid s Hs)) as (turns & Hh & Hlen).
  exists turns. split; [|done]. unfold history_of. by rewrite Hs, Hh.
Qed.

Lemma keeps_make_ChatResponse sid r i nav goal :
  keeps (make_ChatResponse sid r i nav goal).
Proof.
  unfold make_ChatResponse.
  destruct r; try apply keeps_raise. destruct i; first [apply keeps_ret|apply keeps_raise].
Qed.

Lemma keeps_output_get v key fallback : keeps (output_get v key fallback).
Proof. destruct v; first [apply keeps_ret|apply keeps_raise]. Qed.

Lemma safe_add_conversation_turn sid r c : safe (add_conversation_turn sid r c).
Proof. apply (safe_run_mutation sid (AddTurn r c)). Qed.

Lemma keeps_respond sid v : keeps (respond sid v).
Proof.
  unfold respond. destruct (negb (truthy v)); [apply keeps_raise|].
  apply keeps_bind; [apply keeps_output_get|intros response].
  apply keeps_bind; [apply keeps_output_get|intros i].
  apply keeps_bind; [apply keeps_output_get|intros location].
  apply keeps_bind; [apply safe_keeps, safe_add_conversation_turn|intros _].
  destruct (navigation_decision i location). apply keeps_make_ChatResponse.
Qed.

Lemma keeps_search_memory query top_k : keeps (search_memory query top_k).
Proof. intros w Hw. by apply (store_ok_same_sessions w). Qed.

Lemma keeps_generate_structured sp um temperature :
  keeps (generate_structured sp um temperature).
Proof.
  intros w Hw. rewrite generate_structured_run.
  by apply (store_ok_same_sessions w).
Qed.

Lemma keeps_process_speech speech : keeps (process_speech speech).
Proof.
  unfold process_speech.
  apply keeps_try_except; [|intros; apply keeps_raise].
  destruct (PrimFloat.ltb _ _); [apply keeps_make_ChatResponse|].
  apply keeps_bind; [apply safe_keeps, safe_add_conversation_turn|intros _].
  apply keeps_bind; [apply keeps_search_memory|intros memories].
  apply keeps_bind; [apply safe_keeps, safe_build_llm_context|intros c].
  apply keeps_bind; [apply keeps_generate_structured|intros v].
  apply keeps_respond.
Qed.

Lemma safe_when (b : bool) (m : py unit) : safe m -> safe (if b then m else ret tt).
Proof. intros Hm. destruct b; [done|apply safe_ret]. Qed.

Lemma safe_update_context ctx : safe (update_context ctx).
Proof.
  unfold update_context. apply safe_try_except.
  apply safe_bind; [apply safe_get_session|intros session].
  apply safe_bind; [apply safe_when, safe_create_session|intros _].
  apply safe_bind.
  { destruct (cu_student_id ctx), (cu_student_name ctx); try apply safe_ret.
    apply safe_when.
    apply (safe_run_mutation (cu_session_id ctx) (UpdateIdentity _ _)). }
  intros _. apply safe_bind.
  { destruct (cu_location ctx); [|apply safe_ret].
    apply safe_when. apply (safe_run_mutation (cu_session_id ctx) (UpdateLocation _)). }
  intros _. apply safe_bind; [|intros; apply safe_ret].
  destruct (cu_environment_data ctx); [|apply safe_ret].
  apply safe_when.
  apply (safe_run_mutation (cu_session_id ctx) (UpdateEnvironment _)).
Qed.

Lemma keeps_get_session_endpoint sid : keeps (get_session_endpoint sid).
Proof.
  intros w Hw. unfold get_session_endpoint, bind, get_session.
  destruct (session_contexts w !! sid) as [s|]; [|done].
  by destruct (session_truthy _).
Qed.

Lemma safe_clear_session_endpoint sid : safe (clear_session_endpoint sid).
Proof.
  apply safe_bind; [apply safe_clear_session|intros; apply safe_ret].
Qed.

Lemma keeps_with_headers {A : Type} headers (response : A) :
  keeps (with_headers headers response).
Proof.
  unfold with_headers. destruct (forallb _ _); [apply keeps_ret|apply keeps_raise].
Qed.

Lemma keeps_voice_interact audio sid : keeps (voice_interact audio sid).
Proof.
  unfold voice_interact.
  destruct whisper_stt as [transcribe|]; [|apply keeps_raise].
  destruct vachana_tts as [synthesize|]; [|apply keeps_raise].
  apply keeps_try_except; [|intros; apply keeps_raise].
  apply keeps_bind; [apply keeps_lift_result|intros stt].
  apply keeps_bind; [apply keeps_process_speech|intros r].
  apply keeps_bind; [apply keeps_lift_result|intros; apply keeps_with_headers].
Qed.

Lemma serve_keeps r w : store_ok w -> store_ok (serve r w).
Proof.
  intros Hw. destruct r; simpl.
  - by apply (safe_keeps _ (safe_update_context ctx)).
  - by apply keeps_process_speech.
  - by apply keeps_get_session_endpoint.
  - by apply (safe_keeps _ (safe_clear_session_endpoint sid)).
  - by apply keeps_voice_interact.
Qed.

Lemma serve_all_keeps rs : forall w, store_ok w -> store_ok (serve_all rs w).
Proof.
  induction rs as [|r rs IH]; intros w Hw; [done|].
  simpl. apply IH. by apply serve_keeps.
Qed.

(** X2. Whatever requests the API serves (context updates, speech inputs,
    session reads and deletions, voice interactions), answered or failed,
    starting from the empty store every stored session has the shape
    [create_session] gave it and at most ten turns of history. *)
Theorem requests_keep_store_shape (rs : list request) (c : nat) (log : list call) :
  exists w',
    serve_all rs (World ∅ c log) = w' /\
    forall sid s, session_contexts w' !! sid = Some s ->
      session_ok sid s /\
      exists turns, history_of sid w' = Some turns /\ length turns <= 10.
Proof.
  eexists. split; [reflexivity|]. intros sid s Hs.
  pose proof (serve_all_keeps rs _ (store_ok_empty c log)) as Hok.
  split; [by apply Hok|].
  destruct (ok_history _ _ (Hok sid s Hs)) as (turns & Hh & Hlen).
  exists turns. split; [|done]. unfold history_of. by rewrite Hs, Hh.
Qed.

(** ** More on [ContextBuilder] *)

(** X3. A mutation on a session that does not exist creates it first: the
    call returns, the session is stored under its identifier with
    [created_at] read from the clock at that moment, every key the mutation
    does not write has the value [create_session] gives it, and the other
    sessions are as before. *)
Theorem mutation_creates_missing_session sid (m : mutation) w :
  session_contexts w !! sid = None ->
  exists w' s',
    run_mutation sid m w = (Returns tt, w') /\
    get_session sid w' = (Returns (Some s'), w') /\
    s' !! "session_id" = Some (VStr sid) /\
    s' !! "created_at" = Some (VStr (isoformat_now (clock w))) /\
    (forall key, key ∉ "last_updated" :: target_keys m ->
       s' !! key =
       new_session sid (isoformat_now (clock w)) (isoformat_now (S (clock w)))
         !! key) /\
    (forall sid', sid <> sid' ->
       session_contexts w' !! sid' = session_contexts w !! sid').
Proof.
  intros Hs. rewrite (run_mutation_absent sid m w Hs).
  set (fresh := new_session sid _ _). set (w0 := with_session sid fresh 2 w).
  destruct (run_mutation_run sid m w0 fresh (with_session_lookup _ _ _ _)
              (new_session_well_formed _ _ _)) as (s' & n & Hm & Hrun).
  assert (Hframe : forall key, key ∉ "last_updated" :: target_keys m ->
                     s' !! key = fresh !! key)
    by (intros key; by apply (mutated_frame m fresh w0 s' n)).
  exists (with_session sid s' n w0), s'.
  split; [done|]. split.
  { unfold get_session. by rewrite with_session_lookup. }
  split; [rewrite Hframe; [done|destruct m; simpl; not_listed]|].
  split; [rewrite Hframe; [done|destruct m; simpl; not_listed]|].
  split; [exact Hframe|]. intros sid' Hne.
  rewrite with_session_lookup_ne by done. unfold w0.
  by rewrite with_session_lookup_ne.
Qed.

(** X4. Clearing a session and appending to it afterwards starts over: the
    history holds the new turn alone and [created_at] is read anew. Clearing
    never fails, touches no other session, and does nothing where there is
    no such session. *)
Theorem clear_session_starts_over sid r c w :
  exists w1 w2 t created,
    clear_session sid w = (Returns tt, w1) /\
    session_contexts w1 !! sid = None /\
    (forall sid', sid <> sid' ->
       session_contexts w1 !! sid' = session_contexts w !! sid') /\
    (session_contexts w !! sid = None -> w1 = w) /\
    add_conversation_turn sid r c w1 = (Returns tt, w2) /\
    turn_entry t = (r, c) /\
    history_of sid w2 = Some [t] /\
    session_contexts w2 !! sid ≫= (.!! "created_at") = Some (VStr created) /\
    created = isoformat_now (clock w).
Proof.
  set (w1 := World (delete sid (session_contexts w)) (clock w) (calls w)).
  assert (Hgone : session_contexts w1 !! sid = None) by apply lookup_delete_eq.
  pose proof (add_conversation_turn_absent sid r c w1 Hgone) as Habsent.
  set (fresh := new_session sid _ _) in Habsent.
  rewrite (add_conversation_turn_run sid r c (with_session sid fresh 2 w1)
             fresh [])
    in Habsent; [|apply with_session_lookup|done].
  eexists w1, _, (Turn r c _), _.
  split; [apply clear_session_run|]. split; [done|].
  split; [intros sid' Hne; by apply lookup_delete_ne|].
  split.
  { intros Hs. unfold w1. rewrite delete_id by done. by destruct w. }
  split; [exact Habsent|]. split; [done|].
  split; [by rewrite history_of_with_session, appended_history|].
  split; [|reflexivity].
  rewrite with_session_lookup. simpl. unfold appended.
  by rewrite !lookup_insert_ne.
Qed.

(** X5. Two environment updates in a row merge into the environment, the
    later one winning where both carry a key; a key that neither carries
    keeps its value, and no other key of the session changes but
    [last_updated]. *)
Theorem update_environment_twice sid (first second : gmap string json) w s d :
  session_contexts w !! sid = Some s ->
  environment_of s = Some d ->
  exists w' s',
    (update_environment sid first ;;; update_environment sid second) w =
      (Returns tt, w') /\
    session_contexts w' !! sid = Some s' /\
    environment_of s' = Some (second ∪ (first ∪ d)) /\
    (forall k,
       (second ∪ (first ∪ d)) !! k =
         match second !! k with
         | Some v => Some v
         | None => match first !! k with
                   | Some v => Some v
                   | None => d !! k
                   end
         end) /\
    (forall key, key <> "environment_info" -> key <> "last_updated" ->
       s' !! key = s !! key).
Proof.
  unfold environment_of. intros Hs Hd.
  destruct (s !! "environment_info") as [[]|] eqn:He; try done.
  injection Hd as ->.
  eexists _, _. split.
  { unfold bind at 1. rewrite (update_environment_run sid first w s d Hs He).
    erewrite (update_environment_run sid second _ _ (first ∪ d));
      [reflexivity|apply with_session_lookup|].
    rewrite lookup_insert_ne by done. apply lookup_insert_eq. }
  split; [apply with_session_lookup|].
  split.
  { rewrite lookup_insert_ne by done. by rewrite lookup_insert_eq. }
  split.
  { intros k. rewrite !lookup_union.
    destruct (second !! k), (first !! k), (d !! k); done. }
  intros key Henv Hupd. by rewrite !lookup_insert_ne.
Qed.

(** X6. Once an identity is set, the context carries it and the prompt
    opens with the greeting to that name; a student whose name is the
    string [unknown] gets no greeting line. *)
Theorem named_student_is_greeted sid student_id student_name
    (memories : list memory) w s (turns : list turn) :
  session_contexts w !! sid = Some s ->
  s !! "conversation_history" = Some (VList turns) ->
  exists c w',
    (update_student_identity sid student_id student_name ;;;
     build_llm_context sid memories) w = (Returns c, w') /\
    student_info_id c = VStr student_id /\
    student_info_name c = VStr student_name /\
    student_part c =
      if String.eqb student_name "unknown" then []
      else [("คุณกำลังพูดคุยกับ " ++ student_name)%string].
Proof.
  intros Hs Hh. eexists _, _. split.
  { unfold bind at 1. rewrite (update_student_identity_run _ _ _ _ _ Hs).
    erewrite (build_llm_context_run sid memories _ _ turns);
      [reflexivity|apply with_session_lookup|].
    by rewrite !lookup_insert_ne. }
  split; [|split].
  - unfold context_dict, dict_get. simpl.
    rewrite lookup_insert_ne, lookup_insert_ne by done.
    by rewrite lookup_insert_eq.
  - unfold context_dict, dict_get. simpl.
    rewrite lookup_insert_ne by done. by rewrite lookup_insert_eq.
  - unfold student_part, context_dict, dict_get. simpl.
    rewrite lookup_insert_ne by done. rewrite lookup_insert_eq. simpl.
    by destruct (String.eqb student_name "unknown").
Qed.

(** X7. Once a location is set, the context carries it and the prompt has
    the location line, unless the location is the empty string or the
    string [unknown]. *)
Theorem located_session_names_the_place sid location
    (memories : list memory) w s (turns : list turn) :
  session_contexts w !! sid = Some s ->
  s !! "conversation_history" = Some (VList turns) ->
  exists c w',
    (update_location sid location ;;; build_llm_context sid memories) w =
      (Returns c, w') /\
    ctx_current_location c = VStr location /\
    location_part c =
      if String.eqb location "" || String.eqb location "unknown" then []
      else [("ตำแหน่งปัจจุบัน: " ++ location)%string].
Proof.
  intros Hs Hh. eexists _, _. split.
  { unfold bind at 1. rewrite (update_location_run _ _ _ _ Hs).
    erewrite (build_llm_context_run sid memories _ _ turns);
      [reflexivity|apply with_session_lookup|].
    by rewrite !lookup_insert_ne. }
  assert (Hloc : forall t (s0 : gmap string pyval),
            dict_get (<["last_updated" := t]>
                        (<["current_location" := VStr location]> s0))
              "current_location" (VStr "unknown") = VStr location).
  { intros t s0. unfold dict_get. rewrite lookup_insert_ne by done.
    by rewrite lookup_insert_eq. }
  split.
  - unfold context_dict. simpl. apply Hloc.
  - unfold location_part, context_dict. simpl. rewrite Hloc. simpl.
    unfold str_truthy.
    by destruct (String.eqb location ""), (String.eqb location "unknown").
Qed.

(** X8. Building the context of a session that does not exist creates the
    session: the call returns a context with no history and [None] as
    identity and location, two clock readings are taken, and the new session
    is in the store afterwards. *)
Theorem build_creates_missing_session sid (memories : list memory) w :
  session_contexts w !! sid = None ->
  exists c w',
    build_llm_context sid memories w = (Returns c, w') /\
    session_contexts w' !! sid =
      Some (new_session sid (isoformat_now (clock w))
              (isoformat_now (S (clock w)))) /\
    clock w' = 2 + clock w /\
    ctx_conversation_history c = [] /\
    student_info_name c = VNone /\
    ctx_current_location c = VNone /\
    relevant_memories c = map to_relevant (slice_first 3 memories).
Proof.
  intros Hs. rewrite (build_llm_context_absent sid memories w Hs).
  eexists _, _. split.
  { eapply (build_llm_context_run sid memories);
      [apply with_session_lookup|apply new_session_history]. }
  split; [apply with_session_lookup|].
  repeat split. simpl. by destruct memories.
Qed.

Lemma create_if_missing_returns sid w :
  exists w', create_if_missing sid w = (Returns tt, w').
Proof.
  destruct (session_contexts w !! sid) as [s|] eqn:Hs.
  - exists w. by apply (create_if_missing_present sid w s).
  - rewrite (create_if_missing_absent sid w Hs), create_session_run. eauto.
Qed.

Lemma build_llm_context_inv sid memories w c w' :
  build_llm_context sid memories w = (Returns c, w') ->
  exists ctx turns, c = context_dict ctx (slice_last 5 turns) memories.
Proof.
  unfold build_llm_context, bind.
  destruct (create_if_missing_returns sid w) as (w1 & ->).
  unfold session_of. destruct (session_contexts w1 !! sid) as [ctx|]; [|done].
  destruct (dict_get ctx "conversation_history" (VList [])) as [| |turns|];
    try done.
  unfold ret. intros [= <- _]. eauto.
Qed.

(** X9. Whatever the session and the retrieved memories, a context that
    [build_llm_context] returns holds at most 5 turns and 3 memories, and
    its prompt has at most 10 parts: a greeting, a location, a heading and 3
    memories, a heading and 3 turns. *)
Theorem prompt_is_bounded sid (memories : list memory) w c w' :
  build_llm_context sid memories w = (Returns c, w') ->
  length (ctx_conversation_history c) <= 5 /\
  length (relevant_memories c) <= 3 /\
  length (prompt_parts c) <= 10.
Proof.
  intros (ctx & turns & ->)%build_llm_context_inv.
  assert (Hh : length (slice_last 5 turns) <= 5)
    by (rewrite slice_last_length; lia).
  assert (Hm : length (relevant_memories
                         (context_dict ctx (slice_last 5 turns) memories)) <= 3).
  { destruct memories as [|m0 [|m1 [|m2 [|m3 rest]]]]; simpl; lia. }
  split; [done|]. split; [done|].
  unfold prompt_parts. rewrite !length_app.
  assert (length (student_part (context_dict ctx (slice_last 5 turns) memories)) <= 1)
    by (unfold student_part; destruct (negb _); simpl; lia).
  assert (length (location_part (context_dict ctx (slice_last 5 turns) memories)) <= 1)
    by (unfold location_part; destruct (_ && _); simpl; lia).
  assert (length (memories_part (context_dict ctx (slice_last 5 turns) memories)) <= 4).
  { unfold memories_part. destruct (negb _); simpl; [|lia].
    rewrite memory_lines_length. simpl in Hm. lia. }
  assert (length (history_part (context_dict ctx (slice_last 5 turns) memories)) <= 4).
  { unfold history_part. destruct (negb _); simpl; [|lia].
    rewrite length_map, slice_last_length. lia. }
  lia.
Qed.

(** X10. [generate_structured] sends one chat request, with the system and
    the user message, and changes nothing else. It returns a value or
    [None], or it raises an exception that [json.loads] raised on some text
    and that is no [JSONDecodeError]: the index it takes after splitting at
    a fence is always in range, a [JSONDecodeError] never leaves it, and
    every other exception of [json.loads] does. *)
Theorem generate_structured_raises_only_from_loads sp um (temperature : float) w :
  exists r,
    generate_structured sp um temperature w =
      (r,
       World (session_contexts w) (clock w)
         (calls w ++ [ChatRequest [("system", sp); ("user", um)] temperature 512])) /\
    ((exists v, r = Returns v) \/
     (exists e body,
        r = Raises e /\ json_loads body = Raises e /\ e <> JSONDecodeError)) /\
    (forall text body e,
       chat_outcome
         (ollama_chat (calls w) [("system", sp); ("user", um)] temperature 512) =
         Some text ->
       text <> "" ->
       remove_code_fence text = Returns body ->
       json_loads body = Raises e ->
       (e = JSONDecodeError /\ r = Returns JNull) \/
       (e <> JSONDecodeError /\ r = Raises e)).
Proof.
  rewrite generate_structured_run. eexists. split; [reflexivity|].
  split; [apply parse_structured_outcome|].
  intros text body e -> Htext Hbody Hloads.
  rewrite (parse_structured_text text body Htext Hbody), Hloads.
  destruct e; first [by left | by right].
Qed.

(** ** The outcomes of an accepted speech request *)

Lemma world_after_llm_session speech w turns :
  session_contexts (world_after_llm speech w turns) !! speech_session_id speech =
    Some (session_after_user speech w turns).
Proof. unfold world_after_llm. simpl. apply lookup_insert_eq. Qed.

Lemma session_after_user_history speech w turns :
  session_after_user speech w turns !! "conversation_history" =
    Some (VList (slice_last max_history (turns ++ [user_turn speech w]))).
Proof. unfold session_after_user. apply appended_history. Qed.

(** X13. When the LLM output is an object that is not empty and whose
    response and intent are strings, an accepted request is answered with
    that response and that intent as they are, whatever the intent is, with
    the navigation decision taken from the intent and the location; the
    history gains the user turn and then the assistant turn, and nothing is
    sent besides the memory search and the chat request. *)
Theorem speech_reply_follows_llm_output (speech : SpeechInput) (w : world)
    (turns : list turn) (fields : list (string * json)) (r i : string) :
  PrimFloat.ltb (speech_confidence speech) (stt_confidence_threshold config) = false ->
  prior_turns (speech_session_id speech) w = Some turns ->
  llm_output_of speech w turns = Returns (JObj fields) ->
  fields <> [] ->
  output_response fields = JStr r ->
  output_intent fields = JStr i ->
  exists w' t,
    process_speech speech w =
      (Returns {| session_id := speech_session_id speech;
                  response_text := r;
                  intent := i;
                  should_navigate :=
                    fst (navigation_decision (JStr i) (output_location fields));
                  navigation_goal :=
                    snd (navigation_decision (JStr i) (output_location fields)) |},
       w') /\
    role t = "assistant" /\ content t = JStr r /\
    history_of (speech_session_id speech) w' =
      Some (slice_last 10 (turns ++ [user_turn speech w; t])) /\
    calls w' = (calls w ++ speech_calls speech w turns)%list.
Proof.
  intros Hgate Hprior Hout Hfields Hr Hi.
  assert (Hv : truthy (JObj fields) = true) by (by destruct fields).
  rewrite (process_speech_accepted speech w turns Hgate Hprior), Hout.
  unfold try_except.
  rewrite (respond_object _ fields _ _ _ Hv
             (world_after_llm_session speech w turns)
             (session_after_user_history speech w turns)).
  rewrite Hr, Hi. unfold make_ChatResponse, ret.
  eexists _, (Turn "assistant" (JStr r) _).
  split; [reflexivity|]. split; [done|]. split; [done|]. split; [|done].
  rewrite history_of_with_session, appended_history, slice_last_app_l.
  by rewrite <- app_assoc.
Qed.

(** X14. When the LLM output decodes to a value that is true in a test and
    is not an object (a list, a number, a string), an accepted request ends
    in the HTTP error 500 whose detail is the attribute error of the missing
    [get]; the user turn stays in the history and no assistant turn is
    added. *)
Theorem non_object_output_is_http_500 (speech : SpeechInput) (w : world)
    (turns : list turn) (v : json) :
  PrimFloat.ltb (speech_confidence speech) (stt_confidence_threshold config) = false ->
  prior_turns (speech_session_id speech) w = Some turns ->
  llm_output_of speech w turns = Returns v ->
  truthy v = true ->
  (forall fields, v <> JObj fields) ->
  exists w',
    process_speech speech w = (Raises (HTTPException 500 AttributeError), w') /\
    history_of (speech_session_id speech) w' =
      Some (slice_last 10 (turns ++ [user_turn speech w])) /\
    calls w' = (calls w ++ speech_calls speech w turns)%list.
Proof.
  intros Hgate Hprior Hout Hv Hobj.
  exists (world_after_llm speech w turns).
  split; [|split; [apply world_after_llm_history|done]].
  rewrite (process_speech_accepted speech w turns Hgate Hprior), Hout.
  by apply respond_not_object.
Qed.

(** X15. An LLM output that decodes to a value that is false in a test (an
    empty object, [null], [false], zero, an empty list or string) is treated
    as no response at all: the request ends in the HTTP error 500 with detail
    [LLM returned no response], with the user turn kept in the history. *)
Theorem empty_output_is_http_500 (speech : SpeechInput) (w : world)
    (turns : list turn) (v : json) :
  PrimFloat.ltb (speech_confidence speech) (stt_confidence_threshold config) = false ->
  prior_turns (speech_session_id speech) w = Some turns ->
  llm_output_of speech w turns = Returns v ->
  truthy v = false ->
  exists w',
    process_speech speech w =
      (Raises (HTTPException 500 (Exception "LLM returned no response")), w') /\
    history_of (speech_session_id speech) w' =
      Some (slice_last 10 (turns ++ [user_turn speech w])) /\
    calls w' = (calls w ++ speech_calls speech w turns)%list.
Proof.
  intros Hgate Hprior Hout Hv.
  exists (world_after_llm speech w turns).
  split; [|split; [apply world_after_llm_history|done]].
  by apply (process_speech_no_output speech w turns v).
Qed.

(** ** Context updates and the session endpoints *)

Lemma with_session_same sid s w :
  session_contexts w !! sid = Some s -> with_session sid s 0 w = w.
Proof.
  intros Hs. unfold with_session. rewrite insert_id by done. by destruct w.
Qed.

Lemma mutate_then_run {A : Type} sid ms (k : py A) :
  forall w s,
    session_contexts w !! sid = Some s -> well_formed s ->
    exists s' n,
      mutate_then sid ms k w = k (with_session sid s' n w) /\
      well_formed s' /\
      (forall key,
         key ∉ "last_updated" :: concat (map target_keys ms) ->
         s' !! key = s !! key) /\
      (ms = [] -> with_session sid s' n w = w).
Proof.
  induction ms as [|m ms IH]; intros w s Hs Hwf.
  - exists s, 0. split; [by rewrite (with_session_same _ _ _ Hs)|].
    split; [done|]. split; [done|]. intros _. by apply with_session_same.
  - destruct (run_mutation_run sid m w s Hs Hwf) as (s1 & n1 & Hm & Hrun).
    destruct (IH (with_session sid s1 n1 w) s1 (with_session_lookup _ _ _ _)
                (mutated_well_formed _ _ _ _ _ Hm Hwf))
      as (s2 & n2 & Hrest & Hwf2 & Hframe & _).
    exists s2, (n2 + n1). split.
    { simpl. unfold bind at 1. rewrite Hrun, Hrest.
      by rewrite with_session_twice. }
    split; [done|]. split; [|done].
    intros key Hkey. rewrite Hframe, (mutated_frame _ _ _ _ _ key Hm); [done| |].
    + intros Hin. apply Hkey. simpl.
      apply elem_of_cons in Hin as [->|Hin]; [by left|].
      right. apply elem_of_app. by left.
    + intros Hin. apply Hkey. simpl.
      apply elem_of_cons in Hin as [->|Hin]; [by left|].
      right. apply elem_of_app. by right.
Qed.

Lemma update_context_unfold ctx :
  update_context ctx =
    try_except
      (session <- get_session (cu_session_id ctx) ;;
       (if negb (session_truthy session)
        then create_session (cu_session_id ctx) else ret tt) ;;;
       mutate_then (cu_session_id ctx) (carried ctx)
         (ret (context_updated (cu_session_id ctx))))
      (fun e => raise (HTTPException 500 e)).
Proof.
  unfold update_context, carried, context_updated.
  destruct (cu_student_id ctx) as [a|], (cu_student_name ctx) as [b|],
    (cu_location ctx) as [l|], (cu_environment_data ctx) as [d|];
    repeat match goal with
           | |- context [if ?c then _ else _] =>
               lazymatch c with
               | negb (session_truthy _) => fail
               | _ => destruct c
               end
           end; reflexivity.
Qed.

Lemma well_formed_truthy s : well_formed s -> session_truthy (Some s) = true.
Proof.
  intros [[turns Hh] _]. simpl. apply negb_true_iff, Nat.eqb_neq.
  intros Hsize%map_size_empty_inv. by rewrite Hsize, lookup_empty in Hh.
Qed.

Lemma update_context_present ctx w s :
  session_contexts w !! cu_session_id ctx = Some s -> well_formed s ->
  exists s' n,
    update_context ctx w =
      (Returns (context_updated (cu_session_id ctx)),
       with_session (cu_session_id ctx) s' n w) /\
    well_formed s' /\
    (forall key,
       key ∉ "last_updated" :: concat (map target_keys (carried ctx)) ->
       s' !! key = s !! key) /\
    (carried ctx = [] -> with_session (cu_session_id ctx) s' n w = w).
Proof.
  intros Hs Hwf.
  destruct (mutate_then_run (cu_session_id ctx) (carried ctx)
              (ret (context_updated (cu_session_id ctx))) w s Hs Hwf)
    as (s' & n & Hrun & Hwf' & Hframe & Hnone).
  exists s', n. split; [|done].
  rewrite update_context_unfold. unfold try_except, bind at 1, get_session.
  rewrite Hs, (well_formed_truthy _ Hwf). cbn [negb]. unfold bind at 1, ret at 1.
  by rewrite Hrun.
Qed.

Lemma update_context_absent ctx w :
  session_contexts w !! cu_session_id ctx = None ->
  update_context ctx w =
  update_context ctx
    (with_session (cu_session_id ctx)
       (new_session (cu_session_id ctx) (isoformat_now (clock w))
          (isoformat_now (S (clock w))))
       2 w).
Proof.
  intros Hs. rewrite update_context_unfold.
  unfold try_except, bind at 1 3, get_session.
  rewrite Hs, with_session_lookup.
  rewrite (well_formed_truthy _
             (new_session_well_formed (cu_session_id ctx)
                (isoformat_now (clock w)) (isoformat_now (S (clock w))))).
  cbn [session_truthy negb]. unfold bind at 1 2.
  by rewrite create_session_run.
Qed.

(** X16. After any requests served from the empty store, a context update
    never fails: it is answered with [success], the session it names exists
    afterwards, and nothing is sent to Milvus or to the LLM. *)
Theorem context_update_succeeds (rs : list request) (c : nat) (log : list call)
    (ctx : ContextUpdate) :
  exists w',
    update_context ctx (serve_all rs (World ∅ c log)) =
      (Returns [ ("status", "success");
                 ("session_id", cu_session_id ctx);
                 ("message", "Context updated") ], w') /\
    is_Some (session_contexts w' !! cu_session_id ctx) /\
    calls w' = calls (serve_all rs (World ∅ c log)).
Proof.
  pose proof (serve_all_keeps rs _ (store_ok_empty c log)) as Hw.
  set (w := serve_all rs (World ∅ c log)) in *.
  destruct (session_contexts w !! cu_session_id ctx) as [s|] eqn:Hs.
  - destruct (update_context_present ctx w s Hs
                (session_ok_well_formed _ _ (Hw _ _ Hs)))
      as (s' & n & Hrun & _).
    eexists. split; [exact Hrun|]. split; [|done].
    rewrite with_session_lookup. by eexists.
  - rewrite (update_context_absent ctx w Hs).
    destruct (update_context_present ctx _ _
                (with_session_lookup (cu_session_id ctx) _ 2 w)
                (new_session_well_formed (cu_session_id ctx)
                   (isoformat_now (clock w)) (isoformat_now (S (clock w)))))
      as (s' & n & Hrun & _).
    eexists. split; [exact Hrun|]. split; [|done].
    rewrite with_session_lookup. by eexists.
Qed.

Lemma carried_targets ctx key :
  key ∈ concat (map target_keys (carried ctx)) ->
  (key = "student_id" /\
     carries (cu_student_id ctx) && carries (cu_student_name ctx) = true) \/
  (key = "student_name" /\
     carries (cu_student_id ctx) && carries (cu_student_name ctx) = true) \/
  (key = "current_location" /\ carries (cu_location ctx) = true) \/
  (key = "environment_info" /\ carries_environment ctx = true).
Proof.
  unfold carried, carries, carries_environment.
  destruct (cu_student_id ctx) as [a|], (cu_student_name ctx) as [b|],
    (cu_location ctx) as [l|], (cu_environment_data ctx) as [d|]; simpl;
    repeat match goal with
           | |- context [if ?c then _ else _] => destruct c; simpl
           end;
    intros Hin; repeat (apply elem_of_cons in Hin as [->|Hin]);
    try (by apply elem_of_nil in Hin);
    first [ by left | by right; left | by right; right; left
          | by right; right; right ].
Qed.

(** X17. On an existing session a context update writes only the fields it
    carries. It is answered with [success]; the identity is left as it is
    unless both the identifier and the name are given and not empty, the
    location unless one is given and not empty, the environment unless a
    dictionary with entries is given; the history, the creation time and
    the other keys are never touched; and an update that carries nothing
    leaves the whole state as it is, the time of the last update
    included. *)
Theorem context_update_writes_carried_fields (ctx : ContextUpdate) (w : world)
    (s : gmap string pyval) :
  session_contexts w !! cu_session_id ctx = Some s ->
  well_formed s ->
  exists w' s',
    update_context ctx w =
      (Returns [ ("status", "success");
                 ("session_id", cu_session_id ctx);
                 ("message", "Context updated") ], w') /\
    session_contexts w' !! cu_session_id ctx = Some s' /\
    (carries (cu_student_id ctx) && carries (cu_student_name ctx) = false ->
     s' !! "student_id" = s !! "student_id" /\
     s' !! "student_name" = s !! "student_name") /\
    (carries (cu_location ctx) = false ->
     s' !! "current_location" = s !! "current_location") /\
    (carries_environment ctx = false ->
     s' !! "environment_info" = s !! "environment_info") /\
    (forall key,
       key ∉ ["student_id"; "student_name"; "current_location";
              "environment_info"; "last_updated"] ->
       s' !! key = s !! key) /\
    (carries (cu_student_id ctx) && carries (cu_student_name ctx) = false ->
     carries (cu_location ctx) = false ->
     carries_environment ctx = false ->
     w' = w).
Proof.
  intros Hs Hwf.
  destruct (update_context_present ctx w s Hs Hwf)
    as (s' & n & Hrun & _ & Hframe & Hnone).
  exists (with_session (cu_session_id ctx) s' n w), s'.
  split; [exact Hrun|]. split; [apply with_session_lookup|].
  assert (Hkeep : forall key,
            key <> "last_updated" ->
            (key ∈ concat (map target_keys (carried ctx)) -> False) ->
            s' !! key = s !! key).
  { intros key Hne Hnot. apply Hframe.
    intros [->|Hin]%elem_of_cons; [done|by apply Hnot]. }
  split; [|split; [|split; [|split]]].
  - intros Hid. split; apply Hkeep; try done;
      intros Hin%carried_targets; destruct Hin as [[? ?]|[[? ?]|[[? ?]|[? ?]]]];
      congruence.
  - intros Hloc. apply Hkeep; [done|].
    intros Hin%carried_targets; destruct Hin as [[? ?]|[[? ?]|[[? ?]|[? ?]]]];
      congruence.
  - intros Henv. apply Hkeep; [done|].
    intros Hin%carried_targets; destruct Hin as [[? ?]|[[? ?]|[[? ?]|[? ?]]]];
      congruence.
  - intros key Hkey. apply Hkeep.
    + intros ->. apply Hkey. repeat constructor.
    + intros Hin%carried_targets.
      destruct Hin as [[-> ?]|[[-> ?]|[[-> ?]|[-> ?]]]];
        apply Hkey; repeat constructor.
  - intros Hid Hloc Henv. apply Hnone.
    unfold carried, carries, carries_environment in *.
    destruct (cu_student_id ctx) as [a|], (cu_student_name ctx) as [b|],
      (cu_location ctx) as [l|], (cu_environment_data ctx) as [d|];
      simpl in *; rewrite ?Hid, ?Hloc, ?Henv; try done;
      repeat match goal with
             | |- context [if ?c then _ else _] => destruct c; try done
             end.
Qed.

(** X18. Reading a session changes nothing, and deleting one always
    succeeds, whether the session exists or not: afterwards reading it is
    answered with the error 404, and the other sessions are as they
    were. *)
Theorem deleted_session_is_not_found (sid : string) (w : world) :
  exists w',
    snd (get_session_endpoint sid w) = w /\
    clear_session_endpoint sid w =
      (Returns [ ("status", "success");
                 ("message", "Session " ++ sid ++ " cleared") ], w') /\
    get_session_endpoint sid w' =
      (Raises (HTTPException 404 (Exception "Session not found")), w') /\
    (forall sid', sid' <> sid ->
       session_contexts w' !! sid' = session_contexts w !! sid') /\
    clock w' = clock w /\ calls w' = calls w.
Proof.
  exists (World (delete sid (session_contexts w)) (clock w) (calls w)).
  split.
  { unfold get_session_endpoint, bind, get_session.
    destruct (session_contexts w !! sid) as [s|]; [|done].
    by destruct (session_truthy _). }
  split.
  { unfold clear_session_endpoint, bind. by rewrite clear_session_run. }
  split.
  { unfold get_session_endpoint, bind, get_session. simpl.
    by rewrite lookup_delete_eq. }
  split; [|done]. intros sid' Hne. simpl. by rewrite lookup_delete_ne.
Qed.

(** ** One session per request *)

Lemma local_ret {A : Type} sid (a : A) : local_to sid (ret a).
Proof. by intros w sid' _. Qed.

Lemma local_raise {A : Type} sid (e : exn) : local_to sid (@raise A e).
Proof. by intros w sid' _. Qed.

Lemma local_bind {A B : Type} sid (m : py A) (k : A -> py B) :
  local_to sid m -> (forall a, local_to sid (k a)) -> local_to sid (bind m k).
Proof.
  intros Hm Hk w sid' Hne. specialize (Hm w sid' Hne). unfold bind.
  destruct (m w) as [[a|e] w1]; [|done].
  simpl in Hm. by rewrite (Hk a w1 sid' Hne).
Qed.

Lemma local_try_except {A : Type} sid (body : py A) (handler : exn -> py A) :
  local_to sid body -> (forall e, local_to sid (handler e)) ->
  local_to sid (try_except body handler).
Proof.
  intros Hb Hh w sid' Hne. specialize (Hb w sid' Hne). unfold try_except.
  destruct (body w) as [[a|e] w1]; [done|].
  simpl in Hb. by rewrite (Hh e w1 sid' Hne).
Qed.

Lemma local_same_sessions {A : Type} sid (m : py A) :
  (forall w, session_contexts (snd (m w)) = session_contexts w) ->
  local_to sid m.
Proof. intros Hm w sid' _. by rewrite Hm. Qed.

Lemma local_store_session sid s : local_to sid (store_session sid s).
Proof. intros w sid' Hne. simpl. by rewrite lookup_insert_ne. Qed.

Lemma local_clear_session sid : local_to sid (clear_session sid).
Proof.
  intros w sid' Hne. rewrite clear_session_run. simpl.
  by rewrite lookup_delete_ne.
Qed.

Lemma local_lift_option {A : Type} sid e (o : option A) :
  local_to sid (lift_option e o).
Proof. destruct o; [apply local_ret|apply local_raise]. Qed.

Ltac local_step :=
  first
    [ apply local_ret
    | apply local_raise
    | apply local_store_session
    | apply local_clear_session
    | apply local_lift_option
    | apply local_same_sessions; intros ?; reflexivity
    | apply local_try_except; [|intros ?]
    | apply local_bind; [|intros ?]
    | match goal with
      | |- local_to _ (match ?x with _ => _ end) => destruct x
      end ].

Lemma local_setitem sid key v : local_to sid (setitem sid key v).
Proof. unfold setitem. repeat local_step. Qed.

Lemma local_getitem sid key : local_to sid (getitem sid key).
Proof. unfold getitem. repeat local_step. Qed.

Lemma local_create_if_missing sid : local_to sid (create_if_missing sid).
Proof. unfold create_if_missing, create_session. repeat local_step. Qed.

Lemma local_run_mutation sid m : local_to sid (run_mutation sid m).
Proof.
  destruct m; simpl;
    [ unfold update_student_identity | unfold add_conversation_turn
    | unfold update_location | unfold update_environment ];
    unfold append_item, getlist;
    repeat first [ apply local_setitem | apply local_getitem
                 | apply local_create_if_missing | local_step ].
Qed.

Lemma local_build_llm_context sid memories :
  local_to sid (build_llm_context sid memories).
Proof.
  unfold build_llm_context.
  repeat first [ apply local_create_if_missing | local_step ].
Qed.

Lemma local_generate_structured sid sp um temperature :
  local_to sid (generate_structured sp um temperature).
Proof.
  apply local_same_sessions. intros w. by rewrite generate_structured_run.
Qed.

Lemma local_respond sid v : local_to sid (respond sid v).
Proof.
  unfold respond, output_get, make_ChatResponse.
  repeat first [ apply (local_run_mutation sid (AddTurn _ _)) | local_step ].
Qed.

Lemma local_process_speech speech :
  local_to (speech_session_id speech) (process_speech speech).
Proof.
  unfold process_speech, make_ChatResponse.
  repeat first [ apply (local_run_mutation _ (AddTurn _ _))
               | apply local_build_llm_context
               | apply local_generate_structured
               | apply local_respond
               | local_step ].
Qed.

Lemma local_update_context ctx :
  local_to (cu_session_id ctx) (update_context ctx).
Proof.
  unfold update_context, create_session.
  repeat first [ apply (local_run_mutation _ (UpdateIdentity _ _))
               | apply (local_run_mutation _ (UpdateLocation _))
               | apply (local_run_mutation _ (UpdateEnvironment _))
               | local_step ].
Qed.

Lemma local_voice_interact audio sid : local_to sid (voice_interact audio sid).
Proof.
  unfold voice_interact, with_headers.
  destruct whisper_stt as [transcribe|]; [|apply local_raise].
  destruct vachana_tts as [synthesize|]; [|apply local_raise].
  repeat first [ apply (local_process_speech
                          {| speech_session_id := sid;
                             speech_text := _; speech_confidence := _ |})
               | local_step ].
Qed.

Lemma serve_local r w sid :
  sid <> request_session r ->
  session_contexts (serve r w) !! sid = session_contexts w !! sid.
Proof.
  intros Hne. destruct r; simpl in *.
  - by apply local_update_context.
  - by apply local_process_speech.
  - apply (local_same_sessions sid0 (get_session_endpoint sid0)); [|done].
    intros w0. unfold get_session_endpoint, bind, get_session.
    destruct (session_contexts w0 !! sid0) as [s0|]; [|done].
    by destruct (session_truthy _).
  - unfold clear_session_endpoint.
    apply (local_bind sid0 (clear_session sid0) _); [| |done].
    + apply local_clear_session.
    + intros; apply local_ret.
  - by apply local_voice_interact.
Qed.

(** X19. Requests reach only the sessions they name: a session that none of
    the requests served names is afterwards exactly as it was before,
    whether the requests were answered or failed. *)
Theorem requests_touch_their_session_only (rs : list request) (w : world)
    (sid : string) :
  Forall (fun r => request_session r <> sid) rs ->
  session_contexts (serve_all rs w) !! sid = session_contexts w !! sid.
Proof.
  revert w. induction rs as [|r rs IH]; intros w Hrs; [done|].
  apply Forall_cons in Hrs as [Hr Hrs]. simpl.
  rewrite (IH _ Hrs). apply serve_local. by intros ->.
Qed.

(** X20. A voice interaction leaves the state that the speech request for
    the transcribed text and its confidence leaves, whether synthesis of the
    reply succeeds or fails: the turns are recorded even when no audio is
    returned. *)
Theorem voice_interaction_records_the_speech (audio : upload) (sid : string)
    (transcribe_audio : upload -> result (string * float))
    (synthesize : string -> result string) (text : string) (confidence : float)
    (w : world) :
  whisper_stt = Some transcribe_audio ->
  vachana_tts = Some synthesize ->
  transcribe_audio audio = Returns (text, confidence) ->
  serve (VoiceRequest audio sid) w =
    serve (SpeechRequest {| speech_session_id := sid;
                            speech_text := text;
                            speech_confidence := confidence |}) w.
Proof.
  intros Hstt Htts Htext. simpl. unfold voice_interact.
  rewrite Hstt, Htts. unfold try_except, bind at 1, lift_result at 1.
  rewrite Htext. cbn [fst snd]. unfold bind at 1.
  destruct (process_speech _ w) as [[r|e] w1]; [|done].
  unfold bind, lift_result, with_headers.
  destruct (synthesize _); [|done]. by destruct (forallb _ _).
Qed.

(** ** More on the code-fence parser *)

Lemma append_assoc s : forall t u, (s ++ t) ++ u = s ++ t ++ u.
Proof.
  induction s as [|c s IH]; intros t u; [done|].
  rewrite !append_cons. by rewrite IH.
Qed.

Lemma prefix_append sep rest : String.prefix sep (sep ++ rest) = true.
Proof.
  induction sep as [|a sep IH]; [apply prefix_nil|].
  rewrite append_cons, prefix_cons. by destruct (ascii_dec a a).
Qed.

Lemma drop_string_append_self sep rest :
  drop_string (String.length sep) (sep ++ rest) = rest.
Proof. induction sep as [|a sep IH]; [done|]. by rewrite append_cons. Qed.

Lemma partition_contains sep s before after :
  partition sep s = Some (before, after) -> contains sep s = true.
Proof.
  intros Hp. destruct (contains sep s) eqn:Hc; [done|].
  by rewrite (partition_not_contained _ _ Hc) in Hp.
Qed.

Lemma no_backtick_head c s :
  contains "`" (String c s) = false -> c <> "`"%char /\ contains "`" s = false.
Proof.
  rewrite contains_cons. intros [Hp Hs]%orb_false_elim. split; [|done].
  intros ->. by rewrite prefix_cons, prefix_nil in Hp.
Qed.

(** After a text with no backtick, the first marker that starts with a
    backtick is the one that follows the text. *)
Lemma partition_after_text sep pre rest :
  contains "`" pre = false ->
  partition (String "`" sep) (pre ++ String "`" sep ++ rest) = Some (pre, rest).
Proof.
  induction pre as [|c pre IH]; intros Hpre.
  - rewrite append_nil.
    change (String "`" sep ++ rest) with (String "`" (sep ++ rest)).
    rewrite partition_cons.
    change (String "`" (sep ++ rest)) with (String "`" sep ++ rest).
    by rewrite prefix_append, drop_string_append_self.
  - apply no_backtick_head in Hpre as [Hc Hpre].
    rewrite append_cons, partition_cons, prefix_cons.
    destruct (ascii_dec "`" c) as [<-|_]; [done|].
    by rewrite (IH Hpre).
Qed.

Lemma contains_after_text sep pre rest :
  contains "`" pre = false ->
  contains (String "`" sep) (pre ++ rest) = contains (String "`" sep) rest.
Proof.
  induction pre as [|c pre IH]; intros Hpre; [done|].
  apply no_backtick_head in Hpre as [Hc Hpre].
  rewrite append_cons, contains_cons, prefix_cons.
  destruct (ascii_dec "`" c) as [<-|_]; [done|]. by apply IH.
Qed.

Section Chatter.

Variables preamble payload trailer : string.
Hypothesis plain_preamble : contains "`" preamble = false.
Hypothesis no_fence : contains fence payload = false.
Hypothesis no_later_json_fence : contains json_fence (fence ++ trailer) = false.

(** What follows the opening fence. *)
Let fenced_rest : string := nl ++ payload ++ nl ++ fence ++ trailer.

Lemma fenced_json_append :
  fenced_json payload ++ trailer = json_fence ++ fenced_rest.
Proof. unfold fenced_json, fenced_rest. by rewrite !append_assoc. Qed.

Lemma fenced_plain_append :
  fenced_plain payload ++ trailer = fence ++ fenced_rest.
Proof. unfold fenced_plain, fenced_rest. by rewrite !append_assoc. Qed.

Lemma closing_partition :
  partition fence (payload ++ nl ++ fence ++ trailer) = Some (payload ++ nl, trailer).
Proof using no_fence.
  revert no_fence. induction payload as [|c s IH].
  - intros _. rewrite append_nil. unfold nl. rewrite append_cons, append_nil.
    rewrite partition_cons.
    change (partition fence (fence ++ trailer))
      with (partition (String "`" "``") ("" ++ String "`" "``" ++ trailer)).
    by rewrite partition_after_text.
  - rewrite contains_cons. intros [Hp Hs]%orb_false_elim.
    rewrite append_cons, partition_cons.
    rewrite <- append_cons, prefix_fence_nl, Hp. by rewrite (IH Hs).
Qed.

Lemma closing_no_json_fence :
  contains json_fence (payload ++ nl ++ fence ++ trailer) = false.
Proof using no_fence no_later_json_fence.
  revert no_fence. induction payload as [|c s IH].
  - intros _. rewrite append_nil. unfold nl at 1.
    rewrite append_cons, append_nil, contains_cons.
    by rewrite no_later_json_fence.
  - rewrite contains_cons. intros [Hp Hs]%orb_false_elim.
    rewrite append_cons, contains_cons, (IH Hs), orb_false_r.
    destruct (String.prefix json_fence (String c (s ++ nl ++ fence ++ trailer)))
      eqn:Hj; [|done].
    apply prefix_json_fence in Hj.
    rewrite <- append_cons, prefix_fence_nl in Hj. congruence.
Qed.

Lemma fenced_rest_partition :
  partition fence fenced_rest = Some (nl ++ payload ++ nl, trailer).
Proof using no_fence.
  unfold fenced_rest, nl at 1. rewrite append_cons, append_nil, partition_cons.
  by rewrite closing_partition.
Qed.

Lemma fenced_rest_no_json_fence : contains json_fence fenced_rest = false.
Proof using no_fence no_later_json_fence.
  unfold fenced_rest, nl at 1. rewrite append_cons, append_nil, contains_cons.
  by rewrite closing_no_json_fence.
Qed.

Lemma length_at_least_two sep rest :
  2 <= String.length sep -> 2 <= String.length (preamble ++ sep ++ rest).
Proof. rewrite !length_append. lia. Qed.

(** X11. Text around a fenced block is ignored. For a preamble with no
    backtick, a payload with no fence marker and a trailer that opens no
    fence labeled json, the text handed to [json.loads] is the stripped
    payload, for a fence labeled json and for an unlabeled fence alike. *)
Theorem fenced_block_is_extracted :
  remove_code_fence (preamble ++ fenced_json payload ++ trailer) =
    Returns (strip payload) /\
  remove_code_fence (preamble ++ fenced_plain payload ++ trailer) =
    Returns (strip payload).
Proof using plain_preamble no_fence no_later_json_fence.
  rewrite fenced_json_append, fenced_plain_append.
  assert (Hbody : first_piece fence fenced_rest = nl ++ payload ++ nl)
    by (unfold first_piece; by rewrite fenced_rest_partition).
  assert (Hline : first_piece fence (nl ++ payload ++ nl) = nl ++ payload ++ nl).
  { unfold first_piece.
    by rewrite (partition_not_contained _ _ (line_no_fence payload no_fence)). }
  split.
  - pose proof (partition_after_text "``json" preamble fenced_rest plain_preamble)
      as Hp.
    change (String "`" "``json") with json_fence in Hp.
    unfold remove_code_fence.
    change "```json" with json_fence. change "```" with fence.
    rewrite (partition_contains _ _ _ _ Hp).
    rewrite (split_index_1 _ _ _ _ Hp) by (apply length_at_least_two; simpl; lia).
    unfold first_piece at 1.
    rewrite (partition_not_contained _ _ fenced_rest_no_json_fence).
    simpl result_bind. rewrite split_index_0, Hbody. simpl result_bind.
    by rewrite strip_lines.
  - pose proof (partition_after_text "``" preamble fenced_rest plain_preamble)
      as Hp.
    change (String "`" "``") with fence in Hp.
    assert (Hj : contains json_fence (preamble ++ fence ++ fenced_rest) = false).
    { unfold json_fence. rewrite (contains_after_text _ _ _ plain_preamble).
      change (String "`" "``json") with json_fence.
      unfold fence at 1. rewrite !append_cons, append_nil, !contains_cons.
      rewrite fenced_rest_no_json_fence.
      unfold fenced_rest, nl at 1 2 3. rewrite append_cons.
      cbn -[ascii_dec]. repeat (destruct (ascii_dec _ _); try done). }
    unfold remove_code_fence.
    change "```json" with json_fence. change "```" with fence.
    rewrite Hj, (partition_contains _ _ _ _ Hp).
    rewrite (split_index_1 _ _ _ _ Hp) by (apply length_at_least_two; simpl; lia).
    rewrite Hbody. simpl result_bind.
    rewrite split_index_0, Hline. simpl result_bind.
    by rewrite strip_lines.
Qed.

End Chatter.

Section Unclosed.

Variables preamble body : string.
Hypothesis plain_preamble : contains "`" preamble = false.
Hypothesis no_fence : contains fence body = false.

(** X12. A fence that is opened and never closed is accepted: with no
    fence marker after the opening one, everything after it is stripped and
    handed to [json.loads]. For an unlabeled fence this needs that the text
    does not go on with [json] so as to read as a labeled one. *)
Theorem unclosed_fence_is_accepted :
  remove_code_fence (preamble ++ json_fence ++ body) = Returns (strip body) /\
  (contains json_fence (fence ++ body) = false ->
   remove_code_fence (preamble ++ fence ++ body) = Returns (strip body)).
Proof using plain_preamble no_fence.
  assert (Hbody : first_piece fence body = body).
  { unfold first_piece. by rewrite (partition_not_contained _ _ no_fence). }
  split.
  - pose proof (partition_after_text "``json" preamble body plain_preamble) as Hp.
    change (String "`" "``json") with json_fence in Hp.
    unfold remove_code_fence.
    change "```json" with json_fence. change "```" with fence.
    rewrite (partition_contains _ _ _ _ Hp).
    rewrite (split_index_1 _ _ _ _ Hp)
      by (rewrite !length_append; simpl; lia).
    unfold first_piece at 1.
    rewrite (partition_not_contained _ _ (contains_json_fence _ no_fence)).
    simpl result_bind. by rewrite split_index_0, Hbody.
  - intros Hplain.
    pose proof (partition_after_text "``" preamble body plain_preamble) as Hp.
    change (String "`" "``") with fence in Hp.
    assert (Hj : contains json_fence (preamble ++ fence ++ body) = false).
    { unfold json_fence. rewrite (contains_after_text _ _ _ plain_preamble).
      exact Hplain. }
    unfold remove_code_fence.
    change "```json" with json_fence. change "```" with fence.
    rewrite Hj, (partition_contains _ _ _ _ Hp).
    rewrite (split_index_1 _ _ _ _ Hp)
      by (rewrite !length_append; simpl; lia).
    rewrite Hbody. simpl result_bind. by rewrite split_index_0, Hbody.
Qed.

End Unclosed.

End Service.

(** ** The two failures of the gateway, side by side *)

(** C7, as the code has it. A gateway that gives no response and a gateway
    whose text [json.loads] rejects with [JSONDecodeError] lead
    [process_speech] to the same outcome and the same state: both end in the
    HTTP error 500 with detail [LLM returned no response]. Only a text on
    which [json.loads] raises another exception is told apart, and by the
    detail alone: the error is again 500, the state is the same, and the
    detail is that exception. *)
Theorem failures_not_distinguished
    (isoformat_now : nat -> string) (repr : pyval -> string)
    (repr_json : json -> string)
    (milvus_search : list call -> string -> nat -> list memory)
    (silent garbled : list call -> list (string * string) -> float -> nat -> post_reply)
    (json_loads : string -> result json) (config : settings)
    (speech : SpeechInput) (w : world) (turns : list turn) :
  PrimFloat.ltb (speech_confidence speech) (stt_confidence_threshold config) = false ->
  prior_turns (speech_session_id speech) w = Some turns ->
  no_response
    (llm_reply isoformat_now repr repr_json milvus_search silent config
       speech w turns) ->
  malformed_response json_loads
    (llm_reply isoformat_now repr repr_json milvus_search garbled config
       speech w turns) ->
  process_speech isoformat_now repr repr_json milvus_search silent json_loads
    config speech w =
  process_speech isoformat_now repr repr_json milvus_search garbled json_loads
    config speech w /\
  fst (process_speech isoformat_now repr repr_json milvus_search garbled
         json_loads config speech w) =
    Raises (HTTPException 500 (Exception "LLM returned no response")) /\
  (forall crashing e,
     decoder_fails json_loads
       (llm_reply isoformat_now repr repr_json milvus_search crashing config
          speech w turns) e ->
     process_speech isoformat_now repr repr_json milvus_search crashing
       json_loads config speech w =
       (Raises (HTTPException 500 e),
        snd (process_speech isoformat_now repr repr_json milvus_search silent
               json_loads config speech w))).
Proof.
  intros Hgate Hprior Hsilent Hgarbled.
  rewrite (process_speech_no_output isoformat_now repr repr_json milvus_search
             silent json_loads config speech w turns JNull Hgate Hprior);
    [|by apply parse_no_response|done].
  rewrite (process_speech_no_output isoformat_now repr repr_json milvus_search
             garbled json_loads config speech w turns JNull Hgate Hprior);
    [|by apply parse_malformed|done].
  split; [done|]. split; [done|].
  intros crashing e He.
  rewrite (process_speech_raised isoformat_now repr repr_json milvus_search
             crashing json_loads config speech w turns e Hgate Hprior);
    [done|by apply parse_decoder_fails].
Qed.

(** ** Sample runs *)

Definition sample_clock (n : nat) : string := "2025-01-01T00:00:" ++ pretty n.
Definition sample_repr (_ : pyval) : string := "<object>".
Definition sample_repr_json (_ : json) : string := "<object>".

Definition sample_config : settings :=
  {| stt_confidence_threshold := 0.5%float;
     memory_retrieval_top_k := 5;
     llm_temperature := 0.5%float |}.

Definition no_memories (_ : list call) (_ : string) (_ : nat) : list memory := [].

(** A decoder given by its results on the texts of a run; every other text
    is rejected as no JSON. *)
Definition decoder (results : list (string * json)) (text : string)
    : result json :=
  match assoc_get text results with
  | Some v => Returns v
  | None => Raises JSONDecodeError
  end.

Definition gateway_down (_ : list call) (_ : list (string * string))
    (_ : float) (_ : nat) : post_reply := PostFailed.

Definition gateway_says (text : string) (_ : list call)
    (_ : list (string * string)) (_ : float) (_ : nat) : post_reply :=
  PostReplied 200 (Some text).

Definition empty_world : world := World ∅ 0 [].

Definition speech_at (confidence : float) : SpeechInput :=
  {| speech_session_id := "s1"; speech_text := "hello";
     speech_confidence := confidence |}.

(** The document [{"response":"hi","intent":"conversation"}] and its value. *)
Definition greeting_text : string :=
  "{" ++ dq ++ "response" ++ dq ++ ":" ++ dq ++ "hi" ++ dq ++ "," ++
  dq ++ "intent" ++ dq ++ ":" ++ dq ++ "conversation" ++ dq ++ "}".
Definition greeting_value : json :=
  JObj [("response", JStr "hi"); ("intent", JStr "conversation")].

(** The document [{"response":"```1```","intent":"conversation"}]: a valid
    payload whose reply text holds two fence markers. *)
Definition quoting_text : string :=
  "{" ++ dq ++ "response" ++ dq ++ ":" ++ dq ++ "```1```" ++ dq ++ "," ++
  dq ++ "intent" ++ dq ++ ":" ++ dq ++ "conversation" ++ dq ++ "}".
Definition quoting_value : json :=
  JObj [("response", JStr "```1```"); ("intent", JStr "conversation")].

(** [json.loads] on the texts the runs below decode: the two documents and
    the text [1]; the fragments cut out of [quoting_text] are no JSON. *)
Definition sample_loads : string -> result json :=
  decoder [(greeting_text, greeting_value); (quoting_text, quoting_value);
           ("1", JInt 1)].

(** An end-to-end run: a first greeting on a session that does not exist
    yet. *)
Example greeting_turn :
  let run := process_speech sample_clock sample_repr sample_repr_json
               no_memories (gateway_says greeting_text) sample_loads
               sample_config (speech_at 0.75%float) empty_world in
  fst run =
    Returns {| session_id := "s1"; response_text := "hi";
               intent := "conversation"; should_navigate := false;
               navigation_goal := None |} /\
  option_map (map turn_entry) (history_of "s1" (snd run)) =
    Some [("user", JStr "hello"); ("assistant", JStr "hi")].
Proof. split; vm_compute; reflexivity. Qed.

(** A session with nothing in it yet. *)
Definition created_world : world :=
  snd (create_session sample_clock "s1" empty_world).

Definition twelve_entries : list (string * json) :=
  map (fun n : nat => (if Nat.even n then "user" else "assistant",
                       JStr (pretty n)))
    (seq 1 12).

(** A session with seven turns, a name, a location and one environment
    entry. *)
Definition busy_world : world :=
  snd ((add_turns sample_clock "s1" (take 7 twelve_entries) ;;;
        update_student_identity sample_clock "s1" "6401" "Somchai" ;;;
        update_location sample_clock "s1" "library" ;;;
        update_environment sample_clock "s1" {[ "door" := JStr "open" ]})
         created_world).

Definition busy_session : gmap string pyval :=
  default ∅ (session_contexts busy_world !! "s1").

Definition busy_turns : list turn :=
  default [] (history_of "s1" busy_world).

Definition four_memories : list memory :=
  map (fun n : nat => Memory ("memory " ++ pretty n) 0.5%float "diary" "6401" 0)
    (seq 1 4).

(** What [build_llm_context] returns on the busy session. *)
Definition busy_context : llm_context :=
  context_dict busy_session (slice_last 5 busy_turns) four_memories.

(** A decoder that knows the empty object only. *)
Definition lenient_loads : string -> result json := decoder [("{}", JObj [])].

(** A thousand opening brackets, a nesting on which [json.loads] reaches
    the recursion limit, and a decoder that does so on that text. *)
Definition deep_text : string := Nat.iter 1000 (String "["%char) "".
Definition deep_loads (text : string) : result json :=
  if String.eqb text deep_text then Raises RecursionError else sample_loads text.

(** A context update that gives an identifier without a name, and a
    location. *)
Definition partial_update : ContextUpdate :=
  {| cu_session_id := "s1"; cu_student_id := Some "6402";
     cu_student_name := None; cu_location := Some "canteen";
     cu_environment_data := None |}.

(** Requests on a second session; the voice services are not started. *)
Definition other_session_requests : list (request unit) :=
  [ ContextUpdateRequest unit
      {| cu_session_id := "s2"; cu_student_id := Some "6402";
         cu_student_name := Some "Malee"; cu_location := None;
         cu_environment_data := None |};
    SpeechRequest unit
      {| speech_session_id := "s2"; speech_text := "hello";
         speech_confidence := 0.75%float |};
    DeleteRequest unit "s2" ].

(** Voice services where transcription hears [hello] and synthesis fails. *)
Definition hears_hello (_ : unit) : result (string * float) :=
  Returns ("hello", 0.75%float).
Definition mute (_ : string) : result string := Raises (Exception "no voice").

Lemma low_confidence_short_circuits_witness :
  PrimFloat.ltb (speech_confidence (speech_at 0.25%float))
    (stt_confidence_threshold sample_config) = true /\
  exists r w',
    process_speech sample_clock sample_repr sample_repr_json no_memories
      gateway_down sample_loads sample_config (speech_at 0.25%float)
      busy_world = (Returns r, w') /\
    session_id r = speech_session_id (speech_at 0.25%float) /\
    response_text r = clarification_text /\
    intent r = "clarification" /\
    should_navigate r = false /\
    navigation_goal r = None /\
    calls w' = calls busy_world /\
    history_of (speech_session_id (speech_at 0.25%float)) w' =
      history_of (speech_session_id (speech_at 0.25%float)) busy_world /\
    w' = busy_world.
Proof.
  split; [reflexivity|].
  apply low_confidence_short_circuits. reflexivity.
Defined.

Lemma history_after_appends_witness :
  history_of "s1" created_world = Some [] /\
  exists w' turns,
    add_turns sample_clock "s1" twelve_entries created_world = (Returns tt, w') /\
    history_of "s1" w' = Some turns /\
    length turns = Nat.min (length twelve_entries) 10 /\
    map turn_entry turns = slice_last 10 twelve_entries.
Proof.
  split; [reflexivity|].
  apply history_after_appends. reflexivity.
Defined.

Lemma truncation_points_witness :
  session_contexts busy_world !! "s1" = Some busy_session /\
  busy_session !! "conversation_history" = Some (VList busy_turns) /\
  length busy_turns = 7 /\
  exists c older kept earlier shown first_memories later_memories,
    build_llm_context sample_clock "s1" four_memories busy_world =
      (Returns c, busy_world) /\
    busy_turns = (older ++ kept)%list /\
    length kept = Nat.min 5 (length busy_turns) /\
    ctx_conversation_history c = kept /\
    four_memories = (first_memories ++ later_memories)%list /\
    length first_memories = Nat.min 3 (length four_memories) /\
    relevant_memories c =
      map (fun mem =>
             RelevantMemory (mem_text mem) (mem_score mem) (mem_memory_type mem))
        first_memories /\
    kept = (earlier ++ shown)%list /\
    length shown = Nat.min 3 (length busy_turns) /\
    format_context_as_prompt sample_repr sample_repr_json c =
      String.concat (String "010"%char "")
        (student_part sample_repr c ++ location_part sample_repr c ++
         (if (length four_memories =? 0)%nat then []
          else String "010"%char "ความทรงจำที่เกี่ยวข้อง:" ::
               imap (fun i mem => (pretty (S i) ++ ". " ++ mem_text mem)%string)
                 first_memories) ++
         (if (length busy_turns =? 0)%nat then []
          else String "010"%char "บทสนทนาล่าสุด:" ::
               map (fun t =>
                      ((if String.eqb (role t) "user"
                        then "นักศึกษา" else "หุ่นยนต์") ++
                       ": " ++ json_str sample_repr_json (content t))%string)
                 shown))%list.
Proof.
  split; [vm_compute; reflexivity|].
  split; [vm_compute; reflexivity|].
  split; [vm_compute; reflexivity|].
  apply (truncation_points sample_clock sample_repr sample_repr_json "s1"
           four_memories busy_world busy_session busy_turns);
    vm_compute; reflexivity.
Defined.

Lemma threshold_confidence_is_accepted_witness :
  PrimFloat.eqb (speech_confidence (speech_at 0.5%float))
    (stt_confidence_threshold sample_config) = true /\
  prior_turns "s1" empty_world = Some [] /\
  exists r w',
    process_speech sample_clock sample_repr sample_repr_json no_memories
      (gateway_says greeting_text) sample_loads sample_config
      (speech_at 0.5%float) empty_world = (r, w') /\
    calls w' =
      (calls empty_world ++
       speech_calls sample_clock sample_repr sample_repr_json no_memories
         sample_config (speech_at 0.5%float) empty_world [])%list /\
    (history_of "s1" w' =
       Some (slice_last 10
               ([] ++ [user_turn sample_clock (speech_at 0.5%float) empty_world])) \/
     exists t, role t = "assistant" /\
       history_of "s1" w' =
         Some (slice_last 10
                 ([] ++ [user_turn sample_clock (speech_at 0.5%float) empty_world; t]))).
Proof.
  split; [reflexivity|]. split; [reflexivity|].
  apply (threshold_confidence_is_accepted sample_clock sample_repr
           sample_repr_json no_memories (gateway_says greeting_text)
           sample_loads sample_config (speech_at 0.5%float) empty_world []);
    reflexivity.
Defined.

Lemma mutation_frame_witness :
  session_contexts busy_world !! "s1" = Some busy_session /\
  well_formed busy_session /\
  exists w' s',
    run_mutation sample_clock "s1"
      (UpdateEnvironment {[ "battery" := JInt 80 ]}) busy_world =
      (Returns tt, w') /\
    session_contexts w' !! "s1" = Some s' /\
    (forall key,
       key ∉ "last_updated" ::
             target_keys (UpdateEnvironment {[ "battery" := JInt 80 ]}) ->
       s' !! key = busy_session !! key) /\
    s' !! "session_id" = busy_session !! "session_id" /\
    s' !! "created_at" = busy_session !! "created_at" /\
    (forall d, environment_of busy_session = Some d ->
       exists d', environment_of s' = Some d' /\
                  forall k,
                    k ∉ written_environment
                          (UpdateEnvironment {[ "battery" := JInt 80 ]}) ->
                    d' !! k = d !! k) /\
    (forall sid', "s1" <> sid' ->
       session_contexts w' !! sid' = session_contexts busy_world !! sid').
Proof.
  assert (Hs : session_contexts busy_world !! "s1" = Some busy_session)
    by (vm_compute; reflexivity).
  assert (Hwf : well_formed busy_session)
    by (split; eexists; vm_compute; reflexivity).
  split; [exact Hs|]. split; [exact Hwf|].
  exact (mutation_frame sample_clock "s1"
           (UpdateEnvironment {[ "battery" := JInt 80 ]})
           busy_world busy_session Hs Hwf).
Defined.

Lemma fence_tolerance_witness :
  contains "```" greeting_text = false /\
  greeting_text <> "" /\
  sample_loads (strip greeting_text) = sample_loads greeting_text /\
  parse_structured sample_loads (Some greeting_text) =
    match sample_loads greeting_text with
    | Returns v => Returns v
    | Raises JSONDecodeError => Returns JNull
    | Raises e => Raises e
    end /\
  parse_structured sample_loads (Some (fenced_json greeting_text)) =
    parse_structured sample_loads (Some greeting_text) /\
  parse_structured sample_loads (Some (fenced_plain greeting_text)) =
    parse_structured sample_loads (Some greeting_text).
Proof.
  assert (Hne : greeting_text <> "") by (vm_compute; discriminate).
  split; [vm_compute; reflexivity|]. split; [exact Hne|].
  split; [vm_compute; reflexivity|].
  apply (fence_tolerance sample_loads greeting_text);
    [vm_compute; reflexivity | exact Hne | vm_compute; reflexivity].
Defined.

Lemma llm_failure_is_http_500_witness :
  PrimFloat.ltb (speech_confidence (speech_at 0.75%float))
    (stt_confidence_threshold sample_config) = false /\
  prior_turns "s1" empty_world = Some [] /\
  decoder_fails deep_loads
    (llm_reply sample_clock sample_repr sample_repr_json no_memories
       (gateway_says deep_text) sample_config (speech_at 0.75%float)
       empty_world []) RecursionError /\
  exists detail w',
    process_speech sample_clock sample_repr sample_repr_json no_memories
      (gateway_says deep_text) deep_loads sample_config (speech_at 0.75%float)
      empty_world =
      (Raises (HTTPException 500 detail), w') /\
    detail = RecursionError /\
    history_of "s1" w' =
      Some (slice_last 10
              ([] ++ [user_turn sample_clock (speech_at 0.75%float) empty_world])) /\
    calls w' =
      (calls empty_world ++
       speech_calls sample_clock sample_repr sample_repr_json no_memories
         sample_config (speech_at 0.75%float) empty_world [])%list.
Proof.
  assert (Hdeep : decoder_fails deep_loads
            (llm_reply sample_clock sample_repr sample_repr_json no_memories
               (gateway_says deep_text) sample_config (speech_at 0.75%float)
               empty_world []) RecursionError).
  { exists deep_text, deep_text.
    repeat split; try (vm_compute; reflexivity); discriminate. }
  split; [reflexivity|]. split; [reflexivity|]. split; [exact Hdeep|].
  destruct (llm_failure_is_http_500 sample_clock sample_repr sample_repr_json
              no_memories (gateway_says deep_text) deep_loads sample_config
              (speech_at 0.75%float) empty_world [])
    as (detail & w' & Hrun & _ & Hdetail & Hhistory & Hcalls);
    [reflexivity | reflexivity | right; right; by exists RecursionError |].
  exists detail, w'. split; [exact Hrun|].
  split; [by apply Hdetail|]. split; [exact Hhistory|exact Hcalls].
Defined.

Lemma failures_not_distinguished_witness :
  PrimFloat.ltb (speech_confidence (speech_at 0.75%float))
    (stt_confidence_threshold sample_config) = false /\
  prior_turns "s1" empty_world = Some [] /\
  no_response
    (llm_reply sample_clock sample_repr sample_repr_json no_memories
       gateway_down sample_config (speech_at 0.75%float) empty_world []) /\
  malformed_response deep_loads
    (llm_reply sample_clock sample_repr sample_repr_json no_memories
       (gateway_says "oops") sample_config (speech_at 0.75%float)
       empty_world []) /\
  decoder_fails deep_loads
    (llm_reply sample_clock sample_repr sample_repr_json no_memories
       (gateway_says deep_text) sample_config (speech_at 0.75%float)
       empty_world []) RecursionError /\
  process_speech sample_clock sample_repr sample_repr_json no_memories
    gateway_down deep_loads sample_config (speech_at 0.75%float) empty_world =
  process_speech sample_clock sample_repr sample_repr_json no_memories
    (gateway_says "oops") deep_loads sample_config (speech_at 0.75%float)
    empty_world /\
  fst (process_speech sample_clock sample_repr sample_repr_json no_memories
         (gateway_says "oops") deep_loads sample_config
         (speech_at 0.75%float) empty_world) =
    Raises (HTTPException 500 (Exception "LLM returned no response")) /\
  process_speech sample_clock sample_repr sample_repr_json no_memories
    (gateway_says deep_text) deep_loads sample_config (speech_at 0.75%float)
    empty_world =
    (Raises (HTTPException 500 RecursionError),
     snd (process_speech sample_clock sample_repr sample_repr_json no_memories
            gateway_down deep_loads sample_config (speech_at 0.75%float)
            empty_world)).
Proof.
  assert (Hdown : no_response
            (llm_reply sample_clock sample_repr sample_repr_json no_memories
               gateway_down sample_config (speech_at 0.75%float) empty_world []))
    by (left; reflexivity).
  assert (Hoops : malformed_response deep_loads
            (llm_reply sample_clock sample_repr sample_repr_json no_memories
               (gateway_says "oops") sample_config (speech_at 0.75%float)
               empty_world [])).
  { exists "oops", "oops". repeat split; try (vm_compute; reflexivity).
    discriminate. }
  assert (Hdeep : decoder_fails deep_loads
            (llm_reply sample_clock sample_repr sample_repr_json no_memories
               (gateway_says deep_text) sample_config (speech_at 0.75%float)
               empty_world []) RecursionError).
  { exists deep_text, deep_text.
    repeat split; try (vm_compute; reflexivity); discriminate. }
  split; [reflexivity|]. split; [reflexivity|].
  split; [exact Hdown|]. split; [exact Hoops|]. split; [exact Hdeep|].
  destruct (failures_not_distinguished sample_clock sample_repr sample_repr_json
              no_memories gateway_down (gateway_says "oops") deep_loads
              sample_config (speech_at 0.75%float) empty_world [])
    as (Hsame & Hdetail & Hcrash);
    [reflexivity | reflexivity | exact Hdown | exact Hoops |].
  split; [exact Hsame|]. split; [exact Hdetail|].
  exact (Hcrash (gateway_says deep_text) RecursionError Hdeep).
Defined.

(** ** Sample runs of the further properties *)

Lemma mutation_creates_missing_session_witness :
  session_contexts empty_world !! "s1" = None /\
  exists w' s',
    run_mutation sample_clock "s1" (UpdateLocation "library") empty_world =
      (Returns tt, w') /\
    get_session "s1" w' = (Returns (Some s'), w') /\
    s' !! "session_id" = Some (VStr "s1") /\
    s' !! "created_at" = Some (VStr (sample_clock (clock empty_world))) /\
    (forall key,
       key ∉ "last_updated" :: target_keys (UpdateLocation "library") ->
       s' !! key =
         new_session "s1" (sample_clock (clock empty_world))
           (sample_clock (S (clock empty_world))) !! key) /\
    (forall sid', "s1" <> sid' ->
       session_contexts w' !! sid' = session_contexts empty_world !! sid').
Proof.
  split; [reflexivity|].
  apply (mutation_creates_missing_session sample_clock "s1"
           (UpdateLocation "library") empty_world).
  reflexivity.
Defined.

Lemma update_environment_twice_witness :
  session_contexts busy_world !! "s1" = Some busy_session /\
  environment_of busy_session = Some {[ "door" := JStr "open" ]} /\
  exists w' s',
    (update_environment sample_clock "s1" {[ "battery" := JInt 80 ]} ;;;
     update_environment sample_clock "s1" {[ "door" := JStr "closed" ]})
      busy_world = (Returns tt, w') /\
    session_contexts w' !! "s1" = Some s' /\
    environment_of s' =
      Some ({[ "door" := JStr "closed" ]} ∪
            ({[ "battery" := JInt 80 ]} ∪ {[ "door" := JStr "open" ]})).
Proof.
  split; [vm_compute; reflexivity|]. split; [vm_compute; reflexivity|].
  destruct (update_environment_twice sample_clock "s1"
              {[ "battery" := JInt 80 ]} {[ "door" := JStr "closed" ]}
              busy_world busy_session {[ "door" := JStr "open" ]})
    as (w' & s' & Hrun & Hs' & Henv & _);
    [vm_compute; reflexivity | vm_compute; reflexivity |].
  exists w', s'. split; [exact Hrun|]. split; [exact Hs'|exact Henv].
Defined.

Lemma named_student_is_greeted_witness :
  session_contexts busy_world !! "s1" = Some busy_session /\
  busy_session !! "conversation_history" = Some (VList busy_turns) /\
  exists c w',
    (update_student_identity sample_clock "s1" "6402" "Malee" ;;;
     build_llm_context sample_clock "s1" four_memories) busy_world =
      (Returns c, w') /\
    student_info_id c = VStr "6402" /\
    student_info_name c = VStr "Malee" /\
    student_part sample_repr c =
      (if String.eqb "Malee" "unknown" then []
       else ["คุณกำลังพูดคุยกับ " ++ "Malee"]).
Proof.
  split; [vm_compute; reflexivity|]. split; [vm_compute; reflexivity|].
  apply (named_student_is_greeted sample_clock sample_repr "s1" "6402" "Malee"
           four_memories busy_world busy_session busy_turns);
    vm_compute; reflexivity.
Defined.

Lemma located_session_names_the_place_witness :
  session_contexts busy_world !! "s1" = Some busy_session /\
  busy_session !! "conversation_history" = Some (VList busy_turns) /\
  exists c w',
    (update_location sample_clock "s1" "canteen" ;;;
     build_llm_context sample_clock "s1" four_memories) busy_world =
      (Returns c, w') /\
    ctx_current_location c = VStr "canteen" /\
    location_part sample_repr c =
      (if String.eqb "canteen" "" || String.eqb "canteen" "unknown" then []
       else ["ตำแหน่งปัจจุบัน: " ++ "canteen"]).
Proof.
  split; [vm_compute; reflexivity|]. split; [vm_compute; reflexivity|].
  apply (located_session_names_the_place sample_clock sample_repr "s1"
           "canteen" four_memories busy_world busy_session busy_turns);
    vm_compute; reflexivity.
Defined.

Lemma build_creates_missing_session_witness :
  session_contexts empty_world !! "s1" = None /\
  exists c w',
    build_llm_context sample_clock "s1" four_memories empty_world =
      (Returns c, w') /\
    session_contexts w' !! "s1" =
      Some (new_session "s1" (sample_clock (clock empty_world))
              (sample_clock (S (clock empty_world)))) /\
    clock w' = 2 + clock empty_world /\
    ctx_conversation_history c = [] /\
    student_info_name c = VNone /\
    ctx_current_location c = VNone /\
    relevant_memories c = map to_relevant (slice_first 3 four_memories).
Proof.
  split; [reflexivity|].
  apply (build_creates_missing_session sample_clock "s1" four_memories
           empty_world).
  reflexivity.
Defined.

Lemma prompt_is_bounded_witness :
  build_llm_context sample_clock "s1" four_memories busy_world =
    (Returns busy_context, busy_world) /\
  length (ctx_conversation_history busy_context) <= 5 /\
  length (relevant_memories busy_context) <= 3 /\
  length (prompt_parts sample_repr sample_repr_json busy_context) <= 10.
Proof.
  split; [vm_compute; reflexivity|].
  apply (prompt_is_bounded sample_clock sample_repr sample_repr_json "s1"
           four_memories busy_world busy_context busy_world).
  vm_compute; reflexivity.
Defined.

Lemma generate_structured_raises_only_from_loads_witness :
  deep_loads deep_text = Raises RecursionError /\
  deep_loads "oops" = Raises JSONDecodeError /\
  fst (generate_structured (gateway_says deep_text) deep_loads "rules" "hello"
         0.5%float empty_world) = Raises RecursionError /\
  fst (generate_structured (gateway_says "oops") deep_loads "rules" "hello"
         0.5%float empty_world) = Returns JNull.
Proof.
  assert (Hdeep : deep_loads deep_text = Raises RecursionError)
    by (vm_compute; reflexivity).
  assert (Hoops : deep_loads "oops" = Raises JSONDecodeError)
    by (vm_compute; reflexivity).
  split; [exact Hdeep|]. split; [exact Hoops|]. split.
  - destruct (generate_structured_raises_only_from_loads
                (gateway_says deep_text) deep_loads "rules" "hello"
                0.5%float empty_world) as (r & Hrun & _ & Hcase).
    rewrite Hrun.
    destruct (Hcase deep_text deep_text RecursionError) as [[He _]|[_ Hr]];
      [ vm_compute; reflexivity | discriminate | vm_compute; reflexivity
      | exact Hdeep | discriminate He | exact Hr ].
  - destruct (generate_structured_raises_only_from_loads
                (gateway_says "oops") deep_loads "rules" "hello"
                0.5%float empty_world) as (r & Hrun & _ & Hcase).
    rewrite Hrun.
    destruct (Hcase "oops" "oops" JSONDecodeError) as [[_ Hr]|[He _]];
      [ vm_compute; reflexivity | discriminate | vm_compute; reflexivity
      | exact Hoops | exact Hr | by destruct He ].
Defined.

Lemma fenced_block_is_extracted_witness :
  contains "`" "Here is the answer: " = false /\
  contains fence greeting_text = false /\
  contains json_fence (fence ++ " I hope this helps.") = false /\
  remove_code_fence
    ("Here is the answer: " ++ fenced_json greeting_text ++ " I hope this helps.") =
    Returns (strip greeting_text) /\
  remove_code_fence
    ("Here is the answer: " ++ fenced_plain greeting_text ++ " I hope this helps.") =
    Returns (strip greeting_text).
Proof.
  split; [vm_compute; reflexivity|]. split; [vm_compute; reflexivity|].
  split; [vm_compute; reflexivity|].
  apply (fenced_block_is_extracted "Here is the answer: " greeting_text
           " I hope this helps."); vm_compute; reflexivity.
Defined.

Lemma unclosed_fence_is_accepted_witness :
  contains "`" "Here is the answer: " = false /\
  contains fence greeting_text = false /\
  contains json_fence (fence ++ greeting_text) = false /\
  remove_code_fence ("Here is the answer: " ++ json_fence ++ greeting_text) =
    Returns (strip greeting_text) /\
  remove_code_fence ("Here is the answer: " ++ fence ++ greeting_text) =
    Returns (strip greeting_text).
Proof.
  split; [vm_compute; reflexivity|]. split; [vm_compute; reflexivity|].
  split; [vm_compute; reflexivity|].
  destruct (unclosed_fence_is_accepted "Here is the answer: " greeting_text)
    as [Hjson Hplain]; [vm_compute; reflexivity | vm_compute; reflexivity |].
  split; [exact Hjson|]. apply Hplain. vm_compute; reflexivity.
Defined.

Lemma speech_reply_follows_llm_output_witness :
  PrimFloat.ltb (speech_confidence (speech_at 0.75%float))
    (stt_confidence_threshold sample_config) = false /\
  prior_turns "s1" empty_world = Some [] /\
  llm_output_of sample_clock sample_repr sample_repr_json no_memories
    (gateway_says greeting_text) sample_loads sample_config
    (speech_at 0.75%float) empty_world [] = Returns greeting_value /\
  exists w' t,
    process_speech sample_clock sample_repr sample_repr_json no_memories
      (gateway_says greeting_text) sample_loads sample_config
      (speech_at 0.75%float) empty_world =
      (Returns {| session_id := "s1"; response_text := "hi";
                  intent := "conversation";
                  should_navigate :=
                    fst (navigation_decision (JStr "conversation")
                           (output_location
                              [("response", JStr "hi");
                               ("intent", JStr "conversation")]));
                  navigation_goal :=
                    snd (navigation_decision (JStr "conversation")
                           (output_location
                              [("response", JStr "hi");
                               ("intent", JStr "conversation")])) |},
       w') /\
    role t = "assistant" /\ content t = JStr "hi" /\
    history_of "s1" w' =
      Some (slice_last 10
              ([] ++ [user_turn sample_clock (speech_at 0.75%float) empty_world;
                      t])) /\
    calls w' =
      (calls empty_world ++
       speech_calls sample_clock sample_repr sample_repr_json no_memories
         sample_config (speech_at 0.75%float) empty_world [])%list.
Proof.
  split; [reflexivity|]. split; [reflexivity|].
  split; [vm_compute; reflexivity|].
  apply (speech_reply_follows_llm_output sample_clock sample_repr
           sample_repr_json no_memories (gateway_says greeting_text)
           sample_loads sample_config (speech_at 0.75%float) empty_world []
           [("response", JStr "hi"); ("intent", JStr "conversation")]
           "hi" "conversation");
    [ reflexivity | reflexivity | vm_compute; reflexivity | discriminate
    | reflexivity | reflexivity ].
Defined.

Lemma non_object_output_is_http_500_witness :
  PrimFloat.ltb (speech_confidence (speech_at 0.75%float))
    (stt_confidence_threshold sample_config) = false /\
  prior_turns "s1" empty_world = Some [] /\
  llm_output_of sample_clock sample_repr sample_repr_json no_memories
    (gateway_says "1") sample_loads sample_config
    (speech_at 0.75%float) empty_world [] = Returns (JInt 1) /\
  truthy (JInt 1) = true /\
  exists w',
    process_speech sample_clock sample_repr sample_repr_json no_memories
      (gateway_says "1") sample_loads sample_config
      (speech_at 0.75%float) empty_world =
      (Raises (HTTPException 500 AttributeError), w') /\
    history_of "s1" w' =
      Some (slice_last 10
              ([] ++ [user_turn sample_clock (speech_at 0.75%float) empty_world])) /\
    calls w' =
      (calls empty_world ++
       speech_calls sample_clock sample_repr sample_repr_json no_memories
         sample_config (speech_at 0.75%float) empty_world [])%list.
Proof.
  split; [reflexivity|]. split; [reflexivity|].
  split; [vm_compute; reflexivity|]. split; [reflexivity|].
  apply (non_object_output_is_http_500 sample_clock sample_repr
           sample_repr_json no_memories (gateway_says "1") sample_loads
           sample_config (speech_at 0.75%float) empty_world [] (JInt 1));
    [ reflexivity | reflexivity | vm_compute; reflexivity | reflexivity
    | discriminate ].
Defined.

Lemma empty_output_is_http_500_witness :
  PrimFloat.ltb (speech_confidence (speech_at 0.75%float))
    (stt_confidence_threshold sample_config) = false /\
  prior_turns "s1" empty_world = Some [] /\
  llm_output_of sample_clock sample_repr sample_repr_json no_memories
    (gateway_says "{}") lenient_loads sample_config
    (speech_at 0.75%float) empty_world [] = Returns (JObj []) /\
  truthy (JObj []) = false /\
  exists w',
    process_speech sample_clock sample_repr sample_repr_json no_memories
      (gateway_says "{}") lenient_loads sample_config
      (speech_at 0.75%float) empty_world =
      (Raises (HTTPException 500 (Exception "LLM returned no response")), w') /\
    history_of "s1" w' =
      Some (slice_last 10
              ([] ++ [user_turn sample_clock (speech_at 0.75%float) empty_world])) /\
    calls w' =
      (calls empty_world ++
       speech_calls sample_clock sample_repr sample_repr_json no_memories
         sample_config (speech_at 0.75%float) empty_world [])%list.
Proof.
  split; [reflexivity|]. split; [reflexivity|].
  split; [vm_compute; reflexivity|]. split; [reflexivity|].
  apply (empty_output_is_http_500 sample_clock sample_repr
           sample_repr_json no_memories (gateway_says "{}") lenient_loads
           sample_config (speech_at 0.75%float) empty_world [] (JObj []));
    [ reflexivity | reflexivity | vm_compute; reflexivity | reflexivity ].
Defined.

Lemma context_update_writes_carried_fields_witness :
  session_contexts busy_world !! "s1" = Some busy_session /\
  well_formed busy_session /\
  exists w' s',
    update_context sample_clock partial_update busy_world =
      (Returns [ ("status", "success"); ("session_id", "s1");
                 ("message", "Context updated") ], w') /\
    session_contexts w' !! "s1" = Some s' /\
    s' !! "student_id" = busy_session !! "student_id" /\
    s' !! "student_name" = busy_session !! "student_name" /\
    s' !! "environment_info" = busy_session !! "environment_info" /\
    (forall key,
       key ∉ ["student_id"; "student_name"; "current_location";
              "environment_info"; "last_updated"] ->
       s' !! key = busy_session !! key).
Proof.
  assert (Hs : session_contexts busy_world !! "s1" = Some busy_session)
    by (vm_compute; reflexivity).
  assert (Hwf : well_formed busy_session)
    by (split; eexists; vm_compute; reflexivity).
  split; [exact Hs|]. split; [exact Hwf|].
  destruct (context_update_writes_carried_fields sample_clock partial_update
              busy_world busy_session Hs Hwf)
    as (w' & s' & Hrun & Hs' & Hid & _ & Henv & Hframe & _).
  exists w', s'. split; [exact Hrun|]. split; [exact Hs'|].
  split; [apply Hid; reflexivity|]. split; [apply Hid; reflexivity|].
  split; [apply Henv; reflexivity|exact Hframe].
Defined.

Lemma requests_touch_their_session_only_witness :
  Forall (fun r => request_session unit r <> "s1") other_session_requests /\
  session_contexts
    (serve_all sample_clock sample_repr sample_repr_json no_memories
       (gateway_says greeting_text) sample_loads sample_config unit None None
       other_session_requests busy_world) !! "s1" =
    session_contexts busy_world !! "s1".
Proof.
  assert (Hrs : Forall (fun r => request_session unit r <> "s1")
                  other_session_requests)
    by (repeat constructor; discriminate).
  split; [exact Hrs|].
  exact (requests_touch_their_session_only sample_clock sample_repr
           sample_repr_json no_memories (gateway_says greeting_text)
           sample_loads sample_config unit None None other_session_requests
           busy_world "s1" Hrs).
Defined.

Lemma voice_interaction_records_the_speech_witness :
  hears_hello tt = Returns ("hello", 0.75%float) /\
  serve sample_clock sample_repr sample_repr_json no_memories
    (gateway_says greeting_text) sample_loads sample_config unit
    (Some hears_hello) (Some mute) (VoiceRequest unit tt "s1") empty_world =
  serve sample_clock sample_repr sample_repr_json no_memories
    (gateway_says greeting_text) sample_loads sample_config unit
    (Some hears_hello) (Some mute)
    (SpeechRequest unit
       {| speech_session_id := "s1"; speech_text := "hello";
          speech_confidence := 0.75%float |})
    empty_world.
Proof.
  split; [reflexivity|].
  apply (voice_interaction_records_the_speech sample_clock sample_repr
           sample_repr_json no_memories (gateway_says greeting_text)
           sample_loads sample_config unit (Some hears_hello) (Some mute)
           tt "s1" hears_hello mute "hello" 0.75%float empty_world);
    reflexivity.
Defined.

(** ** Where the specification and the code part *)

(** C1: with the LLM down, or answering a text that is no JSON, an accepted
    request does not get a response: it ends in the HTTP error 500. *)
Lemma llm_down_is_an_error :
  PrimFloat.ltb (speech_confidence (speech_at 0.75%float))
    (stt_confidence_threshold sample_config) = false /\
  fst (process_speech sample_clock sample_repr sample_repr_json no_memories
         gateway_down sample_loads sample_config (speech_at 0.75%float)
         empty_world) =
    Raises (HTTPException 500 (Exception "LLM returned no response")) /\
  fst (process_speech sample_clock sample_repr sample_repr_json no_memories
         (gateway_says "oops") sample_loads sample_config
         (speech_at 0.75%float) empty_world) =
    Raises (HTTPException 500 (Exception "LLM returned no response")).
Proof. repeat split; vm_compute; reflexivity. Qed.

(** C6: a valid payload whose reply text holds fence markers parses to the
    number 1 when sent bare, and to [None] in either fence. *)
Lemma fence_inside_payload :
  sample_loads quoting_text = Returns quoting_value /\
  parse_structured sample_loads (Some quoting_text) = Returns (JInt 1) /\
  parse_structured sample_loads (Some (fenced_json quoting_text)) =
    Returns JNull /\
  parse_structured sample_loads (Some (fenced_plain quoting_text)) =
    Returns JNull.
Proof. repeat split; vm_compute; reflexivity. Qed.

(** C7: the request ends the same way, in the same state, whether the
    gateway is down or answers a text that is no JSON. *)
Lemma silent_and_garbled_coincide :
  process_speech sample_clock sample_repr sample_repr_json no_memories
    gateway_down sample_loads sample_config (speech_at 0.75%float) empty_world =
  process_speech sample_clock sample_repr sample_repr_json no_memories
    (gateway_says "oops") sample_loads sample_config (speech_at 0.75%float)
    empty_world.
Proof. vm_compute. reflexivity. Qed.
